(** * The request processor of the secrets daemon

    A shallow embedding of [Daemon::ApiImpl::RequestProcessor]
    (daemon/SecretsImpl/secretsrequestprocessor.cpp) and the properties of
    it that the specification states.

    The processor runs on one dispatch thread.  Its member functions become
    functions in a state monad over the processor's members; every call to a
    collaborator (the bookkeeping database, a plugin, an authentication
    plugin, the request queue) is answered by the collaborator and recorded
    in a trace, so that the order of bookkeeping and plugin effects can be
    stated.  A [QtConcurrent::run] whose result is awaited through a
    [QFutureWatcher] becomes a watcher holding the job and the captured
    variables of the [finished] lambda; the lambda is a function of the
    job's result. *)

From Stdlib Require Import ZArith NArith Strings.String Strings.Ascii Strings.Byte List Bool Lia.
From stdpp Require Import base gmap strings list fin_maps sorting.
Import ListNotations.

Open Scope string_scope.

(** ** Qt values *)

Abbreviation QString := string (only parsing).
Abbreviation QByteArray := (list byte) (only parsing).
Abbreviation pid_t := Z (only parsing).
Abbreviation quint64 := N (only parsing).

#[global] Instance byte_eq_dec : EqDecision byte := Byte.byte_eq_dec.

(** [QString::isEmpty]. *)
Definition isEmpty (s : QString) : bool :=
  match s with
  | EmptyString => true
  | String _ _ => false
  end.

(** Case folding of one character; the model covers the ASCII letters. *)
Definition toLower (c : ascii) : ascii :=
  let n := nat_of_ascii c in
  if (65 <=? n)%nat && (n <=? 90)%nat then ascii_of_nat (n + 32) else c.

Fixpoint foldCase (s : QString) : QString :=
  match s with
  | EmptyString => EmptyString
  | String c r => String (toLower c) (foldCase r)
  end.

(** [a.compare(b, Qt::CaseInsensitive) == 0].  A name is a string of 8-bit
    characters and the case of the letters A to Z is folded; Qt folds the case
    of every Unicode letter.  The two agree on ASCII names, and on every name
    when the other side is the literal "standalone"; they differ for two
    names that differ in the case of a letter outside ASCII. *)
Definition compareCaseInsensitive_eq0 (a b : QString) : bool :=
  bool_decide (foldCase a = foldCase b).

(** [a == b] on QString and QByteArray. *)
Definition qeq (a b : QString) : bool := bool_decide (a = b).
Definition beq (a b : QByteArray) : bool := bool_decide (a = b).

(** [a == b] on the values of an enumeration. *)
Definition same {A : Type} `{EqDecision A} (a b : A) : bool := bool_decide (a = b).

(** ** Result *)

(** Modelled from the spec: Secrets/result.h is not among the sources.  The
    processor builds a result either from a status ([Result(Result::Pending)])
    or from an error kind and a message, compares [code()] only with
    [Succeeded], [Pending] and [Failed], and the tests read the error kind
    with [errorCode()] next to a [code()] of [Failed]; the error kinds are
    those of section 7 of the specification. *)
Inductive ResultCode := Succeeded | Pending | Failed.

Inductive ErrorCode :=
| NoError
| UnknownError
| InvalidCollectionError
| CollectionAlreadyExistsError
| InvalidSecretError
| SecretAlreadyExistsError
| InvalidFilterError
| InvalidExtensionPluginError
| CollectionIsLockedError
| IncorrectAuthenticationCodeError
| SecretsDaemonLockedError
| OperationRequiresUserInteraction
| OperationRequiresApplicationUserInteraction
| InteractionViewUserCanceledError
| PermissionsError
| OperationNotSupportedError
| InterleavedRequestError.

Record Result := mkResult {
  code : ResultCode;
  errorCode : ErrorCode;
  errorMessage : QString
}.

#[global] Instance ResultCode_eq_dec : EqDecision ResultCode.
Proof. solve_decision. Defined.

#[global] Instance ErrorCode_eq_dec : EqDecision ErrorCode.
Proof. solve_decision. Defined.

#[global] Instance Result_eq_dec : EqDecision Result.
Proof. solve_decision. Defined.

(** [Result(Result::Succeeded)], [Result(Result::Pending)]. *)
Definition ResultOf (c : ResultCode) : Result :=
  {| code := c; errorCode := NoError; errorMessage := "" |}.

(** [Result(errorCode, errorMessage)]. *)
Definition ResultError (e : ErrorCode) (msg : QString) : Result :=
  {| code := Failed; errorCode := e; errorMessage := msg |}.

Definition isSucceeded (r : Result) : bool := bool_decide (code r = Succeeded).
Definition isFailed (r : Result) : bool := bool_decide (code r = Failed).
Definition isPending (r : Result) : bool := bool_decide (code r = Pending).

(** ** Enumerations of SecretManager and InteractionParameters *)

Inductive AccessControlMode := OwnerOnlyMode | SystemAccessControlMode | NoAccessControlMode.

Inductive UserInteractionMode := PreventInteraction | SystemInteraction | ApplicationInteraction.

(** The unlock semantics of device-lock and custom-lock collections; the
    bookkeeping database stores them as one integer column, which the model
    keeps as the enumeration. *)
Inductive UnlockSemantic :=
| DeviceLockKeepUnlocked
| DeviceLockRelock
| CustomLockKeepUnlocked
| CustomLockTimoutRelock.

Inductive FilterOperator := OperatorOr | OperatorAnd.

Inductive LockCodeTargetType := StandaloneSecret | Collection | ExtensionPlugin | BookkeepingDatabase.

Inductive Operation :=
| CreateCollection | StoreSecret | ReadSecret | UnlockCollection | DeleteSecret
| RequestUserData | UnlockDatabase | UnlockPlugin | ModifyLockDatabase | ModifyLockPlugin.

Inductive InputType := AlphaNumericInput | ConfirmationInput.

Inductive EchoMode := NormalEcho | PasswordEcho | NoEcho | PasswordEchoOnEdit.

#[global] Instance AccessControlMode_eq_dec : EqDecision AccessControlMode.
Proof. solve_decision. Defined.

#[global] Instance UserInteractionMode_eq_dec : EqDecision UserInteractionMode.
Proof. solve_decision. Defined.

#[global] Instance UnlockSemantic_eq_dec : EqDecision UnlockSemantic.
Proof. solve_decision. Defined.

#[global] Instance LockCodeTargetType_eq_dec : EqDecision LockCodeTargetType.
Proof. solve_decision. Defined.

(** ** Secrets and interaction parameters *)

Record Identifier := mkIdentifier {
  name : QString;
  collectionName : QString
}.

Record Secret := mkSecret {
  identifier : Identifier;
  data : QByteArray;
  filterData : list (QString * QString)
}.

Definition setCollectionName (s : Secret) (c : QString) : Secret :=
  {| identifier := {| name := name (identifier s); collectionName := c |};
     data := data s; filterData := filterData s |}.

Definition setData (s : Secret) (d : QByteArray) : Secret :=
  {| identifier := identifier s; data := d; filterData := filterData s |}.

Record InteractionParameters := mkInteractionParameters {
  ip_authenticationPluginName : QString;
  ip_applicationId : QString;
  ip_collectionName : QString;
  ip_secretName : QString;
  ip_operation : option Operation;
  ip_inputType : option InputType;
  ip_echoMode : option EchoMode;
  ip_promptText : QString
}.

(** A default-constructed [InteractionParameters]: nothing is set. *)
Definition InteractionParameters0 : InteractionParameters :=
  {| ip_authenticationPluginName := ""; ip_applicationId := ""; ip_collectionName := "";
     ip_secretName := ""; ip_operation := None; ip_inputType := None; ip_echoMode := None;
     ip_promptText := "" |}.

(** The prompt for key input data that the processor builds itself. *)
Definition ikdRequest (applicationId collection secret : QString) (op : Operation)
    (prompt : QString) : InteractionParameters :=
  {| ip_authenticationPluginName := ""; ip_applicationId := applicationId;
     ip_collectionName := collection; ip_secretName := secret;
     ip_operation := Some op; ip_inputType := Some AlphaNumericInput;
     ip_echoMode := Some PasswordEchoOnEdit; ip_promptText := prompt |}.

(** The caller's prompt for secret data, completed by the processor. *)
Definition modifiedUiParams (ui : InteractionParameters) (applicationId collection secret : QString)
    (prompt : QString) : InteractionParameters :=
  {| ip_authenticationPluginName := ip_authenticationPluginName ui;
     ip_applicationId := applicationId; ip_collectionName := collection;
     ip_secretName := secret; ip_operation := Some RequestUserData;
     ip_inputType := ip_inputType ui; ip_echoMode := ip_echoMode ui;
     ip_promptText := prompt |}.

(** ** Rows of the bookkeeping database

    One row of the Collections table and of the Secrets table: the out
    parameters of [collectionMetadata] and [secretMetadata]. *)

Record Metadata := mkMetadata {
  md_applicationId : QString;
  md_usesDeviceLockKey : bool;
  md_storagePluginName : QString;
  md_encryptionPluginName : QString;
  md_authenticationPluginName : QString;
  md_unlockSemantic : UnlockSemantic;
  md_customLockTimeoutMs : Z;
  md_accessControlMode : AccessControlMode
}.

(** The values the processor initialises the out parameters with. *)
Definition Metadata0 : Metadata :=
  {| md_applicationId := ""; md_usesDeviceLockKey := false; md_storagePluginName := "";
     md_encryptionPluginName := ""; md_authenticationPluginName := "";
     md_unlockSemantic := DeviceLockKeepUnlocked; md_customLockTimeoutMs := 0;
     md_accessControlMode := OwnerOnlyMode |}.

(** ** The bookkeeping database

    The database is a collaborator ([m_bkdb]); its implementation is not part
    of the processor.  A call names the operation and its arguments, the
    reply holds the returned [Result] and the values left in the out
    parameters. *)

Module Bkdb.

Inductive Call :=
| collectionNames
| collectionAlreadyExists (collectionName : QString)
| insertCollection (collectionName : QString) (row : Metadata)
| deleteCollection (collectionName : QString)
| cleanupDeleteCollection (collectionName : QString) (originalFailureResult : Result)
| collectionMetadata (collectionName : QString)
| secretAlreadyExists (collectionName hashedSecretName : QString)
| insertSecret (collectionName hashedSecretName : QString) (row : Metadata)
| updateSecret (collectionName hashedSecretName : QString) (row : Metadata)
| deleteSecret (collectionName hashedSecretName : QString)
| cleanupDeleteSecret (collectionName hashedSecretName : QString) (originalFailureResult : Result)
| secretMetadata (collectionName hashedSecretName : QString)
| hashedSecretNames (collectionName : QString)
| isInitialised
| isLocked
| unlock (key : QByteArray)
| lock
| reencrypt (oldKey newKey : QByteArray).

Record Reply := mkReply {
  result : Result;
  (** [exists], [found], [locked] or the returned [bool] *)
  flag : bool;
  metadata : Metadata;
  names : list QString
}.

(** The calls that change rows of the database. *)
Definition mutates (c : Call) : bool :=
  match c with
  | insertCollection _ _ | deleteCollection _ | cleanupDeleteCollection _ _
  | insertSecret _ _ _ | updateSecret _ _ _ | deleteSecret _ _
  | cleanupDeleteSecret _ _ _ => true
  | _ => false
  end.

End Bkdb.

(** ** Plugin calls the dispatch thread waits for

    [QtConcurrent::run] followed by [waitForFinished], the direct calls on an
    authentication plugin, and the crypto-plugin calls the request queue
    forwards. *)

Module Plugin.

Inductive Call :=
| isCollectionLocked (plugin collectionName : QString)
| modifyLockSpecificPlugin (lockCodeTarget : QString) (oldLockCode newLockCode : QByteArray)
| unlockSpecificPlugin (lockCodeTarget : QString) (lockCode : QByteArray)
| lockSpecificPlugin (lockCodeTarget : QString)
| supportsLocking (authenticationPlugin : QString)
| setLockCode (authenticationPlugin : QString) (oldLockCode newLockCode : QByteArray)
| unlock (authenticationPlugin : QString) (lockCode : QByteArray)
| lock (authenticationPlugin : QString)
| setLockCodeCryptoPlugin (lockCodeTarget : QString) (oldLockCode newLockCode : QByteArray)
| unlockCryptoPlugin (lockCodeTarget : QString) (lockCode : QByteArray)
| lockCryptoPlugin (lockCodeTarget : QString)
| unlockCollectionAndReencrypt (plugin collectionName : QString) (oldKey newKey : QByteArray)
    (isDeviceLocked : bool)
| reencryptSecrets (storagePlugin collectionName : QString) (hashedSecretNames : list QString)
    (oldKey newKey : QByteArray) (encryptionPlugin : QString)
| modifyMasterLockPlugins (storagePlugins encryptedStoragePlugins : list QString)
    (oldKey newKey : QByteArray)
| masterUnlockPlugins (storagePlugins encryptedStoragePlugins : list QString)
    (key : QByteArray)
| masterLockPlugins (storagePlugins encryptedStoragePlugins : list QString).

Record Reply := mkReply {
  result : Result;
  (** [locked], [found] or the returned [bool] *)
  flag : bool
}.

End Plugin.

(** ** Jobs run on the worker pool and awaited through a watcher *)

Module Job.

Inductive t :=
| EncryptedStorage_createCollection (plugin collectionName : QString) (key : QByteArray)
| Storage_createCollection (plugin collectionName : QString)
| EncryptedStorage_removeCollection (plugin collectionName : QString)
| Storage_removeCollection (plugin collectionName : QString)
| EncryptedStorage_deriveKeyFromCode (plugin : QString) (authenticationCode salt : QByteArray)
| Encryption_deriveKeyFromCode (plugin : QString) (authenticationCode salt : QByteArray)
| EncryptedStorage_unlockCollectionAndStoreSecret (plugin : QString) (secret : Secret)
    (hashedSecretName : QString) (key : QByteArray)
| Storage_encryptAndStoreSecret (encryptionPlugin storagePlugin : QString) (secret : Secret)
    (hashedSecretName : QString) (key : QByteArray)
| EncryptedStorage_setSecret (plugin collectionName hashedSecretName : QString) (secret : Secret)
    (key : QByteArray)
| EncryptedStorage_unlockCollectionAndReadSecret (plugin : QString) (id : Identifier)
    (hashedSecretName : QString) (key : QByteArray)
| Storage_getAndDecryptSecret (encryptionPlugin storagePlugin : QString) (id : Identifier)
    (hashedSecretName : QString) (key : QByteArray)
| EncryptedStorage_accessSecret (plugin collectionName hashedSecretName : QString) (key : QByteArray)
| EncryptedStorage_unlockAndFindSecrets (plugin collectionName : QString)
    (filter : list (QString * QString)) (op : FilterOperator) (key : QByteArray)
| Storage_findAndDecryptSecretNames (encryptionPlugin storagePlugin collectionName : QString)
    (filter : list (QString * QString)) (op : FilterOperator) (key : QByteArray)
| EncryptedStorage_unlockCollectionAndRemoveSecret (plugin : QString) (id : Identifier)
    (hashedSecretName : QString) (key : QByteArray)
| Storage_removeSecret (plugin collectionName hashedSecretName : QString)
| EncryptedStorage_unlockAndRemoveSecret (plugin collectionName hashedSecretName : QString)
    (usesDeviceLockKey : bool) (key : QByteArray).

(** What a job hands to the [finished] lambda: [Result], [DerivedKeyResult],
    [SecretResult], [SecretDataResult] or [IdentifiersResult]. *)
Inductive Outcome :=
| Plain (result : Result)
| DerivedKey (result : Result) (key : QByteArray)
| OfSecret (result : Result) (secret : Secret)
| OfSecretData (result : Result) (secretName : QString) (secretData : QByteArray)
    (secretFilterData : list (QString * QString))
| OfIdentifiers (result : Result) (identifiers : list Identifier).

(** The jobs that read a secret's payload from a plugin. *)
Definition readsSecret (j : t) : bool :=
  match j with
  | EncryptedStorage_unlockCollectionAndReadSecret _ _ _ _
  | Storage_getAndDecryptSecret _ _ _ _ _
  | EncryptedStorage_accessSecret _ _ _ _ => true
  | _ => false
  end.

End Job.

(** The captured variables of each [finished] lambda. *)
Inductive Continuation :=
| K_createDeviceLockCollection (requestId : quint64)
    (collectionName storagePluginName encryptionPluginName : QString)
    (accessControlMode : AccessControlMode)
| K_deleteCollection (callerPid : pid_t) (requestId : quint64) (collectionName : QString)
    (collectionAccessControlMode : AccessControlMode)
| K_setCollectionSecretWithAuthenticationCode (callerPid : pid_t) (requestId : quint64)
    (secret : Secret) (userInteractionMode : UserInteractionMode)
    (interactionServiceAddress : QString) (collection : Metadata)
| K_setCollectionSecretWithEncryptionKey (callerPid : pid_t) (requestId : quint64)
    (secret : Secret) (secretAlreadyExists : bool) (hashedSecretName : QString)
| K_writeStandaloneDeviceLockSecret (callerPid : pid_t) (requestId : quint64)
    (storagePluginName encryptionPluginName collectionName hashedSecretName : QString)
    (found : bool)
| K_getCollectionSecretWithEncryptionKey (requestId : quint64)
| K_getStandaloneSecretEncryptedStorage (requestId : quint64) (collectionName : QString)
| K_getStandaloneSecretStorage (requestId : quint64)
| K_findCollectionSecretsWithEncryptionKey (requestId : quint64)
| K_deleteCollectionSecretWithEncryptionKey (requestId : quint64) (id : Identifier)
    (hashedSecretName : QString) (collectionAccessControlMode : AccessControlMode)
| K_deleteStandaloneSecret (requestId : quint64)
    (secretStoragePluginName secretEncryptionPluginName collectionName hashedSecretName : QString).

Record Watcher := mkWatcher {
  future : Job.t;
  onFinished : Continuation
}.

(** ** Pending requests: suspended on an authentication plugin *)

Inductive RequestType :=
| CreateCustomLockCollectionRequest
| SetCollectionUserInputSecretRequest
| SetCollectionSecretRequest
| SetStandaloneDeviceLockUserInputSecretRequest
| SetStandaloneCustomLockUserInputSecretRequest
| SetStandaloneCustomLockSecretRequest
| GetCollectionSecretRequest
| GetStandaloneSecretRequest
| FindCollectionSecretsRequest
| DeleteCollectionSecretRequest
| ModifyLockCodeRequest
| ProvideLockCodeRequest
| UserInputRequest.

Inductive QVariant :=
| VString (s : QString)
| VInt (z : Z)
| VBool (b : bool)
| VByteArray (b : QByteArray)
| VSecret (s : Secret)
| VIdentifier (i : Identifier)
| VInteractionParameters (p : InteractionParameters)
| VFilterData (f : list (QString * QString))
| VFilterOperator (o : FilterOperator)
| VUnlockSemantic (u : UnlockSemantic)
| VAccessControlMode (a : AccessControlMode)
| VUserInteractionMode (u : UserInteractionMode).

Record PendingRequest := mkPendingRequest {
  pr_callerPid : pid_t;
  pr_requestId : quint64;
  pr_requestType : RequestType;
  pr_parameters : list QVariant
}.

(** The metadata a pending request carries, in the order of the source. *)
Definition metadataParams (m : Metadata) : list QVariant :=
  [VBool (md_usesDeviceLockKey m); VString (md_applicationId m);
   VString (md_storagePluginName m); VString (md_encryptionPluginName m);
   VString (md_authenticationPluginName m); VUnlockSemantic (md_unlockSemantic m);
   VInt (md_customLockTimeoutMs m); VAccessControlMode (md_accessControlMode m)].

(** ** Replies, timers and the trace *)

(** The out parameters handed to [requestFinished]. *)
Inductive OutParam :=
| OutResult (r : Result)
| OutSecret (s : Secret)
| OutIdentifiers (l : list Identifier).

Record QTimer := mkQTimer {
  timerId : nat;
  interval : Z;
  singleShot : bool
}.

#[global] Instance QTimer_eq_dec : EqDecision QTimer.
Proof. solve_decision. Defined.

Inductive Event :=
| EvBkdb (call : Bkdb.Call) (reply : Bkdb.Reply)
| EvPlugin (call : Plugin.Call) (reply : Plugin.Reply)
| EvUserInput (authenticationPlugin : QString) (callerPid : pid_t) (requestId : quint64)
    (params : InteractionParameters) (interactionServiceAddress : QString) (reply : Result)
| EvRun (job : Job.t)
| EvTimerStart (timer : QTimer)
| EvInitialise (lockCode : QByteArray) (ok : bool)
| EvRequestFinished (requestId : quint64) (outParams : list OutParam).

(** Modelled from the spec: the request queue (the surrounding daemon), which
    keeps the key material, is not among the sources.  It holds the bookkeeping lock key and the device-lock
    key, both derived from the lock code ("derive old and new key material"),
    and verifies a lock code against the current key. *)
Record KeyMaterial := mkKeyMaterial {
  bkdbLockKey : QByteArray;
  deviceLockKey : QByteArray;
  noLockCode : bool
}.

(** ** The processor's state *)

Record State (W : Type) := mkState {
  m_autotestMode : bool;
  (** the names under which plugins are registered *)
  m_storagePlugins : gset QString;
  m_encryptionPlugins : gset QString;
  m_encryptedStoragePlugins : gset QString;
  m_authenticationPlugins : gset QString;
  (** the collections that are busy (the interleave guard) *)
  m_busyCollections : gset QString;
  m_collectionEncryptionKeys : gmap QString QByteArray;
  m_standaloneSecretEncryptionKeys : gmap QString QByteArray;
  m_collectionLockTimers : gmap QString QTimer;
  m_standaloneSecretLockTimers : gmap QString QTimer;
  m_pendingRequests : gmap quint64 PendingRequest;
  (** the watchers whose future has not finished *)
  watchers : list Watcher;
  (** the timers created so far *)
  timers : list QTimer;
  (** the request queue's key material *)
  keyMaterial : KeyMaterial;
  (** the collaborators' own state *)
  world : W;
  trace : list Event
}.

Arguments mkState {W}.
Arguments m_autotestMode {W}.
Arguments m_storagePlugins {W}.
Arguments m_encryptionPlugins {W}.
Arguments m_encryptedStoragePlugins {W}.
Arguments m_authenticationPlugins {W}.
Arguments m_busyCollections {W}.
Arguments m_collectionEncryptionKeys {W}.
Arguments m_standaloneSecretEncryptionKeys {W}.
Arguments m_collectionLockTimers {W}.
Arguments m_standaloneSecretLockTimers {W}.
Arguments m_pendingRequests {W}.
Arguments watchers {W}.
Arguments timers {W}.
Arguments keyMaterial {W}.
Arguments world {W}.
Arguments trace {W}.

(** Assignment to one member. *)

Definition set_m_busyCollections {W : Type} (v : gset QString) (s : State W) : State W :=
  mkState (m_autotestMode s) (m_storagePlugins s) (m_encryptionPlugins s)
    (m_encryptedStoragePlugins s) (m_authenticationPlugins s) v (m_collectionEncryptionKeys s)
    (m_standaloneSecretEncryptionKeys s) (m_collectionLockTimers s)
    (m_standaloneSecretLockTimers s) (m_pendingRequests s) (watchers s) (timers s)
    (keyMaterial s) (world s) (trace s).

Definition set_m_collectionEncryptionKeys {W : Type} (v : gmap QString QByteArray) (s : State W) : State W :=
  mkState (m_autotestMode s) (m_storagePlugins s) (m_encryptionPlugins s)
    (m_encryptedStoragePlugins s) (m_authenticationPlugins s) (m_busyCollections s) v
    (m_standaloneSecretEncryptionKeys s) (m_collectionLockTimers s)
    (m_standaloneSecretLockTimers s) (m_pendingRequests s) (watchers s) (timers s)
    (keyMaterial s) (world s) (trace s).

Definition set_m_standaloneSecretEncryptionKeys {W : Type} (v : gmap QString QByteArray) (s : State W) : State W :=
  mkState (m_autotestMode s) (m_storagePlugins s) (m_encryptionPlugins s)
    (m_encryptedStoragePlugins s) (m_authenticationPlugins s) (m_busyCollections s)
    (m_collectionEncryptionKeys s) v (m_collectionLockTimers s)
    (m_standaloneSecretLockTimers s) (m_pendingRequests s) (watchers s) (timers s)
    (keyMaterial s) (world s) (trace s).

Definition set_m_collectionLockTimers {W : Type} (v : gmap QString QTimer) (s : State W) : State W :=
  mkState (m_autotestMode s) (m_storagePlugins s) (m_encryptionPlugins s)
    (m_encryptedStoragePlugins s) (m_authenticationPlugins s) (m_busyCollections s)
    (m_collectionEncryptionKeys s) (m_standaloneSecretEncryptionKeys s) v
    (m_standaloneSecretLockTimers s) (m_pendingRequests s) (watchers s) (timers s)
    (keyMaterial s) (world s) (trace s).

Definition set_m_standaloneSecretLockTimers {W : Type} (v : gmap QString QTimer) (s : State W) : State W :=
  mkState (m_autotestMode s) (m_storagePlugins s) (m_encryptionPlugins s)
    (m_encryptedStoragePlugins s) (m_authenticationPlugins s) (m_busyCollections s)
    (m_collectionEncryptionKeys s) (m_standaloneSecretEncryptionKeys s)
    (m_collectionLockTimers s) v (m_pendingRequests s) (watchers s) (timers s) (keyMaterial s)
    (world s) (trace s).

Definition set_m_pendingRequests {W : Type} (v : gmap quint64 PendingRequest) (s : State W) : State W :=
  mkState (m_autotestMode s) (m_storagePlugins s) (m_encryptionPlugins s)
    (m_encryptedStoragePlugins s) (m_authenticationPlugins s) (m_busyCollections s)
    (m_collectionEncryptionKeys s) (m_standaloneSecretEncryptionKeys s)
    (m_collectionLockTimers s) (m_standaloneSecretLockTimers s) v (watchers s) (timers s)
    (keyMaterial s) (world s) (trace s).

Definition set_watchers {W : Type} (v : list Watcher) (s : State W) : State W :=
  mkState (m_autotestMode s) (m_storagePlugins s) (m_encryptionPlugins s)
    (m_encryptedStoragePlugins s) (m_authenticationPlugins s) (m_busyCollections s)
    (m_collectionEncryptionKeys s) (m_standaloneSecretEncryptionKeys s)
    (m_collectionLockTimers s) (m_standaloneSecretLockTimers s) (m_pendingRequests s) v
    (timers s) (keyMaterial s) (world s) (trace s).

Definition set_timers {W : Type} (v : list QTimer) (s : State W) : State W :=
  mkState (m_autotestMode s) (m_storagePlugins s) (m_encryptionPlugins s)
    (m_encryptedStoragePlugins s) (m_authenticationPlugins s) (m_busyCollections s)
    (m_collectionEncryptionKeys s) (m_standaloneSecretEncryptionKeys s)
    (m_collectionLockTimers s) (m_standaloneSecretLockTimers s) (m_pendingRequests s)
    (watchers s) v (keyMaterial s) (world s) (trace s).

Definition set_keyMaterial {W : Type} (v : KeyMaterial) (s : State W) : State W :=
  mkState (m_autotestMode s) (m_storagePlugins s) (m_encryptionPlugins s)
    (m_encryptedStoragePlugins s) (m_authenticationPlugins s) (m_busyCollections s)
    (m_collectionEncryptionKeys s) (m_standaloneSecretEncryptionKeys s)
    (m_collectionLockTimers s) (m_standaloneSecretLockTimers s) (m_pendingRequests s)
    (watchers s) (timers s) v (world s) (trace s).

Definition set_world {W : Type} (v : W) (s : State W) : State W :=
  mkState (m_autotestMode s) (m_storagePlugins s) (m_encryptionPlugins s)
    (m_encryptedStoragePlugins s) (m_authenticationPlugins s) (m_busyCollections s)
    (m_collectionEncryptionKeys s) (m_standaloneSecretEncryptionKeys s)
    (m_collectionLockTimers s) (m_standaloneSecretLockTimers s) (m_pendingRequests s)
    (watchers s) (timers s) (keyMaterial s) v (trace s).

Definition set_trace {W : Type} (v : list Event) (s : State W) : State W :=
  mkState (m_autotestMode s) (m_storagePlugins s) (m_encryptionPlugins s)
    (m_encryptedStoragePlugins s) (m_authenticationPlugins s) (m_busyCollections s)
    (m_collectionEncryptionKeys s) (m_standaloneSecretEncryptionKeys s)
    (m_collectionLockTimers s) (m_standaloneSecretLockTimers s) (m_pendingRequests s)
    (watchers s) (timers s) (keyMaterial s) (world s) v.

(** ** The collaborators

    What the processor is given: the application permissions, the hash of
    secret names ([Daemon::Util]), the default authentication plugin's name
    and [InteractionParameters::isValid] (library declarations that are not
    among the sources), the authentication types of the authentication
    plugins, the salt and the key derivation of the request queue, and the
    answers of the bookkeeping database and of the plugins, which may depend
    on and change their own state [W]. *)

Class Collaborators (W : Type) := {
  applicationIsPlatformApplication : pid_t -> bool;
  platformApplicationId : QString;
  applicationId : pid_t -> QString;
  generateHashedSecretName : QString -> QString -> QString;
  DefaultAuthenticationPluginName : QString;
  isValid : InteractionParameters -> bool;
  (** [authenticationTypes() & ApplicationSpecificAuthentication] *)
  applicationSpecificAuthentication : QString -> bool;
  saltData : QByteArray;
  (** the bookkeeping lock key and the device-lock key of a lock code *)
  generateKeyData : QByteArray -> option (QByteArray * QByteArray);
  bkdb : Bkdb.Call -> W -> Bkdb.Reply * W;
  plugin : Plugin.Call -> W -> Plugin.Reply * W;
  beginUserInputInteraction :
    QString -> pid_t -> quint64 -> InteractionParameters -> QString -> W -> Result * W
}.

(** ** The monad of the dispatch thread *)

Definition M (W A : Type) : Type := State W -> A * State W.

Definition ret {W A : Type} (a : A) : M W A := fun s => (a, s).

Definition bind {W A B : Type} (m : M W A) (k : A -> M W B) : M W B :=
  fun s => let (a, s') := m s in k a s'.

Declare Scope proc_scope.
Delimit Scope proc_scope with proc.
Bind Scope proc_scope with M.

Notation "x <- m ;; k" := (bind m (fun x => k))
  (at level 100, m at next level, right associativity) : proc_scope.
Notation "m ;; k" := (bind m (fun _ => k))
  (at level 100, right associativity) : proc_scope.

Open Scope proc_scope.

Definition gets {W A : Type} (f : State W -> A) : M W A := fun s => (f s, s).

Definition modify {W : Type} (f : State W -> State W) : M W unit := fun s => (tt, f s).

Definition emit {W : Type} (e : Event) : M W unit :=
  modify (fun s => set_trace (trace s ++ [e]) s).

(** The state after a computation, and its value. *)
Definition exec {W A : Type} (m : M W A) (s : State W) : State W := snd (m s).
Definition eval {W A : Type} (m : M W A) (s : State W) : A := fst (m s).

(** The events a computation adds to the trace of [s]. *)
Definition events {W A : Type} (m : M W A) (s : State W) : list Event :=
  drop (length (trace s)) (trace (exec m s)).

(** ** The processor *)

Section Processor.

Context {W : Type} `{Collaborators W}.

Local Abbreviation M := (M W).

(** *** Calls to the collaborators *)

Definition callBkdb (c : Bkdb.Call) : M Bkdb.Reply := fun s =>
  let (r, w) := bkdb c (world s) in
  (r, set_trace (trace s ++ [EvBkdb c r]) (set_world w s)).

Definition callPlugin (c : Plugin.Call) : M Plugin.Reply := fun s =>
  let (r, w) := plugin c (world s) in
  (r, set_trace (trace s ++ [EvPlugin c r]) (set_world w s)).

Definition callBeginUserInputInteraction (authenticationPlugin : QString) (callerPid : pid_t)
    (requestId : quint64) (params : InteractionParameters) (interactionServiceAddress : QString)
    : M Result := fun s =>
  let (r, w) :=
    beginUserInputInteraction authenticationPlugin callerPid requestId params
      interactionServiceAddress (world s) in
  (r, set_trace
        (trace s ++
         [EvUserInput authenticationPlugin callerPid requestId params
            interactionServiceAddress r])
        (set_world w s)).

(** [QtConcurrent::run] on the worker pool, [watcher->setFuture] and the
    connection of the watcher's [finished] signal. *)
Definition run (job : Job.t) (k : Continuation) : M unit :=
  emit (EvRun job) ;;
  modify (fun s => set_watchers (watchers s ++ [mkWatcher job k]) s).

(** [m_requestQueue->requestFinished]. *)
Definition requestFinished (requestId : quint64) (outParams : list OutParam) : M unit :=
  emit (EvRequestFinished requestId outParams).

(** [m_pendingRequests.insert]. *)
Definition insertPendingRequest (callerPid : pid_t) (requestId : quint64) (type : RequestType)
    (parameters : list QVariant) : M unit :=
  modify (fun s =>
    set_m_pendingRequests
      (<[requestId := mkPendingRequest callerPid requestId type parameters]>
         (m_pendingRequests s)) s).

(** The block that ends every path which asks the user: begin the
    interaction and, unless that failed, park the request. *)
Definition beginInteractionAndSuspend (authenticationPlugin : QString) (callerPid : pid_t)
    (requestId : quint64) (params : InteractionParameters) (interactionServiceAddress : QString)
    (type : RequestType) (parameters : list QVariant) : M Result :=
  interactionResult <-
    callBeginUserInputInteraction authenticationPlugin callerPid requestId params
      interactionServiceAddress ;;
  if isFailed interactionResult then ret interactionResult
  else
    insertPendingRequest callerPid requestId type parameters ;;
    ret (ResultOf Pending).

(** The application id every operation computes first. *)
Definition callerApplicationId (callerPid : pid_t) : QString :=
  if applicationIsPlatformApplication callerPid then platformApplicationId
  else applicationId callerPid.

(** The authentication plugin used when the caller names none. *)
Definition defaultAuthenticationPlugin (autotestMode : bool) : QString :=
  if autotestMode then DefaultAuthenticationPluginName ++ ".test"
  else DefaultAuthenticationPluginName.

(** [userInputPlugin] as the operations that take [uiParams] compute it. *)
Definition userInputPluginOf (autotestMode : bool) (uiParams : InteractionParameters) : QString :=
  if isEmpty (ip_authenticationPluginName uiParams) then defaultAuthenticationPlugin autotestMode
  else ip_authenticationPluginName uiParams.

(** [map.contains(name)] on a plugin registry. *)
Definition contains (registry : gset QString) (name : QString) : bool :=
  bool_decide (name ∈ registry).

(** *** The request queue *)

(** Modelled from the spec: [initialise] of the request queue, which is not
    among the sources, derives the key material from a lock code and fails
    when no key data can be generated. *)
Definition initialise (lockCode : QByteArray) : M bool :=
  match generateKeyData lockCode with
  | Some (bk, dk) =>
      emit (EvInitialise lockCode true) ;;
      modify (fun s =>
        set_keyMaterial
          {| bkdbLockKey := bk; deviceLockKey := dk;
             noLockCode := noLockCode (keyMaterial s) |} s) ;;
      ret true
  | None => emit (EvInitialise lockCode false) ;; ret false
  end.

(** Modelled from the spec: [testLockCode] of the request queue verifies a
    lock code against the current keys. *)
Definition testLockCode (lockCode : QByteArray) : M bool :=
  gets (fun s =>
    match generateKeyData lockCode with
    | Some (bk, dk) =>
        beq bk (bkdbLockKey (keyMaterial s)) && beq dk (deviceLockKey (keyMaterial s))
    | None => false
    end).

(** Modelled from the spec: [setNoLockCode] of the request queue records
    whether the lock code is empty. *)
Definition setNoLockCode (b : bool) : M unit :=
  modify (fun s =>
    set_keyMaterial
      {| bkdbLockKey := bkdbLockKey (keyMaterial s);
         deviceLockKey := deviceLockKey (keyMaterial s); noLockCode := b |} s).

(** *** The interleave guard *)

(** Modelled from the spec: the four helpers of the guard are declared in the
    private header, which is not among the sources.  The guard is "a set of
    busy collection names": a name is inserted for the duration of an
    operation and removed on its terminal paths. *)
Definition interleavedRequestsAllowed (collectionName : QString) : M bool :=
  gets (fun s => negb (bool_decide (collectionName ∈ m_busyCollections s))).

(** Modelled from the spec: the name joins the busy collections. *)
Definition preventInterleavedRequests (collectionName : QString) : M unit :=
  modify (fun s => set_m_busyCollections ({[collectionName]} ∪ m_busyCollections s) s).

(** Modelled from the spec: the name leaves the busy collections. *)
Definition allowInterleavedRequests (collectionName : QString) : M unit :=
  modify (fun s => set_m_busyCollections (m_busyCollections s ∖ {[collectionName]}) s).

(** Modelled from the spec: the error of a request on a busy collection,
    "a recoverable signal to retry later". *)
Definition interleavedRequestError : Result :=
  ResultError InterleavedRequestError
    "Collection is being modified by another request, try again later".

(** *** createDeviceLockCollection *)

Definition createDeviceLockCollection (callerPid : pid_t) (requestId : quint64)
    (collectionName storagePluginName encryptionPluginName : QString)
    (unlockSemantic : UnlockSemantic) (accessControlMode : AccessControlMode) : M Result :=
  p <- gets id ;;
  if compareCaseInsensitive_eq0 collectionName "standalone" then
    ret (ResultError InvalidCollectionError "Reserved collection name given")
  else if qeq storagePluginName encryptionPluginName
          && negb (contains (m_encryptedStoragePlugins p) storagePluginName) then
    ret (ResultError InvalidExtensionPluginError
           ("No such encrypted storage plugin exists: " ++ storagePluginName))
  else if negb (qeq storagePluginName encryptionPluginName)
          && negb (contains (m_storagePlugins p) storagePluginName) then
    ret (ResultError InvalidExtensionPluginError
           ("No such storage plugin exists: " ++ storagePluginName))
  else if negb (qeq storagePluginName encryptionPluginName)
          && negb (contains (m_encryptionPlugins p) encryptionPluginName) then
    ret (ResultError InvalidExtensionPluginError
           ("No such encryption plugin exists: " ++ encryptionPluginName))
  else
    existsReply <- callBkdb (Bkdb.collectionAlreadyExists collectionName) ;;
    if negb (isSucceeded (Bkdb.result existsReply)) then ret (Bkdb.result existsReply)
    else if Bkdb.flag existsReply then
      ret (ResultError CollectionAlreadyExistsError
             ("Collection already exists: " ++ collectionName))
    else
      allowed <- interleavedRequestsAllowed collectionName ;;
      if negb allowed then ret interleavedRequestError
      else
        preventInterleavedRequests collectionName ;;
        insertReply <-
          callBkdb
            (Bkdb.insertCollection collectionName
               {| md_applicationId := callerApplicationId callerPid;
                  md_usesDeviceLockKey := true;
                  md_storagePluginName := storagePluginName;
                  md_encryptionPluginName := encryptionPluginName;
                  md_authenticationPluginName :=
                    defaultAuthenticationPlugin (m_autotestMode p);
                  md_unlockSemantic := unlockSemantic;
                  md_customLockTimeoutMs := 0;
                  md_accessControlMode := accessControlMode |}) ;;
        if negb (isSucceeded (Bkdb.result insertReply)) then ret (Bkdb.result insertReply)
        else
          key <- gets (fun s => deviceLockKey (keyMaterial s)) ;;
          run (if qeq storagePluginName encryptionPluginName
               then Job.EncryptedStorage_createCollection storagePluginName collectionName key
               else Job.Storage_createCollection storagePluginName collectionName)
              (K_createDeviceLockCollection requestId collectionName storagePluginName
                 encryptionPluginName accessControlMode) ;;
          ret (ResultOf Pending).

(** The [finished] lambda of [createDeviceLockCollection]. *)
Definition createDeviceLockCollection_finished (requestId : quint64)
    (collectionName storagePluginName encryptionPluginName : QString)
    (accessControlMode : AccessControlMode) (pluginResult : Result) : M unit :=
  pluginResult' <-
    (if negb (isSucceeded pluginResult) then
       cleanupReply <- callBkdb (Bkdb.cleanupDeleteCollection collectionName pluginResult) ;;
       if negb (isSucceeded (Bkdb.result cleanupReply)) then ret (Bkdb.result cleanupReply)
       else ret pluginResult
     else
       (if negb (qeq storagePluginName encryptionPluginName) then
          modify (fun s =>
            set_m_collectionEncryptionKeys
              (<[collectionName := deviceLockKey (keyMaterial s)]>
                 (m_collectionEncryptionKeys s)) s)
        else ret tt) ;;
       ret pluginResult) ;;
  allowInterleavedRequests collectionName ;;
  requestFinished requestId [OutResult pluginResult'].

(** *** createCustomLockCollection *)

Definition createCustomLockCollection (callerPid : pid_t) (requestId : quint64)
    (collectionName storagePluginName encryptionPluginName authenticationPluginName : QString)
    (unlockSemantic : UnlockSemantic) (customLockTimeoutMs : Z)
    (accessControlMode : AccessControlMode) (userInteractionMode : UserInteractionMode)
    (interactionServiceAddress : QString) : M Result :=
  p <- gets id ;;
  if compareCaseInsensitive_eq0 collectionName "standalone" then
    ret (ResultError InvalidCollectionError "Reserved collection name given")
  else if qeq storagePluginName encryptionPluginName
          && negb (contains (m_encryptedStoragePlugins p) storagePluginName) then
    ret (ResultError InvalidExtensionPluginError
           ("No such encrypted storage plugin exists: " ++ storagePluginName))
  else if negb (qeq storagePluginName encryptionPluginName)
          && negb (contains (m_storagePlugins p) storagePluginName) then
    ret (ResultError InvalidExtensionPluginError
           ("No such storage plugin exists: " ++ storagePluginName))
  else if negb (qeq storagePluginName encryptionPluginName)
          && negb (contains (m_encryptionPlugins p) encryptionPluginName) then
    ret (ResultError InvalidExtensionPluginError
           ("No such encryption plugin exists: " ++ encryptionPluginName))
  else if negb (contains (m_authenticationPlugins p) authenticationPluginName) then
    ret (ResultError InvalidExtensionPluginError
           ("No such authentication plugin exists: " ++ authenticationPluginName))
  else if applicationSpecificAuthentication authenticationPluginName
          && (negb (same userInteractionMode ApplicationInteraction)
              || isEmpty interactionServiceAddress) then
    ret (ResultError OperationRequiresApplicationUserInteraction
           ("Authentication plugin " ++ authenticationPluginName
            ++ " requires in-process user interaction"))
  else if same userInteractionMode PreventInteraction then
    ret (ResultError OperationRequiresUserInteraction
           ("Authentication plugin " ++ authenticationPluginName
            ++ " requires user interaction"))
  else
    existsReply <- callBkdb (Bkdb.collectionAlreadyExists collectionName) ;;
    if negb (isSucceeded (Bkdb.result existsReply)) then ret (Bkdb.result existsReply)
    else if Bkdb.flag existsReply then
      ret (ResultError CollectionAlreadyExistsError
             ("Collection already exists: " ++ collectionName))
    else
      beginInteractionAndSuspend authenticationPluginName callerPid requestId
        (ikdRequest (callerApplicationId callerPid) collectionName "" CreateCollection
           ("Enter the passphrase which will be used to encrypt the new collection "
            ++ collectionName ++ " in plugin " ++ storagePluginName))
        interactionServiceAddress
        CreateCustomLockCollectionRequest
        [VString collectionName; VString storagePluginName; VString encryptionPluginName;
         VString authenticationPluginName; VUnlockSemantic unlockSemantic;
         VInt customLockTimeoutMs; VAccessControlMode accessControlMode;
         VUserInteractionMode userInteractionMode; VString interactionServiceAddress].

(** *** deleteCollection *)

Definition deleteCollectionFinalise (callerPid : pid_t) (requestId : quint64)
    (collectionName : QString) (collectionAccessControlMode : AccessControlMode) : M unit :=
  modify (fun s =>
    set_m_collectionEncryptionKeys (delete collectionName (m_collectionEncryptionKeys s)) s) ;;
  modify (fun s =>
    set_m_collectionLockTimers (delete collectionName (m_collectionLockTimers s)) s) ;;
  deleteReply <- callBkdb (Bkdb.deleteCollection collectionName) ;;
  if negb (isSucceeded (Bkdb.result deleteReply)) then
    requestFinished requestId [OutResult (Bkdb.result deleteReply)]
  else
    requestFinished requestId [OutResult (ResultOf Succeeded)].

Definition deleteCollection (callerPid : pid_t) (requestId : quint64) (collectionName : QString)
    (userInteractionMode : UserInteractionMode) : M Result :=
  p <- gets id ;;
  if compareCaseInsensitive_eq0 collectionName "standalone" then
    ret (ResultError InvalidCollectionError "Reserved collection name given")
  else if isEmpty collectionName then
    ret (ResultError InvalidCollectionError "Empty collection name given")
  else
    metadataReply <- callBkdb (Bkdb.collectionMetadata collectionName) ;;
    let c := Bkdb.metadata metadataReply in
    if negb (isSucceeded (Bkdb.result metadataReply)) then ret (Bkdb.result metadataReply)
    else if negb (Bkdb.flag metadataReply) then ret (ResultOf Succeeded)
    else if same (md_accessControlMode c) SystemAccessControlMode then
      ret (ResultError OperationNotSupportedError
             "Access control requests are not currently supported. TODO!")
    else if same (md_accessControlMode c) OwnerOnlyMode
            && negb (qeq (md_applicationId c) (callerApplicationId callerPid)) then
      ret (ResultError PermissionsError
             ("Collection " ++ collectionName ++ " is owned by a different application"))
    else if qeq (md_storagePluginName c) (md_encryptionPluginName c)
            && negb (contains (m_encryptedStoragePlugins p) (md_storagePluginName c)) then
      ret (ResultError InvalidExtensionPluginError
             ("No such encrypted storage plugin exists: " ++ md_storagePluginName c))
    else if negb (qeq (md_storagePluginName c) (md_encryptionPluginName c))
            && (isEmpty (md_storagePluginName c)
                || negb (contains (m_storagePlugins p) (md_storagePluginName c))) then
      ret (ResultError InvalidExtensionPluginError
             ("No such storage plugin exists: " ++ md_storagePluginName c))
    else if same (md_accessControlMode c) OwnerOnlyMode
            && negb (qeq (md_applicationId c) (callerApplicationId callerPid)) then
      ret (ResultError PermissionsError "Not the owner, cannot delete collection")
    else
      preventInterleavedRequests collectionName ;;
      run (if qeq (md_storagePluginName c) (md_encryptionPluginName c)
           then Job.EncryptedStorage_removeCollection (md_storagePluginName c) collectionName
           else Job.Storage_removeCollection (md_storagePluginName c) collectionName)
          (K_deleteCollection callerPid requestId collectionName (md_accessControlMode c)) ;;
      ret (ResultOf Pending).

(** The [finished] lambda of [deleteCollection]. *)
Definition deleteCollection_finished (callerPid : pid_t) (requestId : quint64)
    (collectionName : QString) (collectionAccessControlMode : AccessControlMode)
    (pluginResult : Result) : M unit :=
  allowInterleavedRequests collectionName ;;
  if isFailed pluginResult then requestFinished requestId [OutResult pluginResult]
  else deleteCollectionFinalise callerPid requestId collectionName collectionAccessControlMode.

(** *** setCollectionSecretMetadata and deleteCollectionSecretMetadata *)

Definition setCollectionSecretMetadata (callerPid : pid_t) (requestId : quint64)
    (identifier : Identifier) : M Result :=
  p <- gets id ;;
  if isEmpty (name identifier) then
    ret (ResultError InvalidSecretError "Empty secret name given")
  else if isEmpty (collectionName identifier) then
    ret (ResultError InvalidCollectionError "Empty collection name given")
  else if compareCaseInsensitive_eq0 (collectionName identifier) "standalone" then
    ret (ResultError InvalidCollectionError "Reserved collection name given")
  else
    allowed <- interleavedRequestsAllowed (collectionName identifier) ;;
    if negb allowed then ret interleavedRequestError
    else
      metadataReply <- callBkdb (Bkdb.collectionMetadata (collectionName identifier)) ;;
      let c := Bkdb.metadata metadataReply in
      if negb (isSucceeded (Bkdb.result metadataReply)) then ret (Bkdb.result metadataReply)
      else if negb (Bkdb.flag metadataReply) then
        ret (ResultError InvalidCollectionError "Nonexistent collection name given")
      else if same (md_accessControlMode c) SystemAccessControlMode then
        ret (ResultError OperationNotSupportedError
               "Access control requests are not currently supported. TODO!")
      else if same (md_accessControlMode c) OwnerOnlyMode
              && negb (qeq (md_applicationId c) (callerApplicationId callerPid)) then
        ret (ResultError PermissionsError
               ("Collection " ++ collectionName identifier
                ++ " is owned by a different application"))
      else if qeq (md_storagePluginName c) (md_encryptionPluginName c)
              && negb (contains (m_encryptedStoragePlugins p) (md_storagePluginName c)) then
        ret (ResultError InvalidExtensionPluginError
               ("No such encrypted storage plugin exists: " ++ md_storagePluginName c))
      else if negb (qeq (md_storagePluginName c) (md_encryptionPluginName c))
              && (isEmpty (md_storagePluginName c)
                  || negb (contains (m_storagePlugins p) (md_storagePluginName c))) then
        ret (ResultError InvalidExtensionPluginError
               ("No such storage plugin exists: " ++ md_storagePluginName c))
      else if negb (qeq (md_storagePluginName c) (md_encryptionPluginName c))
              && (isEmpty (md_encryptionPluginName c)
                  || negb (contains (m_encryptionPlugins p) (md_encryptionPluginName c))) then
        ret (ResultError InvalidExtensionPluginError
               ("No such encryption plugin exists: " ++ md_encryptionPluginName c))
      else if negb (qeq (md_storagePluginName c) (md_encryptionPluginName c)) then
        ret (ResultError InvalidExtensionPluginError
               "The identified collection is not encrypted by that plugin")
      else
        lr <-
          callPlugin
            (Plugin.isCollectionLocked (md_storagePluginName c) (collectionName identifier)) ;;
        if negb (isSucceeded (Plugin.result lr)) then ret (Plugin.result lr)
        else if Plugin.flag lr then
          if md_usesDeviceLockKey c then
            ret (ResultError CollectionIsLockedError
                   ("Collection " ++ collectionName identifier
                    ++ " is locked and requires device lock authentication"))
          else
            ret (ResultError OperationRequiresUserInteraction
                   ("Collection " ++ collectionName identifier
                    ++ " is locked and requires user interaction to unlock"))
        else
          let hashedSecretName :=
            generateHashedSecretName (collectionName identifier) (name identifier) in
          existsReply <-
            callBkdb (Bkdb.secretAlreadyExists (collectionName identifier) hashedSecretName) ;;
          if negb (isSucceeded (Bkdb.result existsReply)) then ret (Bkdb.result existsReply)
          else if Bkdb.flag existsReply then
            ret (ResultError SecretAlreadyExistsError
                   ("A secret with name " ++ name identifier
                    ++ " already exists in the collection " ++ collectionName identifier))
          else
            insertReply <-
              callBkdb (Bkdb.insertSecret (collectionName identifier) hashedSecretName c) ;;
            ret (Bkdb.result insertReply).

Definition deleteCollectionSecretMetadata (callerPid : pid_t) (requestId : quint64)
    (identifier : Identifier) : M Result :=
  if isEmpty (name identifier) then
    ret (ResultError InvalidSecretError "Empty secret name given")
  else if isEmpty (collectionName identifier) then
    ret (ResultError InvalidCollectionError "Empty collection name given")
  else if compareCaseInsensitive_eq0 (collectionName identifier) "standalone" then
    ret (ResultError InvalidCollectionError "Reserved collection name given")
  else
    deleteReply <-
      callBkdb
        (Bkdb.deleteSecret (collectionName identifier)
           (generateHashedSecretName (collectionName identifier) (name identifier))) ;;
    ret (Bkdb.result deleteReply).

(** *** setCollectionSecret *)

Definition setCollectionSecretWithEncryptionKeyFinalise (callerPid : pid_t) (requestId : quint64)
    (secret : Secret) (secretAlreadyExists : bool) (hashedSecretName : QString)
    (pluginResult : Result) : M unit :=
  returnResult <-
    (if isFailed pluginResult && negb secretAlreadyExists then
       cleanupReply <-
         callBkdb
           (Bkdb.cleanupDeleteSecret (collectionName (identifier secret)) hashedSecretName
              pluginResult) ;;
       if negb (isSucceeded (Bkdb.result cleanupReply)) then ret (Bkdb.result cleanupReply)
       else ret pluginResult
     else ret pluginResult) ;;
  requestFinished requestId [OutResult returnResult].

Definition setCollectionSecretWithEncryptionKey (callerPid : pid_t) (requestId : quint64)
    (secret : Secret) (userInteractionMode : UserInteractionMode)
    (interactionServiceAddress : QString) (collection : Metadata) (encryptionKey : QByteArray)
    : M unit :=
  let collectionName := collectionName (identifier secret) in
  let hashedSecretName := generateHashedSecretName collectionName (name (identifier secret)) in
  existsReply <- callBkdb (Bkdb.secretAlreadyExists collectionName hashedSecretName) ;;
  let secretAlreadyExists := Bkdb.flag existsReply in
  if negb (isSucceeded (Bkdb.result existsReply)) then
    requestFinished requestId [OutResult (Bkdb.result existsReply)]
  else
    inserted <-
      (if negb secretAlreadyExists then
         insertReply <- callBkdb (Bkdb.insertSecret collectionName hashedSecretName collection) ;;
         ret (Bkdb.result insertReply)
       else ret (ResultOf Succeeded)) ;;
    if negb (isSucceeded inserted) then requestFinished requestId [OutResult inserted]
    else
      (if qeq (md_storagePluginName collection) (md_encryptionPluginName collection) then
         run (Job.EncryptedStorage_unlockCollectionAndStoreSecret
                (md_storagePluginName collection) secret hashedSecretName encryptionKey)
             (K_setCollectionSecretWithEncryptionKey callerPid requestId secret
                secretAlreadyExists hashedSecretName)
       else
         modify (fun s =>
           if bool_decide (is_Some (m_collectionEncryptionKeys s !! collectionName)) then s
           else
             set_m_collectionEncryptionKeys
               (<[collectionName := encryptionKey]> (m_collectionEncryptionKeys s)) s) ;;
         run (Job.Storage_encryptAndStoreSecret (md_encryptionPluginName collection)
                (md_storagePluginName collection) secret hashedSecretName encryptionKey)
             (K_setCollectionSecretWithEncryptionKey callerPid requestId secret
                secretAlreadyExists hashedSecretName)).

Definition setCollectionSecretWithAuthenticationCode (callerPid : pid_t) (requestId : quint64)
    (secret : Secret) (userInteractionMode : UserInteractionMode)
    (interactionServiceAddress : QString) (collection : Metadata)
    (authenticationCode : QByteArray) : M Result :=
  p <- gets id ;;
  let fused := qeq (md_storagePluginName collection) (md_encryptionPluginName collection) in
  if fused && negb (contains (m_encryptedStoragePlugins p) (md_storagePluginName collection)) then
    ret (ResultError InvalidExtensionPluginError
           ("Unknown collection encrypted storage plugin: " ++ md_storagePluginName collection))
  else if negb fused
          && negb (contains (m_encryptionPlugins p) (md_encryptionPluginName collection)) then
    ret (ResultError InvalidExtensionPluginError
           ("Unknown collection encryption plugin: " ++ md_encryptionPluginName collection))
  else
    run (if fused
         then Job.EncryptedStorage_deriveKeyFromCode (md_encryptionPluginName collection)
                authenticationCode saltData
         else Job.Encryption_deriveKeyFromCode (md_encryptionPluginName collection)
                authenticationCode saltData)
        (K_setCollectionSecretWithAuthenticationCode callerPid requestId secret
           userInteractionMode interactionServiceAddress collection) ;;
    ret (ResultOf Pending).

(** The [finished] lambda of [setCollectionSecretWithAuthenticationCode]. *)
Definition setCollectionSecretWithAuthenticationCode_finished (callerPid : pid_t)
    (requestId : quint64) (secret : Secret) (userInteractionMode : UserInteractionMode)
    (interactionServiceAddress : QString) (collection : Metadata)
    (dkrResult : Result) (dkrKey : QByteArray) : M unit :=
  if negb (isSucceeded dkrResult) then requestFinished requestId [OutResult dkrResult]
  else
    setCollectionSecretWithEncryptionKey callerPid requestId secret userInteractionMode
      interactionServiceAddress collection dkrKey.

(** The prompt for the passphrase that unlocks a collection to store a secret. *)
Definition storeSecretPrompt (callerPid : pid_t) (secret : Secret) : InteractionParameters :=
  ikdRequest (callerApplicationId callerPid) (collectionName (identifier secret))
    (name (identifier secret)) StoreSecret
    ("Enter the passphrase to unlock the collection " ++ collectionName (identifier secret)
     ++ " in order to store secret " ++ name (identifier secret)).

(** The tail that both branches of [setCollectionSecretGetAuthenticationCode]
    share once the collection is known to be locked. *)
Definition setCollectionSecretUnlockFlow (callerPid : pid_t) (requestId : quint64)
    (secret : Secret) (userInteractionMode : UserInteractionMode)
    (interactionServiceAddress : QString) (collection : Metadata) : M Result :=
  if md_usesDeviceLockKey collection then
    ret (ResultError CollectionIsLockedError
           ("Collection " ++ collectionName (identifier secret)
            ++ " is locked and requires device lock authentication"))
  else if same userInteractionMode PreventInteraction then
    ret (ResultError OperationRequiresUserInteraction
           ("Authentication plugin " ++ md_authenticationPluginName collection
            ++ " requires user interaction"))
  else
    beginInteractionAndSuspend (md_authenticationPluginName collection) callerPid requestId
      (storeSecretPrompt callerPid secret) interactionServiceAddress
      SetCollectionSecretRequest
      ([VSecret secret; VUserInteractionMode userInteractionMode;
        VString interactionServiceAddress] ++ metadataParams collection).

Definition setCollectionSecretGetAuthenticationCode (callerPid : pid_t) (requestId : quint64)
    (secret : Secret) (userInteractionMode : UserInteractionMode)
    (interactionServiceAddress : QString) (collection : Metadata) : M Result :=
  if qeq (md_storagePluginName collection) (md_encryptionPluginName collection) then
    lr <-
      callPlugin
        (Plugin.isCollectionLocked (md_storagePluginName collection)
           (collectionName (identifier secret))) ;;
    if negb (isSucceeded (Plugin.result lr)) then ret (Plugin.result lr)
    else if negb (Plugin.flag lr) then
      setCollectionSecretWithEncryptionKey callerPid requestId secret userInteractionMode
        interactionServiceAddress collection [] ;;
      ret (ResultOf Pending)
    else
      setCollectionSecretUnlockFlow callerPid requestId secret userInteractionMode
        interactionServiceAddress collection
  else
    cached <-
      gets (fun s => m_collectionEncryptionKeys s !! collectionName (identifier secret)) ;;
    match cached with
    | Some key =>
        setCollectionSecretWithEncryptionKey callerPid requestId secret userInteractionMode
          interactionServiceAddress collection key ;;
        ret (ResultOf Pending)
    | None =>
        setCollectionSecretUnlockFlow callerPid requestId secret userInteractionMode
          interactionServiceAddress collection
    end.

Definition setCollectionSecret (callerPid : pid_t) (requestId : quint64) (secret : Secret)
    (uiParams : InteractionParameters) (userInteractionMode : UserInteractionMode)
    (interactionServiceAddress : QString) : M Result :=
  p <- gets id ;;
  let id := identifier secret in
  if isEmpty (name id) then
    ret (ResultError InvalidSecretError "Empty secret name given")
  else if isEmpty (collectionName id) then
    ret (ResultError InvalidCollectionError "Empty collection name given")
  else if compareCaseInsensitive_eq0 (collectionName id) "standalone" then
    ret (ResultError InvalidCollectionError "Reserved collection name given")
  else
    metadataReply <- callBkdb (Bkdb.collectionMetadata (collectionName id)) ;;
    let c := Bkdb.metadata metadataReply in
    if negb (isSucceeded (Bkdb.result metadataReply)) then ret (Bkdb.result metadataReply)
    else if negb (Bkdb.flag metadataReply) then
      ret (ResultError InvalidCollectionError "Nonexistent collection name given")
    else if same (md_accessControlMode c) SystemAccessControlMode then
      ret (ResultError OperationNotSupportedError
             "Access control requests are not currently supported. TODO!")
    else if same (md_accessControlMode c) OwnerOnlyMode
            && negb (qeq (md_applicationId c) (callerApplicationId callerPid)) then
      ret (ResultError PermissionsError
             ("Collection " ++ collectionName id ++ " is owned by a different application"))
    else if qeq (md_storagePluginName c) (md_encryptionPluginName c)
            && negb (contains (m_encryptedStoragePlugins p) (md_storagePluginName c)) then
      ret (ResultError InvalidExtensionPluginError
             ("No such encrypted storage plugin exists: " ++ md_storagePluginName c))
    else if negb (qeq (md_storagePluginName c) (md_encryptionPluginName c))
            && (isEmpty (md_storagePluginName c)
                || negb (contains (m_storagePlugins p) (md_storagePluginName c))) then
      ret (ResultError InvalidExtensionPluginError
             ("No such storage plugin exists: " ++ md_storagePluginName c))
    else if negb (qeq (md_storagePluginName c) (md_encryptionPluginName c))
            && (isEmpty (md_encryptionPluginName c)
                || negb (contains (m_encryptionPlugins p) (md_encryptionPluginName c))) then
      ret (ResultError InvalidExtensionPluginError
             ("No such encryption plugin exists: " ++ md_encryptionPluginName c))
    else if negb (isValid uiParams) then
      setCollectionSecretGetAuthenticationCode callerPid requestId secret userInteractionMode
        interactionServiceAddress c
    else
      let userInputPlugin := userInputPluginOf (m_autotestMode p) uiParams in
      if negb (contains (m_authenticationPlugins p) userInputPlugin) then
        ret (ResultError InvalidExtensionPluginError
               ("Cannot get user input from invalid authentication plugin: "
                ++ ip_authenticationPluginName uiParams))
      else
        let modifiedUiParams :=
          modifiedUiParams uiParams (callerApplicationId callerPid) (collectionName id)
            (name id)
            ("Enter confidential data for secret " ++ name id ++ " in collection "
             ++ collectionName id ++ " stored by plugin " ++ md_storagePluginName c) in
        beginInteractionAndSuspend userInputPlugin callerPid requestId modifiedUiParams
          interactionServiceAddress
          SetCollectionUserInputSecretRequest
          ([VSecret secret; VInteractionParameters modifiedUiParams;
            VUserInteractionMode userInteractionMode; VString interactionServiceAddress]
           ++ metadataParams c).

(** *** Relock timers *)

(** [new QTimer(this)], [setInterval], [setSingleShot(true)], [start]. *)
Definition startSingleShotTimer (customLockTimeoutMs : Z) : M QTimer :=
  t <- gets (fun s => mkQTimer (length (timers s)) customLockTimeoutMs true) ;;
  modify (fun s => set_timers (timers s ++ [t]) s) ;;
  emit (EvTimerStart t) ;;
  ret t.

(** The entries of a [QMap] in the order its iterator visits them: by
    ascending key. *)
Definition keyLe {V : Type} (a b : QString * V) : Prop := String.leb a.1 b.1 = true.

#[global] Instance keyLe_dec {V : Type} (a b : QString * V) : Decision (keyLe a b).
Proof. unfold keyLe. apply _. Defined.

Definition entries {V : Type} (m : gmap QString V) : list (QString * V) :=
  merge_sort keyLe (map_to_list m).

(** The key of the first entry whose value is the timer that fired. *)
Definition findTimer (m : gmap QString QTimer) (timer : QTimer) : option QString :=
  fst <$> List.find (fun kv => bool_decide (kv.2 = timer)) (entries m).

(** The slot of a collection's relock timer; [sender()] is the timer. *)
Definition timeoutRelockCollection (sender : QTimer) : M unit :=
  found <- gets (fun s => findTimer (m_collectionLockTimers s) sender) ;;
  match found with
  | Some key =>
      modify (fun s =>
        set_m_collectionEncryptionKeys (delete key (m_collectionEncryptionKeys s)) s) ;;
      modify (fun s => set_m_collectionLockTimers (delete key (m_collectionLockTimers s)) s)
  | None => ret tt
  end.

(** The slot of a standalone secret's relock timer. *)
Definition timeoutRelockSecret (sender : QTimer) : M unit :=
  found <- gets (fun s => findTimer (m_standaloneSecretLockTimers s) sender) ;;
  match found with
  | Some key =>
      modify (fun s =>
        set_m_standaloneSecretEncryptionKeys
          (delete key (m_standaloneSecretEncryptionKeys s)) s) ;;
      modify (fun s =>
        set_m_standaloneSecretLockTimers (delete key (m_standaloneSecretLockTimers s)) s)
  | None => ret tt
  end.

(** *** getCollectionSecret *)

Definition getCollectionSecretWithEncryptionKey (callerPid : pid_t) (requestId : quint64)
    (identifier : Identifier) (userInteractionMode : UserInteractionMode)
    (interactionServiceAddress storagePluginName encryptionPluginName : QString)
    (collectionUnlockSemantic : UnlockSemantic) (collectionCustomLockTimeoutMs : Z)
    (encryptionKey : QByteArray) : M unit :=
  (if same collectionUnlockSemantic CustomLockTimoutRelock then
     armed <- gets (fun s => m_collectionLockTimers s !! collectionName identifier) ;;
     match armed with
     | Some _ => ret tt
     | None =>
         timer <- startSingleShotTimer collectionCustomLockTimeoutMs ;;
         modify (fun s =>
           set_m_collectionLockTimers
             (<[collectionName identifier := timer]> (m_collectionLockTimers s)) s)
     end
   else ret tt) ;;
  let hashedSecretName :=
    generateHashedSecretName (collectionName identifier) (name identifier) in
  if qeq storagePluginName encryptionPluginName then
    run (Job.EncryptedStorage_unlockCollectionAndReadSecret storagePluginName identifier
           hashedSecretName encryptionKey)
        (K_getCollectionSecretWithEncryptionKey requestId)
  else
    modify (fun s =>
      if bool_decide (is_Some (m_collectionEncryptionKeys s !! collectionName identifier))
      then s
      else
        set_m_collectionEncryptionKeys
          (<[collectionName identifier := encryptionKey]> (m_collectionEncryptionKeys s)) s) ;;
    key <-
      gets (fun s => default [] (m_collectionEncryptionKeys s !! collectionName identifier)) ;;
    run (Job.Storage_getAndDecryptSecret encryptionPluginName storagePluginName identifier
           hashedSecretName key)
        (K_getCollectionSecretWithEncryptionKey requestId).

(** The [finished] lambda of [getCollectionSecretWithEncryptionKey]. *)
Definition getCollectionSecretWithEncryptionKey_finished (requestId : quint64)
    (srResult : Result) (srSecret : Secret) : M unit :=
  requestFinished requestId [OutResult srResult; OutSecret srSecret].

(** What [getCollectionSecret] does with a locked collection, in both the
    encrypted-storage and the split branch. *)
Definition getCollectionSecretUnlockFlow (callerPid : pid_t) (requestId : quint64)
    (identifier : Identifier) (userInteractionMode : UserInteractionMode)
    (interactionServiceAddress : QString) (collection : Metadata) : M Result :=
  if md_usesDeviceLockKey collection then
    ret (ResultError CollectionIsLockedError
           ("Collection " ++ collectionName identifier
            ++ " is locked and requires device lock authentication"))
  else if same userInteractionMode PreventInteraction then
    ret (ResultError OperationRequiresUserInteraction
           ("Authentication plugin " ++ md_authenticationPluginName collection
            ++ " requires user interaction"))
  else if applicationSpecificAuthentication (md_authenticationPluginName collection)
          && (negb (same userInteractionMode ApplicationInteraction)
              || isEmpty interactionServiceAddress) then
    ret (ResultError OperationRequiresApplicationUserInteraction
           ("Authentication plugin " ++ md_authenticationPluginName collection
            ++ " requires in-process user interaction"))
  else
    beginInteractionAndSuspend (md_authenticationPluginName collection) callerPid requestId
      (ikdRequest (callerApplicationId callerPid) (collectionName identifier)
         (name identifier) ReadSecret
         "sailfish_secrets_get_collection_secret_input_key_data_prompt")
      interactionServiceAddress
      GetCollectionSecretRequest
      [VIdentifier identifier; VUserInteractionMode userInteractionMode;
       VString interactionServiceAddress; VString (md_storagePluginName collection);
       VString (md_encryptionPluginName collection);
       VUnlockSemantic (md_unlockSemantic collection);
       VInt (md_customLockTimeoutMs collection)].

Definition getCollectionSecret (callerPid : pid_t) (requestId : quint64)
    (identifier : Identifier) (userInteractionMode : UserInteractionMode)
    (interactionServiceAddress : QString) : M Result :=
  p <- gets id ;;
  if isEmpty (name identifier) then
    ret (ResultError InvalidSecretError "Empty secret name given")
  else if isEmpty (collectionName identifier) then
    ret (ResultError InvalidCollectionError "Empty collection name given")
  else if compareCaseInsensitive_eq0 (collectionName identifier) "standalone" then
    ret (ResultError InvalidCollectionError "Reserved collection name given")
  else
    metadataReply <- callBkdb (Bkdb.collectionMetadata (collectionName identifier)) ;;
    let c := Bkdb.metadata metadataReply in
    if negb (isSucceeded (Bkdb.result metadataReply)) then ret (Bkdb.result metadataReply)
    else if negb (Bkdb.flag metadataReply) then
      ret (ResultError InvalidCollectionError "Nonexistent collection name given")
    else if qeq (md_storagePluginName c) (md_encryptionPluginName c)
            && negb (contains (m_encryptedStoragePlugins p) (md_storagePluginName c)) then
      ret (ResultError InvalidExtensionPluginError
             ("No such encrypted storage plugin exists: " ++ md_storagePluginName c))
    else if negb (qeq (md_storagePluginName c) (md_encryptionPluginName c))
            && negb (contains (m_storagePlugins p) (md_storagePluginName c)) then
      ret (ResultError InvalidExtensionPluginError
             ("No such storage plugin exists: " ++ md_storagePluginName c))
    else if negb (qeq (md_storagePluginName c) (md_encryptionPluginName c))
            && negb (contains (m_encryptionPlugins p) (md_encryptionPluginName c)) then
      ret (ResultError InvalidExtensionPluginError
             ("No such encryption plugin exists: " ++ md_encryptionPluginName c))
    else if same (md_accessControlMode c) SystemAccessControlMode then
      ret (ResultError OperationNotSupportedError
             "Access control requests are not currently supported. TODO!")
    else if same (md_accessControlMode c) OwnerOnlyMode
            && negb (qeq (md_applicationId c) (callerApplicationId callerPid)) then
      ret (ResultError PermissionsError
             ("Collection " ++ collectionName identifier
              ++ " is owned by a different application"))
    else if negb (contains (m_authenticationPlugins p) (md_authenticationPluginName c)) then
      ret (ResultError InvalidExtensionPluginError
             ("No such authentication plugin available: " ++ md_authenticationPluginName c))
    else if qeq (md_storagePluginName c) (md_encryptionPluginName c) then
      lr <-
        callPlugin
          (Plugin.isCollectionLocked (md_storagePluginName c) (collectionName identifier)) ;;
      if negb (isSucceeded (Plugin.result lr)) then ret (Plugin.result lr)
      else if Plugin.flag lr then
        getCollectionSecretUnlockFlow callerPid requestId identifier userInteractionMode
          interactionServiceAddress c
      else
        getCollectionSecretWithEncryptionKey callerPid requestId identifier
          userInteractionMode interactionServiceAddress (md_storagePluginName c)
          (md_encryptionPluginName c) (md_unlockSemantic c) (md_customLockTimeoutMs c) [] ;;
        ret (ResultOf Pending)
    else
      cached <- gets (fun s => m_collectionEncryptionKeys s !! collectionName identifier) ;;
      match cached with
      | None =>
          getCollectionSecretUnlockFlow callerPid requestId identifier userInteractionMode
            interactionServiceAddress c
      | Some key =>
          getCollectionSecretWithEncryptionKey callerPid requestId identifier
            userInteractionMode interactionServiceAddress (md_storagePluginName c)
            (md_encryptionPluginName c) (md_unlockSemantic c) (md_customLockTimeoutMs c) key ;;
          ret (ResultOf Pending)
      end.

(** *** getStandaloneSecret *)

Definition getStandaloneSecretWithEncryptionKey (callerPid : pid_t) (requestId : quint64)
    (identifier : Identifier) (userInteractionMode : UserInteractionMode)
    (interactionServiceAddress storagePluginName encryptionPluginName : QString)
    (secretUnlockSemantic : UnlockSemantic) (secretCustomLockTimeoutMs : Z)
    (encryptionKey : QByteArray) : M unit :=
  (if same secretUnlockSemantic CustomLockTimoutRelock then
     armed <- gets (fun s => m_standaloneSecretLockTimers s !! name identifier) ;;
     match armed with
     | Some _ => ret tt
     | None =>
         timer <- startSingleShotTimer secretCustomLockTimeoutMs ;;
         modify (fun s =>
           set_m_standaloneSecretLockTimers
             (<[name identifier := timer]> (m_standaloneSecretLockTimers s)) s)
     end
   else ret tt) ;;
  let collectionName := "standalone" in
  let hashedSecretName := generateHashedSecretName collectionName (name identifier) in
  if qeq storagePluginName encryptionPluginName then
    run (Job.EncryptedStorage_accessSecret encryptionPluginName collectionName
           hashedSecretName encryptionKey)
        (K_getStandaloneSecretEncryptedStorage requestId collectionName)
  else
    modify (fun s =>
      if bool_decide (is_Some (m_standaloneSecretEncryptionKeys s !! hashedSecretName)) then s
      else
        set_m_standaloneSecretEncryptionKeys
          (<[hashedSecretName := encryptionKey]> (m_standaloneSecretEncryptionKeys s)) s) ;;
    key <- gets (fun s => default [] (m_standaloneSecretEncryptionKeys s !! hashedSecretName)) ;;
    run (Job.Storage_getAndDecryptSecret encryptionPluginName storagePluginName
           (mkIdentifier (name identifier) collectionName) hashedSecretName key)
        (K_getStandaloneSecretStorage requestId).

(** The two [finished] lambdas of [getStandaloneSecretWithEncryptionKey]. *)
Definition getStandaloneSecretEncryptedStorage_finished (requestId : quint64)
    (collectionName : QString) (sdrResult : Result) (sdrSecretName : QString)
    (sdrSecretData : QByteArray) (sdrSecretFilterData : list (QString * QString)) : M unit :=
  requestFinished requestId
    [OutResult sdrResult;
     OutSecret (mkSecret (mkIdentifier sdrSecretName collectionName) sdrSecretData
                  sdrSecretFilterData)].

Definition getStandaloneSecretStorage_finished (requestId : quint64) (srResult : Result)
    (srSecret : Secret) : M unit :=
  requestFinished requestId [OutResult srResult; OutSecret (setCollectionName srSecret "")].

Definition getStandaloneSecret (callerPid : pid_t) (requestId : quint64)
    (identifier : Identifier) (userInteractionMode : UserInteractionMode)
    (interactionServiceAddress : QString) : M Result :=
  p <- gets id ;;
  if isEmpty (name identifier) then
    ret (ResultError InvalidSecretError "Empty secret name given")
  else if negb (isEmpty (collectionName identifier)) then
    ret (ResultError InvalidCollectionError
           "Non-empty collection given for standalone secret request")
  else
    let collectionName := "standalone" in
    let hashedSecretName := generateHashedSecretName collectionName (name identifier) in
    metadataReply <- callBkdb (Bkdb.secretMetadata collectionName hashedSecretName) ;;
    let m := Bkdb.metadata metadataReply in
    if negb (isSucceeded (Bkdb.result metadataReply)) then ret (Bkdb.result metadataReply)
    else if negb (Bkdb.flag metadataReply) then
      ret (ResultError InvalidSecretError "Nonexistent secret name given")
    else if qeq (md_storagePluginName m) (md_encryptionPluginName m)
            && negb (contains (m_encryptedStoragePlugins p) (md_storagePluginName m)) then
      ret (ResultError InvalidExtensionPluginError
             ("No such encrypted storage plugin exists: " ++ md_storagePluginName m))
    else if negb (qeq (md_storagePluginName m) (md_encryptionPluginName m))
            && negb (contains (m_storagePlugins p) (md_storagePluginName m)) then
      ret (ResultError InvalidExtensionPluginError
             ("No such storage plugin exists: " ++ md_storagePluginName m))
    else if negb (qeq (md_storagePluginName m) (md_encryptionPluginName m))
            && negb (contains (m_encryptionPlugins p) (md_encryptionPluginName m)) then
      ret (ResultError InvalidExtensionPluginError
             ("No such encryption plugin exists: " ++ md_encryptionPluginName m))
    else if same (md_accessControlMode m) SystemAccessControlMode then
      ret (ResultError OperationNotSupportedError
             "Access control requests are not currently supported. TODO!")
    else if same (md_accessControlMode m) OwnerOnlyMode
            && negb (qeq (md_applicationId m) (callerApplicationId callerPid)) then
      ret (ResultError PermissionsError
             ("Secret " ++ name identifier ++ " is owned by a different application"))
    else if applicationSpecificAuthentication (md_authenticationPluginName m)
            && (negb (same userInteractionMode ApplicationInteraction)
                || isEmpty interactionServiceAddress) then
      ret (ResultError OperationRequiresApplicationUserInteraction
             ("Authentication plugin " ++ md_authenticationPluginName m
              ++ " requires in-process user interaction"))
    else
      cached <- gets (fun s => m_standaloneSecretEncryptionKeys s !! hashedSecretName) ;;
      match cached with
      | Some key =>
          getStandaloneSecretWithEncryptionKey callerPid requestId identifier
            userInteractionMode interactionServiceAddress (md_storagePluginName m)
            (md_encryptionPluginName m) (md_unlockSemantic m) (md_customLockTimeoutMs m) key ;;
          ret (ResultOf Pending)
      | None =>
          if md_usesDeviceLockKey m then
            ret (ResultError CollectionIsLockedError
                   ("Secret " ++ name identifier
                    ++ " is locked and requires device lock authentication"))
          else if same userInteractionMode PreventInteraction then
            ret (ResultError OperationRequiresUserInteraction
                   ("Authentication plugin " ++ md_authenticationPluginName m
                    ++ " requires user interaction"))
          else
            beginInteractionAndSuspend (md_authenticationPluginName m) callerPid requestId
              (ikdRequest (callerApplicationId callerPid) "" (name identifier) ReadSecret
                 "sailfish_secrets_get_standalone_secret_input_key_data_prompt")
              interactionServiceAddress
              GetStandaloneSecretRequest
              [VIdentifier identifier; VUserInteractionMode userInteractionMode;
               VString interactionServiceAddress; VString (md_storagePluginName m);
               VString (md_encryptionPluginName m); VUnlockSemantic (md_unlockSemantic m);
               VInt (md_customLockTimeoutMs m)]
      end.

(** *** setStandaloneDeviceLockSecret *)

Definition writeStandaloneDeviceLockSecretFinalise (callerPid : pid_t) (requestId : quint64)
    (storagePluginName encryptionPluginName collectionName hashedSecretName : QString)
    (found : bool) (pluginResult : Result) : M unit :=
  returnResult <-
    (if isFailed pluginResult then
       if negb found then
         cleanupReply <-
           callBkdb (Bkdb.cleanupDeleteSecret collectionName hashedSecretName pluginResult) ;;
         if negb (isSucceeded (Bkdb.result cleanupReply)) then ret (Bkdb.result cleanupReply)
         else ret pluginResult
       else ret pluginResult
     else
       (if negb (qeq storagePluginName encryptionPluginName) then
          modify (fun s =>
            set_m_standaloneSecretEncryptionKeys
              (<[hashedSecretName := deviceLockKey (keyMaterial s)]>
                 (m_standaloneSecretEncryptionKeys s)) s)
        else ret tt) ;;
       ret pluginResult) ;;
  requestFinished requestId [OutResult returnResult].

Definition writeStandaloneDeviceLockSecret (callerPid : pid_t) (requestId : quint64)
    (callerApplicationId storagePluginName encryptionPluginName : QString) (secret : Secret)
    (collectionName hashedSecretName : QString) (found : bool)
    (unlockSemantic : UnlockSemantic) (accessControlMode : AccessControlMode) : M Result :=
  p <- gets id ;;
  let row :=
    {| md_applicationId := callerApplicationId;
       md_usesDeviceLockKey := true;
       md_storagePluginName := storagePluginName;
       md_encryptionPluginName := encryptionPluginName;
       md_authenticationPluginName := defaultAuthenticationPlugin (m_autotestMode p);
       md_unlockSemantic := unlockSemantic;
       md_customLockTimeoutMs := 0;
       md_accessControlMode := accessControlMode |} in
  insertUpdateReply <-
    callBkdb (if found then Bkdb.updateSecret collectionName hashedSecretName row
              else Bkdb.insertSecret collectionName hashedSecretName row) ;;
  if negb (isSucceeded (Bkdb.result insertUpdateReply)) then
    ret (Bkdb.result insertUpdateReply)
  else
    key <- gets (fun s => deviceLockKey (keyMaterial s)) ;;
    run (if qeq storagePluginName encryptionPluginName
         then Job.EncryptedStorage_setSecret storagePluginName collectionName hashedSecretName
                secret key
         else Job.Storage_encryptAndStoreSecret encryptionPluginName storagePluginName
                (setCollectionName secret collectionName) hashedSecretName key)
        (K_writeStandaloneDeviceLockSecret callerPid requestId storagePluginName
           encryptionPluginName collectionName hashedSecretName found) ;;
    ret (ResultOf Pending).

Definition setStandaloneDeviceLockSecret (callerPid : pid_t) (requestId : quint64)
    (storagePluginName encryptionPluginName : QString) (secret : Secret)
    (uiParams : InteractionParameters) (unlockSemantic : UnlockSemantic)
    (accessControlMode : AccessControlMode) (userInteractionMode : UserInteractionMode)
    (interactionServiceAddress : QString) : M Result :=
  p <- gets id ;;
  let id := identifier secret in
  if isEmpty (name id) then
    ret (ResultError InvalidSecretError "Empty secret name given")
  else if qeq storagePluginName encryptionPluginName
          && negb (contains (m_encryptedStoragePlugins p) storagePluginName) then
    ret (ResultError InvalidExtensionPluginError
           ("No such encrypted storage plugin exists: " ++ storagePluginName))
  else if negb (qeq storagePluginName encryptionPluginName)
          && negb (contains (m_storagePlugins p) storagePluginName) then
    ret (ResultError InvalidExtensionPluginError
           ("No such storage plugin exists: " ++ storagePluginName))
  else if negb (qeq storagePluginName encryptionPluginName)
          && negb (contains (m_encryptionPlugins p) encryptionPluginName) then
    ret (ResultError InvalidExtensionPluginError
           ("No such encryption plugin exists: " ++ encryptionPluginName))
  else
    let standaloneCollectionName := "standalone" in
    let hashedSecretName := generateHashedSecretName standaloneCollectionName (name id) in
    metadataReply <- callBkdb (Bkdb.secretMetadata standaloneCollectionName hashedSecretName) ;;
    let m := Bkdb.metadata metadataReply in
    let found := Bkdb.flag metadataReply in
    if negb (isSucceeded (Bkdb.result metadataReply)) then ret (Bkdb.result metadataReply)
    else if found && same (md_accessControlMode m) SystemAccessControlMode then
      ret (ResultError OperationNotSupportedError
             "Access control requests are not currently supported. TODO!")
    else if found && same (md_accessControlMode m) OwnerOnlyMode
            && negb (qeq (md_applicationId m) (callerApplicationId callerPid)) then
      ret (ResultError PermissionsError
             ("Secret " ++ name id ++ " is owned by a different application"))
    else if found && negb (md_usesDeviceLockKey m) then
      ret (ResultError OperationNotSupportedError
             ("Secret " ++ name id
              ++ " already exists and is not a devicelock protected secret"))
    else if found
            && negb (compareCaseInsensitive_eq0 (md_storagePluginName m) storagePluginName) then
      ret (ResultError OperationNotSupportedError
             ("Secret " ++ name id ++ " already exists and is not stored via plugin "
              ++ storagePluginName))
    else if negb (isValid uiParams) then
      writeStandaloneDeviceLockSecret callerPid requestId (callerApplicationId callerPid)
        storagePluginName encryptionPluginName secret standaloneCollectionName hashedSecretName
        found
        unlockSemantic accessControlMode
    else
      let userInputPlugin := userInputPluginOf (m_autotestMode p) uiParams in
      if negb (contains (m_authenticationPlugins p) userInputPlugin) then
        ret (ResultError InvalidExtensionPluginError
               ("Cannot get user input from invalid authentication plugin: "
                ++ ip_authenticationPluginName uiParams))
      else
        beginInteractionAndSuspend userInputPlugin callerPid requestId
          (modifiedUiParams uiParams (callerApplicationId callerPid)
             (collectionName id) (name id)
             ("Enter confidential data for secret " ++ name id ++ " in collection "
              ++ collectionName id ++ " stored by " ++ storagePluginName))
          interactionServiceAddress
          SetStandaloneDeviceLockUserInputSecretRequest
          [VSecret secret; VString (callerApplicationId callerPid); VString storagePluginName;
           VString encryptionPluginName; VString standaloneCollectionName;
           VString hashedSecretName;
           VBool found; VUnlockSemantic unlockSemantic; VAccessControlMode accessControlMode].

(** *** setStandaloneCustomLockSecret *)

Definition setStandaloneCustomLockSecretGetAuthenticationCode (callerPid : pid_t)
    (requestId : quint64)
    (callerApplicationId storagePluginName encryptionPluginName authenticationPluginName : QString)
    (secret : Secret) (unlockSemantic : UnlockSemantic) (customLockTimeoutMs : Z)
    (accessControlMode : AccessControlMode) (userInteractionMode : UserInteractionMode)
    (interactionServiceAddress : QString) : M Result :=
  beginInteractionAndSuspend authenticationPluginName callerPid requestId
    (ikdRequest callerApplicationId "" (name (identifier secret)) StoreSecret
       ("Enter passphrase to encrypt standalone secret " ++ name (identifier secret)))
    interactionServiceAddress
    SetStandaloneCustomLockSecretRequest
    [VString storagePluginName; VString encryptionPluginName;
     VString authenticationPluginName; VSecret secret; VUnlockSemantic unlockSemantic;
     VInt customLockTimeoutMs; VAccessControlMode accessControlMode;
     VUserInteractionMode userInteractionMode; VString interactionServiceAddress].

Definition setStandaloneCustomLockSecret (callerPid : pid_t) (requestId : quint64)
    (storagePluginName encryptionPluginName authenticationPluginName : QString)
    (secret : Secret) (uiParams : InteractionParameters) (unlockSemantic : UnlockSemantic)
    (customLockTimeoutMs : Z) (accessControlMode : AccessControlMode)
    (userInteractionMode : UserInteractionMode) (interactionServiceAddress : QString)
    : M Result :=
  p <- gets id ;;
  let id := identifier secret in
  if isEmpty (name id) then
    ret (ResultError InvalidSecretError "Empty secret name given")
  else if qeq storagePluginName encryptionPluginName
          && negb (contains (m_encryptedStoragePlugins p) storagePluginName) then
    ret (ResultError InvalidExtensionPluginError
           ("No such encrypted storage plugin exists: " ++ storagePluginName))
  else if negb (qeq storagePluginName encryptionPluginName)
          && negb (contains (m_storagePlugins p) storagePluginName) then
    ret (ResultError InvalidExtensionPluginError
           ("No such storage plugin exists: " ++ storagePluginName))
  else if negb (qeq storagePluginName encryptionPluginName)
          && negb (contains (m_encryptionPlugins p) encryptionPluginName) then
    ret (ResultError InvalidExtensionPluginError
           ("No such encryption plugin exists: " ++ encryptionPluginName))
  else
    let standaloneCollectionName := "standalone" in
    let hashedSecretName := generateHashedSecretName standaloneCollectionName (name id) in
    metadataReply <- callBkdb (Bkdb.secretMetadata standaloneCollectionName hashedSecretName) ;;
    let m := Bkdb.metadata metadataReply in
    let found := Bkdb.flag metadataReply in
    if negb (isSucceeded (Bkdb.result metadataReply)) then ret (Bkdb.result metadataReply)
    else if found && same (md_accessControlMode m) SystemAccessControlMode then
      ret (ResultError OperationNotSupportedError
             "Access control requests are not currently supported. TODO!")
    else if found && same (md_accessControlMode m) OwnerOnlyMode
            && negb (qeq (md_applicationId m) (callerApplicationId callerPid)) then
      ret (ResultError PermissionsError
             ("Secret " ++ name id ++ " is owned by a different application"))
    else if found && md_usesDeviceLockKey m then
      ret (ResultError OperationNotSupportedError
             ("Secret " ++ name id
              ++ " already exists and is not a devicelock protected secret"))
    else if found
            && negb (compareCaseInsensitive_eq0 (md_storagePluginName m) storagePluginName) then
      ret (ResultError OperationNotSupportedError
             ("Secret " ++ name id ++ " already exists and is not stored via plugin "
              ++ storagePluginName))
    else if applicationSpecificAuthentication authenticationPluginName
            && (negb (same userInteractionMode ApplicationInteraction)
                || isEmpty interactionServiceAddress) then
      ret (ResultError OperationRequiresApplicationUserInteraction
             ("Authentication plugin " ++ authenticationPluginName
              ++ " requires in-process user interaction"))
    else if same userInteractionMode PreventInteraction then
      ret (ResultError OperationRequiresUserInteraction
             ("Authentication plugin " ++ authenticationPluginName
              ++ " requires user interaction"))
    else if negb (isValid uiParams) then
      setStandaloneCustomLockSecretGetAuthenticationCode callerPid requestId
        (callerApplicationId callerPid) storagePluginName encryptionPluginName
        authenticationPluginName secret unlockSemantic customLockTimeoutMs accessControlMode
        userInteractionMode interactionServiceAddress
    else
      let userInputPlugin := userInputPluginOf (m_autotestMode p) uiParams in
      if negb (contains (m_authenticationPlugins p) userInputPlugin) then
        ret (ResultError InvalidExtensionPluginError
               ("Cannot get user input from invalid authentication plugin: "
                ++ ip_authenticationPluginName uiParams))
      else
        beginInteractionAndSuspend userInputPlugin callerPid requestId
          (modifiedUiParams uiParams (callerApplicationId callerPid)
             (collectionName id) (name id)
             ("Enter confidential data for secret " ++ name id ++ " in collection "
              ++ collectionName id ++ " stored by " ++ storagePluginName))
          interactionServiceAddress
          SetStandaloneCustomLockUserInputSecretRequest
          [VSecret secret; VString (callerApplicationId callerPid); VString storagePluginName;
           VString encryptionPluginName; VString authenticationPluginName;
           VUnlockSemantic unlockSemantic; VInt customLockTimeoutMs;
           VAccessControlMode accessControlMode; VUserInteractionMode userInteractionMode;
           VString interactionServiceAddress].

(** *** deleteStandaloneSecret *)

Definition deleteStandaloneSecret (callerPid : pid_t) (requestId : quint64)
    (identifier : Identifier) (userInteractionMode : UserInteractionMode) : M Result :=
  p <- gets id ;;
  let collectionName := "standalone" in
  let hashedSecretName := generateHashedSecretName collectionName (name identifier) in
  metadataReply <- callBkdb (Bkdb.secretMetadata collectionName hashedSecretName) ;;
  let m := Bkdb.metadata metadataReply in
  if negb (isSucceeded (Bkdb.result metadataReply)) then ret (Bkdb.result metadataReply)
  else if negb (Bkdb.flag metadataReply) then ret (ResultOf Succeeded)
  else if same (md_accessControlMode m) SystemAccessControlMode then
    ret (ResultError OperationNotSupportedError
           "Access control requests are not currently supported. TODO!")
  else if same (md_accessControlMode m) OwnerOnlyMode
          && negb (qeq (md_applicationId m) (callerApplicationId callerPid)) then
    ret (ResultError PermissionsError
           ("Secret " ++ name identifier ++ " is owned by a different application"))
  else if qeq (md_storagePluginName m) (md_encryptionPluginName m)
          && negb (contains (m_encryptedStoragePlugins p) (md_storagePluginName m)) then
    ret (ResultError InvalidExtensionPluginError
           ("No such encrypted storage plugin exists: " ++ md_storagePluginName m))
  else if negb (qeq (md_storagePluginName m) (md_encryptionPluginName m))
          && negb (contains (m_storagePlugins p) (md_storagePluginName m)) then
    ret (ResultError InvalidExtensionPluginError
           ("No such storage plugin exists: " ++ md_storagePluginName m))
  else if negb (qeq (md_storagePluginName m) (md_encryptionPluginName m))
          && negb (contains (m_encryptionPlugins p) (md_encryptionPluginName m)) then
    ret (ResultError InvalidExtensionPluginError
           ("No such encryption plugin exists: " ++ md_encryptionPluginName m))
  else
    key <- gets (fun s => deviceLockKey (keyMaterial s)) ;;
    run (if qeq (md_storagePluginName m) (md_encryptionPluginName m)
         then Job.EncryptedStorage_unlockAndRemoveSecret (md_encryptionPluginName m)
                collectionName hashedSecretName (md_usesDeviceLockKey m) key
         else Job.Storage_removeSecret (md_storagePluginName m) collectionName
                hashedSecretName)
        (K_deleteStandaloneSecret requestId (md_storagePluginName m)
           (md_encryptionPluginName m) collectionName hashedSecretName) ;;
    ret (ResultOf Pending).

(** The part of the [finished] lambda of [deleteStandaloneSecret] that
    precedes the bookkeeping call: the cached key and the timer of a secret
    stored by split plugins are dropped. *)
Definition deleteStandaloneSecret_forget
    (secretStoragePluginName secretEncryptionPluginName hashedSecretName : QString) : M unit :=
  if negb (qeq secretStoragePluginName secretEncryptionPluginName) then
    modify (fun s =>
      set_m_standaloneSecretEncryptionKeys
        (delete hashedSecretName (m_standaloneSecretEncryptionKeys s)) s) ;;
    modify (fun s =>
      set_m_standaloneSecretLockTimers
        (delete hashedSecretName (m_standaloneSecretLockTimers s)) s)
  else ret tt.

(** The part that follows: the row is deleted and the request finished. *)
Definition deleteStandaloneSecret_deleteRow (requestId : quint64)
    (collectionName hashedSecretName : QString) (pluginResult : Result) : M unit :=
  deleteReply <- callBkdb (Bkdb.deleteSecret collectionName hashedSecretName) ;;
  requestFinished requestId
    [OutResult (if negb (isSucceeded (Bkdb.result deleteReply)) then Bkdb.result deleteReply
                else pluginResult)].

(** The [finished] lambda of [deleteStandaloneSecret]. *)
Definition deleteStandaloneSecret_finished (requestId : quint64)
    (secretStoragePluginName secretEncryptionPluginName collectionName hashedSecretName : QString)
    (pluginResult : Result) : M unit :=
  if isSucceeded pluginResult then
    deleteStandaloneSecret_forget secretStoragePluginName secretEncryptionPluginName
      hashedSecretName ;;
    deleteStandaloneSecret_deleteRow requestId collectionName hashedSecretName pluginResult
  else requestFinished requestId [OutResult pluginResult].

(** *** findCollectionSecrets *)

Definition findCollectionSecretsWithEncryptionKey (callerPid : pid_t) (requestId : quint64)
    (collectionName : QString) (filter : list (QString * QString))
    (filterOperator : FilterOperator) (userInteractionMode : UserInteractionMode)
    (interactionServiceAddress storagePluginName encryptionPluginName : QString)
    (collectionUnlockSemantic : UnlockSemantic) (collectionCustomLockTimeoutMs : Z)
    (encryptionKey : QByteArray) : M unit :=
  (if same collectionUnlockSemantic CustomLockTimoutRelock then
     armed <- gets (fun s => m_collectionLockTimers s !! collectionName) ;;
     match armed with
     | Some _ => ret tt
     | None =>
         timer <- startSingleShotTimer collectionCustomLockTimeoutMs ;;
         modify (fun s =>
           set_m_collectionLockTimers
             (<[collectionName := timer]> (m_collectionLockTimers s)) s)
     end
   else ret tt) ;;
  if qeq storagePluginName encryptionPluginName then
    run (Job.EncryptedStorage_unlockAndFindSecrets encryptionPluginName collectionName filter
           filterOperator encryptionKey)
        (K_findCollectionSecretsWithEncryptionKey requestId)
  else
    modify (fun s =>
      if bool_decide (is_Some (m_collectionEncryptionKeys s !! collectionName)) then s
      else
        set_m_collectionEncryptionKeys
          (<[collectionName := encryptionKey]> (m_collectionEncryptionKeys s)) s) ;;
    key <- gets (fun s => default [] (m_collectionEncryptionKeys s !! collectionName)) ;;
    run (Job.Storage_findAndDecryptSecretNames encryptionPluginName storagePluginName
           collectionName filter filterOperator key)
        (K_findCollectionSecretsWithEncryptionKey requestId).

(** The [finished] lambda of [findCollectionSecretsWithEncryptionKey]. *)
Definition findCollectionSecretsWithEncryptionKey_finished (requestId : quint64)
    (irResult : Result) (irIdentifiers : list Identifier) : M unit :=
  requestFinished requestId [OutResult irResult; OutIdentifiers irIdentifiers].

(** What [findCollectionSecrets] does with a locked collection. *)
Definition findCollectionSecretsUnlockFlow (callerPid : pid_t) (requestId : quint64)
    (collectionName : QString) (filter : list (QString * QString))
    (filterOperator : FilterOperator) (userInteractionMode : UserInteractionMode)
    (interactionServiceAddress : QString) (collection : Metadata) : M Result :=
  if md_usesDeviceLockKey collection then
    ret (ResultError CollectionIsLockedError
           ("Collection " ++ collectionName
            ++ " is locked and requires device lock authentication"))
  else if same userInteractionMode PreventInteraction then
    ret (ResultError OperationRequiresUserInteraction
           ("Authentication plugin " ++ md_authenticationPluginName collection
            ++ " requires user interaction"))
  else if applicationSpecificAuthentication (md_authenticationPluginName collection)
          && (negb (same userInteractionMode ApplicationInteraction)
              || isEmpty interactionServiceAddress) then
    ret (ResultError OperationRequiresApplicationUserInteraction
           ("Authentication plugin " ++ md_authenticationPluginName collection
            ++ " requires in-process user interaction"))
  else
    beginInteractionAndSuspend (md_authenticationPluginName collection) callerPid requestId
      (ikdRequest (callerApplicationId callerPid) collectionName "" UnlockCollection
         "sailfish_secrets_unlock_collection_find_secrets_input_key_data_prompt")
      interactionServiceAddress
      FindCollectionSecretsRequest
      [VString collectionName; VFilterData filter; VFilterOperator filterOperator;
       VUserInteractionMode userInteractionMode; VString interactionServiceAddress;
       VString (md_storagePluginName collection);
       VString (md_encryptionPluginName collection);
       VUnlockSemantic (md_unlockSemantic collection);
       VInt (md_customLockTimeoutMs collection)].

Definition findCollectionSecrets (callerPid : pid_t) (requestId : quint64)
    (collectionName : QString) (filter : list (QString * QString))
    (filterOperator : FilterOperator) (userInteractionMode : UserInteractionMode)
    (interactionServiceAddress : QString) : M Result :=
  p <- gets id ;;
  if isEmpty collectionName then
    ret (ResultError InvalidCollectionError "Empty collection name given")
  else if compareCaseInsensitive_eq0 collectionName "standalone" then
    ret (ResultError InvalidCollectionError "Reserved collection name given")
  else if bool_decide (filter = []) then
    ret (ResultError InvalidFilterError "Empty filter given")
  else
    metadataReply <- callBkdb (Bkdb.collectionMetadata collectionName) ;;
    let c := Bkdb.metadata metadataReply in
    if negb (isSucceeded (Bkdb.result metadataReply)) then ret (Bkdb.result metadataReply)
    else if negb (Bkdb.flag metadataReply) then
      ret (ResultError InvalidCollectionError "Nonexistent collection name given")
    else if qeq (md_storagePluginName c) (md_encryptionPluginName c)
            && negb (contains (m_encryptedStoragePlugins p) (md_storagePluginName c)) then
      ret (ResultError InvalidExtensionPluginError
             ("No such encrypted storage plugin exists: " ++ md_storagePluginName c))
    else if negb (qeq (md_storagePluginName c) (md_encryptionPluginName c))
            && negb (contains (m_storagePlugins p) (md_storagePluginName c)) then
      ret (ResultError InvalidExtensionPluginError
             ("No such storage plugin exists: " ++ md_storagePluginName c))
    else if negb (qeq (md_storagePluginName c) (md_encryptionPluginName c))
            && negb (contains (m_encryptionPlugins p) (md_encryptionPluginName c)) then
      ret (ResultError InvalidExtensionPluginError
             ("No such encryption plugin exists: " ++ md_encryptionPluginName c))
    else if same (md_accessControlMode c) SystemAccessControlMode then
      ret (ResultError OperationNotSupportedError
             "Access control requests are not currently supported. TODO!")
    else if same (md_accessControlMode c) OwnerOnlyMode
            && negb (qeq (md_applicationId c) (callerApplicationId callerPid)) then
      ret (ResultError PermissionsError
             ("Collection " ++ collectionName ++ " is owned by a different application"))
    else if negb (contains (m_authenticationPlugins p) (md_authenticationPluginName c)) then
      ret (ResultError InvalidExtensionPluginError
             ("No such authentication plugin available: " ++ md_authenticationPluginName c))
    else if qeq (md_storagePluginName c) (md_encryptionPluginName c) then
      lr <- callPlugin (Plugin.isCollectionLocked (md_storagePluginName c) collectionName) ;;
      if negb (isSucceeded (Plugin.result lr)) then ret (Plugin.result lr)
      else if Plugin.flag lr then
        findCollectionSecretsUnlockFlow callerPid requestId collectionName filter
          filterOperator userInteractionMode interactionServiceAddress c
      else
        findCollectionSecretsWithEncryptionKey callerPid requestId collectionName filter
          filterOperator userInteractionMode interactionServiceAddress
          (md_storagePluginName c) (md_encryptionPluginName c) (md_unlockSemantic c)
          (md_customLockTimeoutMs c) [] ;;
        ret (ResultOf Pending)
    else
      cached <- gets (fun s => m_collectionEncryptionKeys s !! collectionName) ;;
      match cached with
      | None =>
          findCollectionSecretsUnlockFlow callerPid requestId collectionName filter
            filterOperator userInteractionMode interactionServiceAddress c
      | Some key =>
          findCollectionSecretsWithEncryptionKey callerPid requestId collectionName filter
            filterOperator userInteractionMode interactionServiceAddress
            (md_storagePluginName c) (md_encryptionPluginName c) (md_unlockSemantic c)
            (md_customLockTimeoutMs c) key ;;
          ret (ResultOf Pending)
      end.

(** *** deleteCollectionSecret *)

(** The [finished] lambda of [deleteCollectionSecretWithEncryptionKey]. *)
Definition deleteCollectionSecretWithEncryptionKey_finished (requestId : quint64)
    (identifier : Identifier) (hashedSecretName : QString)
    (collectionAccessControlMode : AccessControlMode) (pluginResult : Result) : M unit :=
  returnResult <-
    (if isSucceeded pluginResult then
       deleteReply <-
         callBkdb (Bkdb.deleteSecret (collectionName identifier) hashedSecretName) ;;
       if negb (isSucceeded (Bkdb.result deleteReply)) then ret (Bkdb.result deleteReply)
       else ret pluginResult
     else ret pluginResult) ;;
  requestFinished requestId [OutResult returnResult].

Definition deleteCollectionSecretWithEncryptionKey (callerPid : pid_t) (requestId : quint64)
    (identifier : Identifier) (userInteractionMode : UserInteractionMode)
    (interactionServiceAddress : QString) (encryptionKey : QByteArray) : M unit :=
  metadataReply <- callBkdb (Bkdb.collectionMetadata (collectionName identifier)) ;;
  let c := Bkdb.metadata metadataReply in
  key <- gets (fun s => deviceLockKey (keyMaterial s)) ;;
  let r0 := Bkdb.result metadataReply in
  let r1 :=
    if isSucceeded r0 && negb (Bkdb.flag metadataReply)
    then ResultError InvalidCollectionError "Nonexistent collection name given" else r0 in
  let r2 :=
    if isSucceeded r1 && md_usesDeviceLockKey c && negb (beq encryptionKey key)
    then ResultError IncorrectAuthenticationCodeError "Incorrect device lock key provided"
    else r1 in
  let returnResult :=
    if isSucceeded r2 && same (md_accessControlMode c) SystemAccessControlMode then
      ResultError OperationNotSupportedError
        "Access control requests are not currently supported. TODO!"
    else if isSucceeded r2 && same (md_accessControlMode c) OwnerOnlyMode
            && negb (qeq (md_applicationId c) (callerApplicationId callerPid)) then
      ResultError PermissionsError
        ("Collection " ++ collectionName identifier ++ " is owned by a different application")
    else r2 in
  if negb (isSucceeded returnResult) then requestFinished requestId [OutResult returnResult]
  else
    let hashedSecretName :=
      generateHashedSecretName (collectionName identifier) (name identifier) in
    if qeq (md_storagePluginName c) (md_encryptionPluginName c) then
      run (Job.EncryptedStorage_unlockCollectionAndRemoveSecret (md_encryptionPluginName c)
             identifier hashedSecretName encryptionKey)
          (K_deleteCollectionSecretWithEncryptionKey requestId identifier hashedSecretName
             (md_accessControlMode c))
    else
      modify (fun s =>
        if bool_decide (is_Some (m_collectionEncryptionKeys s !! collectionName identifier))
        then s
        else
          set_m_collectionEncryptionKeys
            (<[collectionName identifier := encryptionKey]> (m_collectionEncryptionKeys s))
            s) ;;
      run (Job.Storage_removeSecret (md_storagePluginName c) (collectionName identifier)
             hashedSecretName)
          (K_deleteCollectionSecretWithEncryptionKey requestId identifier hashedSecretName
             (md_accessControlMode c)).

(** What [deleteCollectionSecret] does with a locked collection. *)
Definition deleteCollectionSecretUnlockFlow (callerPid : pid_t) (requestId : quint64)
    (identifier : Identifier) (userInteractionMode : UserInteractionMode)
    (interactionServiceAddress : QString) (collection : Metadata) : M Result :=
  if md_usesDeviceLockKey collection then
    ret (ResultError CollectionIsLockedError
           ("Collection " ++ collectionName identifier
            ++ " is locked and requires device lock authentication"))
  else if same userInteractionMode PreventInteraction then
    ret (ResultError OperationRequiresUserInteraction
           ("Authentication plugin " ++ md_authenticationPluginName collection
            ++ " requires user interaction"))
  else
    beginInteractionAndSuspend (md_authenticationPluginName collection) callerPid requestId
      (ikdRequest (callerApplicationId callerPid) (collectionName identifier)
         (name identifier) DeleteSecret
         "sailfish_secrets_delete_collection_secret_input_key_data_prompt")
      interactionServiceAddress
      DeleteCollectionSecretRequest
      [VIdentifier identifier; VString (md_storagePluginName collection);
       VString (md_encryptionPluginName collection);
       VUserInteractionMode userInteractionMode; VString interactionServiceAddress].

Definition deleteCollectionSecret (callerPid : pid_t) (requestId : quint64)
    (identifier : Identifier) (userInteractionMode : UserInteractionMode)
    (interactionServiceAddress : QString) : M Result :=
  p <- gets id ;;
  if isEmpty (name identifier) then
    ret (ResultError InvalidSecretError "Empty secret name given")
  else if isEmpty (collectionName identifier) then
    ret (ResultError InvalidCollectionError "Empty collection name given")
  else if compareCaseInsensitive_eq0 (collectionName identifier) "standalone" then
    ret (ResultError InvalidCollectionError "Reserved collection name given")
  else
    metadataReply <- callBkdb (Bkdb.collectionMetadata (collectionName identifier)) ;;
    let c := Bkdb.metadata metadataReply in
    if negb (isSucceeded (Bkdb.result metadataReply)) then ret (Bkdb.result metadataReply)
    else if negb (Bkdb.flag metadataReply) then
      ret (ResultError InvalidCollectionError "Nonexistent collection name given")
    else if same (md_accessControlMode c) SystemAccessControlMode then
      ret (ResultError OperationNotSupportedError
             "Access control requests are not currently supported. TODO!")
    else if same (md_accessControlMode c) OwnerOnlyMode
            && negb (qeq (md_applicationId c) (callerApplicationId callerPid)) then
      ret (ResultError PermissionsError
             ("Collection " ++ collectionName identifier
              ++ " is owned by a different application"))
    else if qeq (md_storagePluginName c) (md_encryptionPluginName c)
            && negb (contains (m_encryptedStoragePlugins p) (md_storagePluginName c)) then
      ret (ResultError InvalidExtensionPluginError
             ("No such encrypted storage plugin exists: " ++ md_storagePluginName c))
    else if negb (qeq (md_storagePluginName c) (md_encryptionPluginName c))
            && (isEmpty (md_storagePluginName c)
                || negb (contains (m_storagePlugins p) (md_storagePluginName c))) then
      ret (ResultError InvalidExtensionPluginError
             ("No such storage plugin exists: " ++ md_storagePluginName c))
    else if negb (qeq (md_storagePluginName c) (md_encryptionPluginName c))
            && (isEmpty (md_encryptionPluginName c)
                || negb (contains (m_encryptionPlugins p) (md_encryptionPluginName c))) then
      ret (ResultError InvalidExtensionPluginError
             ("No such encryption plugin exists: " ++ md_encryptionPluginName c))
    else if qeq (md_storagePluginName c) (md_encryptionPluginName c) then
      lr <-
        callPlugin
          (Plugin.isCollectionLocked (md_storagePluginName c) (collectionName identifier)) ;;
      if negb (isSucceeded (Plugin.result lr)) then ret (Plugin.result lr)
      else if Plugin.flag lr then
        deleteCollectionSecretUnlockFlow callerPid requestId identifier userInteractionMode
          interactionServiceAddress c
      else
        key <- gets (fun s => deviceLockKey (keyMaterial s)) ;;
        deleteCollectionSecretWithEncryptionKey callerPid requestId identifier
          userInteractionMode interactionServiceAddress key ;;
        ret (ResultOf Pending)
    else
      cached <- gets (fun s => m_collectionEncryptionKeys s !! collectionName identifier) ;;
      match cached with
      | None =>
          deleteCollectionSecretUnlockFlow callerPid requestId identifier userInteractionMode
            interactionServiceAddress c
      | Some key =>
          deleteCollectionSecretWithEncryptionKey callerPid requestId identifier
            userInteractionMode interactionServiceAddress key ;;
          ret (ResultOf Pending)
      end.

(** *** modifyLockCode, provideLockCode and forgetLockCode *)

(** A [for] loop over a list. *)
Fixpoint forEach {A : Type} (l : list A) (body : A -> M unit) : M unit :=
  match l with
  | [] => ret tt
  | x :: rest => body x ;; forEach rest body
  end.

(** The body of the loop over the collections: a device-locked collection
    is re-encrypted by its plugins. *)
Definition reencryptCollection (oldDeviceLockKey : QByteArray) (cname : QString) : M unit :=
  p <- gets id ;;
  metadataReply <- callBkdb (Bkdb.collectionMetadata cname) ;;
  let c := Bkdb.metadata metadataReply in
  if negb (isSucceeded (Bkdb.result metadataReply)) then ret tt
  else if negb (md_usesDeviceLockKey c) then ret tt
  else if qeq (md_storagePluginName c) (md_encryptionPluginName c) then
    if negb (contains (m_encryptedStoragePlugins p) (md_storagePluginName c)) then ret tt
    else
      key <- gets (fun s => deviceLockKey (keyMaterial s)) ;;
      callPlugin
        (Plugin.unlockCollectionAndReencrypt (md_storagePluginName c) cname oldDeviceLockKey
           key true) ;;
      ret tt
  else if negb (contains (m_encryptionPlugins p) (md_encryptionPluginName c)) then ret tt
  else if negb (contains (m_storagePlugins p) (md_storagePluginName c)) then ret tt
  else
    key <- gets (fun s => deviceLockKey (keyMaterial s)) ;;
    callPlugin
      (Plugin.reencryptSecrets (md_storagePluginName c) cname [] oldDeviceLockKey key
         (md_encryptionPluginName c)) ;;
    ret tt.

(** The body of the loop over the standalone secrets. *)
Definition reencryptStandaloneSecret (oldDeviceLockKey : QByteArray) (hsn : QString) : M unit :=
  p <- gets id ;;
  metadataReply <- callBkdb (Bkdb.secretMetadata "standalone" hsn) ;;
  let m := Bkdb.metadata metadataReply in
  if negb (isSucceeded (Bkdb.result metadataReply)) then ret tt
  else if negb (md_usesDeviceLockKey m) then ret tt
  else if negb (contains (m_encryptionPlugins p) (md_encryptionPluginName m)) then ret tt
  else if negb (contains (m_storagePlugins p) (md_storagePluginName m)) then ret tt
  else
    key <- gets (fun s => deviceLockKey (keyMaterial s)) ;;
    callPlugin
      (Plugin.reencryptSecrets (md_storagePluginName m) "" [hsn] oldDeviceLockKey key
         (md_encryptionPluginName m)) ;;
    ret tt.

(** What follows a successful re-encryption of the bookkeeping database:
    the collections, the standalone secrets and the plugins. *)
Definition reencryptDeviceLocked (oldDeviceLockKey : QByteArray) : M unit :=
  p <- gets id ;;
  cnamesReply <- callBkdb Bkdb.collectionNames ;;
  (if isSucceeded (Bkdb.result cnamesReply) then
     forEach (Bkdb.names cnamesReply) (reencryptCollection oldDeviceLockKey)
   else ret tt) ;;
  hsnReply <- callBkdb (Bkdb.hashedSecretNames "standalone") ;;
  (if negb (isSucceeded (Bkdb.result hsnReply)) then ret tt
   else forEach (Bkdb.names hsnReply) (reencryptStandaloneSecret oldDeviceLockKey)) ;;
  key <- gets (fun s => deviceLockKey (keyMaterial s)) ;;
  callPlugin
    (Plugin.modifyMasterLockPlugins (elements (m_storagePlugins p))
       (elements (m_encryptedStoragePlugins p)) oldDeviceLockKey key) ;;
  ret tt.

Definition modifyLockCodeWithLockCodes (callerPid : pid_t) (requestId : quint64)
    (lockCodeTargetType : LockCodeTargetType) (lockCodeTarget : QString)
    (interactionParams : InteractionParameters) (userInteractionMode : UserInteractionMode)
    (interactionServiceAddress : QString) (oldLockCode newLockCode : QByteArray) : M Result :=
  p <- gets id ;;
  if same lockCodeTargetType ExtensionPlugin then
    fr <- callPlugin (Plugin.modifyLockSpecificPlugin lockCodeTarget oldLockCode newLockCode) ;;
    if Plugin.flag fr then ret (Plugin.result fr)
    else if contains (m_authenticationPlugins p) lockCodeTarget then
      supports <- callPlugin (Plugin.supportsLocking lockCodeTarget) ;;
      if negb (Plugin.flag supports) then
        ret (ResultError OperationNotSupportedError
               ("Authentication plugin " ++ lockCodeTarget ++ " does not support locking"))
      else
        done <- callPlugin (Plugin.setLockCode lockCodeTarget oldLockCode newLockCode) ;;
        if negb (Plugin.flag done) then
          ret (ResultError UnknownError
                 ("Failed to set the lock code for authentication plugin " ++ lockCodeTarget))
        else ret (ResultOf Succeeded)
    else
      r <- callPlugin (Plugin.setLockCodeCryptoPlugin lockCodeTarget oldLockCode newLockCode) ;;
      ret (Plugin.result r)
  else
    tested <- testLockCode oldLockCode ;;
    if negb tested then
      ret (ResultError SecretsDaemonLockedError "The given old lock code was incorrect")
    else
      oldBkdbLockKey <- gets (fun s => bkdbLockKey (keyMaterial s)) ;;
      oldDeviceLockKey <- gets (fun s => deviceLockKey (keyMaterial s)) ;;
      initialisedReply <- callBkdb Bkdb.isInitialised ;;
      opened <-
        (if negb (Bkdb.flag initialisedReply) then initialise oldLockCode else ret true) ;;
      if negb opened then
        ret (ResultError UnknownError
               "Unable to initialise the database using the old lock code")
      else
        rekeyed <- initialise newLockCode ;;
        if negb rekeyed then
          ret (ResultError UnknownError "Unable to initialise key data for re-encryption")
        else
          newBkdbLockKey <- gets (fun s => bkdbLockKey (keyMaterial s)) ;;
          reencryptReply <- callBkdb (Bkdb.reencrypt oldBkdbLockKey newBkdbLockKey) ;;
          let reencryptResult := Bkdb.result reencryptReply in
          if isSucceeded reencryptResult then
            setNoLockCode (bool_decide (newLockCode = [])) ;;
            reencryptDeviceLocked oldDeviceLockKey ;;
            ret reencryptResult
          else
            initialise oldLockCode ;;
            ret reencryptResult.

Definition provideLockCodeWithLockCode (callerPid : pid_t) (requestId : quint64)
    (lockCodeTargetType : LockCodeTargetType) (lockCodeTarget : QString)
    (interactionParams : InteractionParameters) (userInteractionMode : UserInteractionMode)
    (interactionServiceAddress : QString) (lockCode : QByteArray) : M Result :=
  p <- gets id ;;
  if same lockCodeTargetType ExtensionPlugin then
    fr <- callPlugin (Plugin.unlockSpecificPlugin lockCodeTarget lockCode) ;;
    if Plugin.flag fr then ret (Plugin.result fr)
    else if contains (m_authenticationPlugins p) lockCodeTarget then
      supports <- callPlugin (Plugin.supportsLocking lockCodeTarget) ;;
      if negb (Plugin.flag supports) then
        ret (ResultError OperationNotSupportedError
               ("Authentication plugin " ++ lockCodeTarget ++ " does not support locking"))
      else
        done <- callPlugin (Plugin.unlock lockCodeTarget lockCode) ;;
        if negb (Plugin.flag done) then
          ret (ResultError UnknownError
                 ("Failed to unlock authentication plugin " ++ lockCodeTarget))
        else ret (ResultOf Succeeded)
    else
      r <- callPlugin (Plugin.unlockCryptoPlugin lockCodeTarget lockCode) ;;
      ret (Plugin.result r)
  else
    ok <- initialise lockCode ;;
    if negb ok then
      ret (ResultError UnknownError
             "Unable to initialise key data to unlock the secrets database")
    else
      key <- gets (fun s => bkdbLockKey (keyMaterial s)) ;;
      lockReply <- callBkdb (Bkdb.unlock key) ;;
      if negb (isSucceeded (Bkdb.result lockReply)) then ret (Bkdb.result lockReply)
      else
        dlk <- gets (fun s => deviceLockKey (keyMaterial s)) ;;
        callPlugin
          (Plugin.masterUnlockPlugins (elements (m_storagePlugins p))
             (elements (m_encryptedStoragePlugins p)) dlk) ;;
        ret (Bkdb.result lockReply).

(** The lock code [forgetLockCode] re-initialises the key material with:
    the byte array of the C string literal of sixty-four letters f. *)
Definition forgetLockCodeSentinel : QByteArray :=
  list_byte_of_string
    ("ffffffffffffffff" ++ "ffffffffffffffff" ++ "ffffffffffffffff" ++ "ffffffffffffffff").

Definition forgetLockCode (callerPid : pid_t) (requestId : quint64)
    (lockCodeTargetType : LockCodeTargetType) (lockCodeTarget : QString)
    (interactionParams : InteractionParameters) (userInteractionMode : UserInteractionMode)
    (interactionServiceAddress : QString) : M Result :=
  p <- gets id ;;
  if same lockCodeTargetType StandaloneSecret then
    ret (ResultError OperationNotSupportedError "ForgetLockCode - standalone secret - TODO!")
  else if same lockCodeTargetType Collection then
    ret (ResultError OperationNotSupportedError "ForgetLockCode - collection - TODO!")
  else if same lockCodeTargetType ExtensionPlugin then
    if negb (applicationIsPlatformApplication callerPid) then
      ret (ResultError PermissionsError
             "Only the system settings application can unlock the plugin")
    else
      fr <- callPlugin (Plugin.lockSpecificPlugin lockCodeTarget) ;;
      if Plugin.flag fr then ret (Plugin.result fr)
      else if contains (m_authenticationPlugins p) lockCodeTarget then
        supports <- callPlugin (Plugin.supportsLocking lockCodeTarget) ;;
        if negb (Plugin.flag supports) then
          ret (ResultError OperationNotSupportedError
                 ("Authentication plugin " ++ lockCodeTarget ++ " does not support locking"))
        else
          done <- callPlugin (Plugin.lock lockCodeTarget) ;;
          if negb (Plugin.flag done) then
            ret (ResultError UnknownError
                   ("Failed to lock authentication plugin " ++ lockCodeTarget))
          else ret (ResultOf Succeeded)
      else
        r <- callPlugin (Plugin.lockCryptoPlugin lockCodeTarget) ;;
        ret (Plugin.result r)
  else if negb (applicationIsPlatformApplication callerPid) then
    ret (ResultError PermissionsError
           "Only the system settings application can lock the secrets database")
  else if negb (isEmpty lockCodeTarget) then
    ret (ResultError OperationNotSupportedError "Invalid target name specified")
  else
    ok <- initialise forgetLockCodeSentinel ;;
    if negb ok then
      ret (ResultError UnknownError
             "Unable to re-initialise key data to lock the secrets database")
    else
      lockReply <- callBkdb Bkdb.lock ;;
      callPlugin
        (Plugin.masterLockPlugins (elements (m_storagePlugins p))
           (elements (m_encryptedStoragePlugins p))) ;;
      ret (Bkdb.result lockReply).

(** *** The watchers' [finished] signal

    The future of a watcher delivers the outcome of its job to the lambda
    connected to it; a future delivers the outcome type of its job, the
    other combinations do not arise. *)
Definition finished (w : Watcher) (o : Job.Outcome) : M unit :=
  match onFinished w, o with
  | K_createDeviceLockCollection requestId cn sp ep acm, Job.Plain r =>
      createDeviceLockCollection_finished requestId cn sp ep acm r
  | K_deleteCollection pid requestId cn acm, Job.Plain r =>
      deleteCollection_finished pid requestId cn acm r
  | K_setCollectionSecretWithAuthenticationCode pid requestId secret uim addr c,
    Job.DerivedKey r key =>
      setCollectionSecretWithAuthenticationCode_finished pid requestId secret uim addr c r key
  | K_setCollectionSecretWithEncryptionKey pid requestId secret existed hashed, Job.Plain r =>
      setCollectionSecretWithEncryptionKeyFinalise pid requestId secret existed hashed r
  | K_writeStandaloneDeviceLockSecret pid requestId sp ep cn hashed found, Job.Plain r =>
      writeStandaloneDeviceLockSecretFinalise pid requestId sp ep cn hashed found r
  | K_getCollectionSecretWithEncryptionKey requestId, Job.OfSecret r secret =>
      getCollectionSecretWithEncryptionKey_finished requestId r secret
  | K_getStandaloneSecretEncryptedStorage requestId cn, Job.OfSecretData r n d f =>
      getStandaloneSecretEncryptedStorage_finished requestId cn r n d f
  | K_getStandaloneSecretStorage requestId, Job.OfSecret r secret =>
      getStandaloneSecretStorage_finished requestId r secret
  | K_findCollectionSecretsWithEncryptionKey requestId, Job.OfIdentifiers r ids =>
      findCollectionSecretsWithEncryptionKey_finished requestId r ids
  | K_deleteCollectionSecretWithEncryptionKey requestId id hashed acm, Job.Plain r =>
      deleteCollectionSecretWithEncryptionKey_finished requestId id hashed acm r
  | K_deleteStandaloneSecret requestId sp ep cn hashed, Job.Plain r =>
      deleteStandaloneSecret_finished requestId sp ep cn hashed r
  | _, _ => ret tt
  end.

(** The future of the [n]-th waiting watcher finishes with outcome [o]. *)
Definition workerFinished (n : nat) (o : Job.Outcome) : M unit :=
  ws <- gets watchers ;;
  match ws !! n with
  | Some w =>
      modify (fun s => set_watchers (take n (watchers s) ++ drop (S n) (watchers s)) s) ;;
      finished w o
  | None => ret tt
  end.

End Processor.

(** ** Requests that need no worker *)

Section Requests.

Context {W : Type} `{Collaborators W}.

(** [InteractionParameters::setApplicationId] and [setPromptText]. *)
Definition setApplicationId (ui : InteractionParameters) (applicationId : QString)
    : InteractionParameters :=
  {| ip_authenticationPluginName := ip_authenticationPluginName ui;
     ip_applicationId := applicationId; ip_collectionName := ip_collectionName ui;
     ip_secretName := ip_secretName ui; ip_operation := ip_operation ui;
     ip_inputType := ip_inputType ui; ip_echoMode := ip_echoMode ui;
     ip_promptText := ip_promptText ui |}.

Definition setPromptText (ui : InteractionParameters) (promptText : QString)
    : InteractionParameters :=
  {| ip_authenticationPluginName := ip_authenticationPluginName ui;
     ip_applicationId := ip_applicationId ui; ip_collectionName := ip_collectionName ui;
     ip_secretName := ip_secretName ui; ip_operation := ip_operation ui;
     ip_inputType := ip_inputType ui; ip_echoMode := ip_echoMode ui;
     ip_promptText := promptText |}.

(** The text put before the prompt of a request that names neither a
    collection nor a secret. *)
Definition warningPromptText (promptText : QString) : QString :=
  "An application is requesting input which will be returned to the application: "
  ++ promptText.

(** [ikdRequest] as [userInput] completes it. *)
Definition userInputRequest (callerPid : pid_t) (uiParams : InteractionParameters)
    : InteractionParameters :=
  let ikdRequest := setApplicationId uiParams (callerApplicationId callerPid) in
  if isEmpty (ip_collectionName ikdRequest) && isEmpty (ip_secretName ikdRequest)
  then setPromptText ikdRequest (warningPromptText (ip_promptText ikdRequest))
  else ikdRequest.

(** The helper of the crypto API that asks the user for input data. *)
Definition userInput (callerPid : pid_t) (requestId : quint64)
    (uiParams : InteractionParameters) : M W Result :=
  p <- gets id ;;
  let userInputPlugin := userInputPluginOf (m_autotestMode p) uiParams in
  if negb (contains (m_authenticationPlugins p) userInputPlugin) then
    ret (ResultError InvalidExtensionPluginError
           ("Cannot get user input from invalid authentication plugin: "
            ++ ip_authenticationPluginName uiParams))
  else
    beginInteractionAndSuspend userInputPlugin callerPid requestId
      (userInputRequest callerPid uiParams) "" UserInputRequest
      [VInteractionParameters (userInputRequest callerPid uiParams)].

(** [collectionNames] hands on what the bookkeeping database answers. *)
Definition collectionNames (callerPid : pid_t) (requestId : quint64)
    : M W (Result * list QString) :=
  reply <- callBkdb Bkdb.collectionNames ;;
  ret (Bkdb.result reply, Bkdb.names reply).

End Requests.

(** ** A concrete daemon

    An in-memory bookkeeping database and plugins whose failures can be
    injected, on which the operations can be run.  The plugin names are
    those of the specification's scenarios: "store", "enc", "encstore" and
    "auth". *)

Module Demo.

(** A bookkeeping store to run the processor on, after the store's contract
    (section 6 of the specification): rows are kept by collection name and by
    collection and hashed secret name. *)
Record World := mkWorld {
  collectionRows : gmap QString Metadata;
  secretRows : gmap (QString * QString) Metadata;
  databaseLocked : bool;
  (** injected failures *)
  reencryptFails : bool;
  cleanupFails : bool
}.

Definition ok : Result := ResultOf Succeeded.

Definition plain (r : Result) : Bkdb.Reply := Bkdb.mkReply r false Metadata0 [].

Definition withCollections (f : gmap QString Metadata -> gmap QString Metadata) (w : World)
    : World :=
  mkWorld (f (collectionRows w)) (secretRows w) (databaseLocked w) (reencryptFails w)
    (cleanupFails w).

Definition withSecrets
    (f : gmap (QString * QString) Metadata -> gmap (QString * QString) Metadata) (w : World)
    : World :=
  mkWorld (collectionRows w) (f (secretRows w)) (databaseLocked w) (reencryptFails w)
    (cleanupFails w).

Definition withLocked (b : bool) (w : World) : World :=
  mkWorld (collectionRows w) (secretRows w) b (reencryptFails w) (cleanupFails w).

Definition cleanupFailure : Result :=
  ResultError UnknownError "Unable to remove the row left by a failed plugin operation".

Definition store (c : Bkdb.Call) (w : World) : Bkdb.Reply * World :=
  match c with
  | Bkdb.collectionNames =>
      (Bkdb.mkReply ok false Metadata0 (entries (collectionRows w)).*1, w)
  | Bkdb.collectionAlreadyExists n =>
      (Bkdb.mkReply ok (bool_decide (is_Some (collectionRows w !! n))) Metadata0 [], w)
  | Bkdb.insertCollection n row =>
      if bool_decide (is_Some (collectionRows w !! n)) then
        (plain (ResultError CollectionAlreadyExistsError n), w)
      else (plain ok, withCollections (insert n row) w)
  | Bkdb.deleteCollection n => (plain ok, withCollections (delete n) w)
  | Bkdb.cleanupDeleteCollection n _ =>
      if cleanupFails w then (plain cleanupFailure, w)
      else (plain ok, withCollections (delete n) w)
  | Bkdb.collectionMetadata n =>
      match collectionRows w !! n with
      | Some row => (Bkdb.mkReply ok true row [], w)
      | None => (Bkdb.mkReply ok false Metadata0 [], w)
      end
  | Bkdb.secretAlreadyExists n h =>
      (Bkdb.mkReply ok (bool_decide (is_Some (secretRows w !! (n, h)))) Metadata0 [], w)
  | Bkdb.insertSecret n h row =>
      if bool_decide (is_Some (secretRows w !! (n, h))) then
        (plain (ResultError SecretAlreadyExistsError h), w)
      else (plain ok, withSecrets (insert (n, h) row) w)
  | Bkdb.updateSecret n h row => (plain ok, withSecrets (insert (n, h) row) w)
  | Bkdb.deleteSecret n h => (plain ok, withSecrets (delete (n, h)) w)
  | Bkdb.cleanupDeleteSecret n h _ =>
      if cleanupFails w then (plain cleanupFailure, w)
      else (plain ok, withSecrets (delete (n, h)) w)
  | Bkdb.secretMetadata n h =>
      match secretRows w !! (n, h) with
      | Some row => (Bkdb.mkReply ok true row [], w)
      | None => (Bkdb.mkReply ok false Metadata0 [], w)
      end
  | Bkdb.hashedSecretNames n =>
      (Bkdb.mkReply ok false Metadata0
         (omap (fun kv => if qeq (kv.1).1 n then Some (kv.1).2 else None)
            (map_to_list (secretRows w))), w)
  | Bkdb.isInitialised => (Bkdb.mkReply ok true Metadata0 [], w)
  | Bkdb.isLocked => (Bkdb.mkReply ok (databaseLocked w) Metadata0 [], w)
  | Bkdb.unlock _ => (plain ok, withLocked false w)
  | Bkdb.lock => (plain ok, withLocked true w)
  | Bkdb.reencrypt _ _ =>
      if reencryptFails w then
        (plain (ResultError UnknownError "Unable to re-encrypt the bookkeeping database"), w)
      else (plain ok, w)
  end.

(** Plugins that answer every awaited call with success; no collection of
    an encrypted storage plugin is locked. *)
Definition plugins (c : Plugin.Call) (w : World) : Plugin.Reply * World :=
  match c with
  | Plugin.isCollectionLocked _ _ => (Plugin.mkReply ok false, w)
  | _ => (Plugin.mkReply ok true, w)
  end.

(** The process ids of the callers: 1 is the platform application, 100 and
    200 are the applications A and B. *)
Definition applicationOf (pid : pid_t) : QString :=
  if bool_decide (pid = 100%Z) then "A" else if bool_decide (pid = 200%Z) then "B" else "other".

(** Stand-ins for the hash of a secret's name and for the derivation of the
    key material: distinct inputs give distinct outputs. *)
Definition hashOf (collectionName secretName : QString) : QString :=
  "#" ++ collectionName ++ "/" ++ secretName.

Definition keyDataOf (lockCode : QByteArray) : option (QByteArray * QByteArray) :=
  Some (x62 :: lockCode, x64 :: lockCode).

#[global] Instance collaborators : Collaborators World := {|
  applicationIsPlatformApplication := fun pid => bool_decide (pid = 1%Z);
  platformApplicationId := "platform";
  applicationId := applicationOf;
  generateHashedSecretName := hashOf;
  DefaultAuthenticationPluginName := "auth";
  isValid := fun ui => bool_decide (is_Some (ip_inputType ui));
  applicationSpecificAuthentication := fun _ => false;
  saltData := [x73; x61; x6c; x74];
  generateKeyData := keyDataOf;
  bkdb := store;
  plugin := plugins;
  beginUserInputInteraction := fun _ _ _ _ _ w => (ok, w)
|}.

(** A device-locked collection and a custom-locked standalone secret kept
    by split plugins, owned by application A. *)
Definition deviceLockRow (owner storage encryption : QString) (mode : AccessControlMode)
    : Metadata :=
  {| md_applicationId := owner; md_usesDeviceLockKey := true;
     md_storagePluginName := storage; md_encryptionPluginName := encryption;
     md_authenticationPluginName := "auth"; md_unlockSemantic := DeviceLockKeepUnlocked;
     md_customLockTimeoutMs := 0; md_accessControlMode := mode |}.

Definition customLockRow (owner storage encryption : QString) (timeoutMs : Z)
    (mode : AccessControlMode) : Metadata :=
  {| md_applicationId := owner; md_usesDeviceLockKey := false;
     md_storagePluginName := storage; md_encryptionPluginName := encryption;
     md_authenticationPluginName := "auth"; md_unlockSemantic := CustomLockTimoutRelock;
     md_customLockTimeoutMs := timeoutMs; md_accessControlMode := mode |}.

Definition world0 : World :=
  {| collectionRows := ∅; secretRows := ∅; databaseLocked := false;
     reencryptFails := false; cleanupFails := false |}.

(** The daemon after start-up with the lock code "old". *)
Definition oldLockCode : QByteArray := list_byte_of_string "old".
Definition newLockCode : QByteArray := list_byte_of_string "new".

Definition state (w : World) : State World :=
  {| m_autotestMode := false;
     m_storagePlugins := {["store"]};
     m_encryptionPlugins := {["enc"]};
     m_encryptedStoragePlugins := {["encstore"]};
     m_authenticationPlugins := {["auth"]};
     m_busyCollections := ∅;
     m_collectionEncryptionKeys := ∅;
     m_standaloneSecretEncryptionKeys := ∅;
     m_collectionLockTimers := ∅;
     m_standaloneSecretLockTimers := ∅;
     m_pendingRequests := ∅;
     watchers := [];
     timers := [];
     keyMaterial :=
       {| bkdbLockKey := x62 :: oldLockCode; deviceLockKey := x64 :: oldLockCode;
          noLockCode := false |};
     world := w;
     trace := [] |}.

End Demo.

(** ** Scenarios on the concrete daemon *)

Module Scenario.

Import Demo.

(** A device-locked collection "notes" of application A kept by the split
    plugins, unlocked: its key is cached. *)
Definition notesRow : Metadata := deviceLockRow "A" "store" "enc" OwnerOnlyMode.

Definition notesWorld : World := withCollections (insert "notes" notesRow) world0.

Definition notesState : State World :=
  set_m_collectionEncryptionKeys (<["notes" := x64 :: oldLockCode]> ∅) (state notesWorld).

Definition secretX : Secret := mkSecret (mkIdentifier "x" "notes") [x61; x62; x63] [].

(** Application A deletes "notes" and, while the plugin is still removing
    the collection, stores a secret in it. *)
Definition interleaved : M World (Result * Result) :=
  deleted <- deleteCollection 100 1 "notes" PreventInteraction ;;
  stored <- setCollectionSecret 100 2 secretX InteractionParameters0 PreventInteraction "" ;;
  ret (deleted, stored).

(** A collection "priv" of application A, owner only; in the second world
    its storage plugin is no longer installed. *)
Definition privWorld : World :=
  withCollections (insert "priv" (deviceLockRow "A" "store" "enc" OwnerOnlyMode)) world0.


(** A custom-locked standalone secret "pin" of application A that relocks
    after 500 ms, kept by the split plugins. *)
Definition pin : Identifier := mkIdentifier "pin" "".

Definition pinHash : QString := hashOf "standalone" "pin".

Definition pinRow : Metadata := customLockRow "A" "store" "enc" 500 OwnerOnlyMode.

Definition pinWorld : World := withSecrets (insert ("standalone", pinHash) pinRow) world0.

Definition pinKey : QByteArray := [x6b; x65; x79].

Definition pinSecret : Secret := mkSecret pin [x31; x32; x33; x34] [].

(** The secret is read with its key, the relock timer fires, and the secret
    is read again by a caller that allows no interaction. *)
Definition readPin : M World unit :=
  getStandaloneSecretWithEncryptionKey 100 7 pin SystemInteraction "" "store" "enc"
    CustomLockTimoutRelock 500 pinKey.

Definition readThenTimeout : M World Result :=
  readPin ;;
  timeoutRelockSecret (mkQTimer 0 500 true) ;;
  getStandaloneSecret 100 8 pin PreventInteraction "".

(** The bookkeeping database cannot be re-encrypted. *)
Definition rekeyFailsWorld : World :=
  {| collectionRows := collectionRows notesWorld; secretRows := ∅; databaseLocked := false;
     reencryptFails := true; cleanupFails := false |}.

(** The result of a plugin that cannot do what it is asked. *)
Definition pluginFailure : Result := ResultError UnknownError "The plugin failed".

End Scenario.

(** ** A daemon whose bookkeeping database is full

    The bookkeeping database answers what it is asked and refuses to insert
    a row; the plugins and the applications are those of the daemon above. *)

Module Full.

Record World := mkWorld { rows : Demo.World }.

Definition refusal : Result := ResultError UnknownError "The bookkeeping database is full".

Definition store (c : Bkdb.Call) (w : World) : Bkdb.Reply * World :=
  match c with
  | Bkdb.insertCollection _ _ | Bkdb.insertSecret _ _ _ => (Demo.plain refusal, w)
  | _ => let (reply, kept) := Demo.store c (rows w) in (reply, mkWorld kept)
  end.

Definition plugins (c : Plugin.Call) (w : World) : Plugin.Reply * World :=
  ((Demo.plugins c (rows w)).1, w).

#[global] Instance collaborators : Collaborators World := {|
  applicationIsPlatformApplication := fun pid => bool_decide (pid = 1%Z);
  platformApplicationId := "platform";
  applicationId := Demo.applicationOf;
  generateHashedSecretName := Demo.hashOf;
  DefaultAuthenticationPluginName := "auth";
  isValid := fun ui => bool_decide (is_Some (ip_inputType ui));
  applicationSpecificAuthentication := fun _ => false;
  saltData := [x73; x61; x6c; x74];
  generateKeyData := Demo.keyDataOf;
  bkdb := store;
  plugin := plugins;
  beginUserInputInteraction := fun _ _ _ _ _ w => (Demo.ok, w)
|}.

(** The daemon after start-up, with the registries and the keys of the
    daemon above. *)
Definition state : State World :=
  let s := Demo.state Demo.world0 in
  {| m_autotestMode := m_autotestMode s;
     m_storagePlugins := m_storagePlugins s;
     m_encryptionPlugins := m_encryptionPlugins s;
     m_encryptedStoragePlugins := m_encryptedStoragePlugins s;
     m_authenticationPlugins := m_authenticationPlugins s;
     m_busyCollections := ∅;
     m_collectionEncryptionKeys := ∅;
     m_standaloneSecretEncryptionKeys := ∅;
     m_collectionLockTimers := ∅;
     m_standaloneSecretLockTimers := ∅;
     m_pendingRequests := ∅;
     watchers := [];
     timers := [];
     keyMaterial := keyMaterial s;
     world := mkWorld Demo.world0;
     trace := [] |}.

End Full.

(** * Vocabulary of the properties *)

Section Vocabulary.

Context {W : Type} `{Collaborators W}.

(** A collection name is invalid when it is empty or the reserved name in
    any case. *)
Definition reservedName (n : QString) : bool := compareCaseInsensitive_eq0 n "standalone".

Definition invalidName (n : QString) : bool := isEmpty n || reservedName n.


(** The state after one answer [w] of a collaborator, recorded as [evs]. *)
Definition answered (evs : list Event) (w : W) (s : State W) : State W :=
  set_trace (trace s ++ evs) (set_world w s).

(** The plugins a row names are registered: the encrypted storage plugin
    when storage and encryption coincide, else both plugins. *)
Definition pluginsRegistered (s : State W) (storagePluginName encryptionPluginName : QString)
    : bool :=
  if qeq storagePluginName encryptionPluginName
  then contains (m_encryptedStoragePlugins s) storagePluginName
  else contains (m_storagePlugins s) storagePluginName
       && contains (m_encryptionPlugins s) encryptionPluginName.

(** Writing a standalone secret as a device-lock ([deviceLock = true]) or
    a custom-lock secret through [storagePluginName] would change the lock
    class or the storage plugin of the existing row [m]. *)
Definition wouldChange (deviceLock : bool) (m : Metadata) (storagePluginName : QString) : bool :=
  negb (bool_decide (md_usesDeviceLockKey m = deviceLock))
  || negb (compareCaseInsensitive_eq0 (md_storagePluginName m) storagePluginName).

(** A request leaves the interleave guard alone when the set of busy
    collections has no part in what it does: it runs the same whatever the set
    holds, and hands the set on as it found it. *)
Definition ignoresGuard {A : Type} (m : M W A) : Prop :=
  forall (busy : gset QString) (s : State W),
    m (set_m_busyCollections busy s) = ((m s).1, set_m_busyCollections busy (m s).2).

End Vocabulary.

(** The events that ask the user, and those that hand a job to a worker. *)
Definition isUserInput (e : Event) : bool :=
  match e with
  | EvUserInput _ _ _ _ _ _ => true
  | _ => false
  end.

Definition isRun (e : Event) : bool :=
  match e with
  | EvRun _ => true
  | _ => false
  end.

(** The events that change rows of the bookkeeping database, and those that
    start a job which reads the payload of a secret. *)
Definition isMutation (e : Event) : bool :=
  match e with
  | EvBkdb c _ => Bkdb.mutates c
  | _ => false
  end.

Definition isSecretRead (e : Event) : bool :=
  match e with
  | EvRun job => Job.readsSecret job
  | _ => false
  end.

(** A computation keeps an observation [f] of the state when it ends in a
    state with the observation it started with. *)
Definition keeps {W A B : Type} (f : State W -> B) (m : M W A) : Prop :=
  forall s : State W, f (exec m s) = f s.

(** The events of a kind recorded so far. *)
Definition recorded {W : Type} (kind : Event -> bool) (s : State W) : list Event :=
  List.filter kind (trace s).

(** What the user was asked for: the requests parked until the user has
    answered, and the interactions that were begun. *)
Definition asked {W : Type} (s : State W) : gmap quint64 PendingRequest * list Event :=
  (m_pendingRequests s, recorded isUserInput s).

(** Every timer of a relock map was started by the processor: the timers
    are told apart by the order in which they were started. *)
Definition timersStarted {W : Type} (m : gmap QString QTimer) (s : State W) : Prop :=
  forall (k : QString) (t : QTimer), m !! k = Some t -> t ∈ timers s.

(** The timers started so far have the identities the processor gave them. *)
Definition timersDistinct {W : Type} (s : State W) : Prop :=
  forall (i : nat) (t : QTimer), timers s !! i = Some t -> timerId t = i.

(** No two keys of a relock map share a timer. *)
Definition timersUnshared (m : gmap QString QTimer) : Prop :=
  forall (j k : QString) (t : QTimer), m !! j = Some t -> m !! k = Some t -> j = k.

(** * Properties *)

(** Unfolding of the monad and of the assignments, one step of a proof by
    cases on the answers of the collaborators. *)
Ltac proc_red :=
  cbv beta iota zeta delta
    [bind ret gets modify emit run requestFinished callBkdb callPlugin
     callBeginUserInputInteraction insertPendingRequest beginInteractionAndSuspend
     interleavedRequestsAllowed preventInterleavedRequests allowInterleavedRequests
     initialise testLockCode setNoLockCode startSingleShotTimer exec eval id];
  cbn [fst snd negb andb orb
       m_autotestMode m_storagePlugins m_encryptionPlugins m_encryptedStoragePlugins
       m_authenticationPlugins m_busyCollections m_collectionEncryptionKeys
       m_standaloneSecretEncryptionKeys m_collectionLockTimers m_standaloneSecretLockTimers
       m_pendingRequests watchers timers keyMaterial world trace
       set_m_busyCollections set_m_collectionEncryptionKeys
       set_m_standaloneSecretEncryptionKeys set_m_collectionLockTimers
       set_m_standaloneSecretLockTimers set_m_pendingRequests set_watchers set_timers
       set_keyMaterial set_world set_trace
       identifier name collectionName data filterData].

Ltac proc_step :=
  proc_red;
  match goal with
  | |- context [bkdb ?c ?w] =>
      let r := fresh "reply" in let w' := fresh "w" in let E := fresh "Ebkdb" in
      destruct (bkdb c w) as [r w'] eqn:E
  | |- context [plugin ?c ?w] =>
      let r := fresh "reply" in let w' := fresh "w" in let E := fresh "Eplugin" in
      destruct (plugin c w) as [r w'] eqn:E
  | |- context [beginUserInputInteraction ?a ?b ?c ?d ?e ?w] =>
      let r := fresh "reply" in let w' := fresh "w" in let E := fresh "Einput" in
      destruct (beginUserInputInteraction a b c d e w) as [r w'] eqn:E
  | |- context [if negb ?c then _ else _] => let E := fresh "E" in destruct c eqn:E
  | |- context [if ?c then _ else _] => let E := fresh "E" in destruct c eqn:E
  | |- context [match ?c with Some _ => _ | None => _ end] =>
      let E := fresh "E" in destruct c eqn:E
  end.

Ltac proc_cases := repeat proc_step; proc_red.

(** One call has one answer. *)
Ltac proc_same :=
  simplify_eq;
  repeat (match goal with
          | E1 : ?x = (?a, ?b), E2 : ?x = (?c, ?d) |- _ =>
              assert (a = c /\ b = d) as [? ?] by (split; congruence); clear E2
          end; simplify_eq).

(** Traces are compared as [trace s ++ events]. *)
Ltac trace_norm := rewrite <- ?app_assoc; cbn [app].

Section Properties.

Context {W : Type} `{Collaborators W}.

(** ** Helper facts *)

Lemma isSucceeded_true (r : Result) : isSucceeded r = true <-> code r = Succeeded.
Proof. unfold isSucceeded. apply bool_decide_eq_true. Qed.

Lemma isSucceeded_false (r : Result) : isSucceeded r = false <-> code r <> Succeeded.
Proof. unfold isSucceeded. apply bool_decide_eq_false. Qed.

Lemma isFailed_true (r : Result) : isFailed r = true <-> code r = Failed.
Proof. unfold isFailed. apply bool_decide_eq_true. Qed.

Lemma qeq_true (a b : QString) : qeq a b = true <-> a = b.
Proof. unfold qeq. apply bool_decide_eq_true. Qed.

Lemma qeq_false (a b : QString) : qeq a b = false <-> a <> b.
Proof. unfold qeq. apply bool_decide_eq_false. Qed.

Lemma same_true {A : Type} `{EqDecision A} (a b : A) : same a b = true <-> a = b.
Proof. unfold same. apply bool_decide_eq_true. Qed.

Lemma same_false {A : Type} `{EqDecision A} (a b : A) : same a b = false <-> a <> b.
Proof. unfold same. apply bool_decide_eq_false. Qed.

Lemma isEmpty_true (s : QString) : isEmpty s = true <-> s = "".
Proof. destruct s; simpl; split; congruence. Qed.

Lemma isEmpty_false (s : QString) : isEmpty s = false <-> s <> "".
Proof. destruct s; simpl; split; congruence. Qed.

(** The empty name is not the reserved name. *)
Lemma empty_not_reserved : compareCaseInsensitive_eq0 "" "standalone" = false.
Proof. reflexivity. Qed.

(** The checks of [pluginsRegistered], one at a time as the requests make
    them. *)
Lemma pluginsRegistered_checks (s : State W) (sp ep : QString) :
  pluginsRegistered s sp ep = true ->
  qeq sp ep && negb (contains (m_encryptedStoragePlugins s) sp) = false
  /\ negb (qeq sp ep) && negb (contains (m_storagePlugins s) sp) = false
  /\ negb (qeq sp ep) && negb (contains (m_encryptionPlugins s) ep) = false.
Proof.
  unfold pluginsRegistered.
  destruct (qeq sp ep), (contains (m_encryptedStoragePlugins s) sp),
    (contains (m_storagePlugins s) sp), (contains (m_encryptionPlugins s) ep);
    cbn; intros; repeat split; congruence.
Qed.

(** The key found for a timer is a key of the timer map. *)
Lemma findTimer_dom (m : gmap QString QTimer) (t : QTimer) (k : QString) :
  findTimer m t = Some k -> k ∈ dom m.
Proof.
  unfold findTimer, entries. intros Hf.
  destruct (List.find _ _) as [[k' v]|] eqn:E; [|discriminate].
  cbn in Hf. injection Hf as ->.
  apply List.find_some in E as [Hin _].
  apply list_elem_of_In in Hin. rewrite merge_sort_Permutation in Hin.
  apply elem_of_map_to_list in Hin. apply elem_of_dom. eauto.
Qed.

(** [timeoutRelockSecret] touches the key cache only at keys of the timer
    map. *)
Lemma timeoutRelockSecret_spares (s : State W) (t : QTimer) (h : QString) :
  h ∉ dom (m_standaloneSecretLockTimers s) ->
  m_standaloneSecretEncryptionKeys (exec (timeoutRelockSecret t) s) !! h =
    m_standaloneSecretEncryptionKeys s !! h.
Proof.
  intros Hh. unfold timeoutRelockSecret. proc_red.
  destruct (findTimer (m_standaloneSecretLockTimers s) t) as [k|] eqn:E; proc_red;
    [|reflexivity].
  apply findTimer_dom in E. apply lookup_delete_ne. intros ->. contradiction.
Qed.

(** ** Requests that leave the interleave guard alone *)

Lemma ignoresGuard_ret {A : Type} (a : A) : ignoresGuard (W:=W) (ret a).
Proof. intros busy s. reflexivity. Qed.

Lemma ignoresGuard_bind {A B : Type} (m : M W A) (k : A -> M W B) :
  ignoresGuard m -> (forall a, ignoresGuard (k a)) -> ignoresGuard (bind m k).
Proof.
  intros Hm Hk busy s. unfold bind. rewrite Hm.
  destruct (m s) as [a s1]. cbn [fst snd]. apply Hk.
Qed.

Lemma ignoresGuard_gets {A : Type} (f : State W -> A) :
  (forall busy s, f (set_m_busyCollections busy s) = f s) -> ignoresGuard (gets f).
Proof. intros Hf busy s. unfold gets. cbn [fst snd]. by rewrite Hf. Qed.

(** A request that starts by reading the registries. *)
Lemma ignoresGuard_state {A : Type} (k : State W -> M W A) :
  (forall p, ignoresGuard (k p)) ->
  (forall busy p, k (set_m_busyCollections busy p) = k p) ->
  ignoresGuard (bind (gets id) k).
Proof.
  intros Hk Hp busy s. unfold bind, gets, id. cbn [fst snd]. rewrite Hp. apply Hk.
Qed.

Lemma ignoresGuard_modify (f : State W -> State W) :
  (forall busy s, f (set_m_busyCollections busy s) = set_m_busyCollections busy (f s)) ->
  ignoresGuard (modify f).
Proof. intros Hf busy s. unfold modify. cbn [fst snd]. by rewrite Hf. Qed.

Lemma ignoresGuard_callBkdb (c : Bkdb.Call) : ignoresGuard (callBkdb c).
Proof. intros busy s. unfold callBkdb. proc_cases. reflexivity. Qed.

Lemma ignoresGuard_callPlugin (c : Plugin.Call) : ignoresGuard (callPlugin c).
Proof. intros busy s. unfold callPlugin. proc_cases. reflexivity. Qed.

Lemma ignoresGuard_run (j : Job.t) (k : Continuation) : ignoresGuard (W:=W) (run j k).
Proof. intros busy s. reflexivity. Qed.

Lemma ignoresGuard_requestFinished (rid : quint64) (out : list OutParam) :
  ignoresGuard (W:=W) (requestFinished rid out).
Proof. intros busy s. reflexivity. Qed.

Lemma ignoresGuard_beginInteractionAndSuspend (ap : QString) (pid : pid_t) (rid : quint64)
    (ip : InteractionParameters) (addr : QString) (ty : RequestType) (params : list QVariant) :
  ignoresGuard (beginInteractionAndSuspend ap pid rid ip addr ty params).
Proof. intros busy s. unfold beginInteractionAndSuspend. proc_cases; reflexivity. Qed.

Ltac guard_step :=
  match goal with
  | |- ignoresGuard (bind (gets id) _) => fail 1
  | |- ignoresGuard (bind _ _) => apply ignoresGuard_bind; [|intros ?]
  | |- ignoresGuard (ret _) => apply ignoresGuard_ret
  | |- ignoresGuard (callBkdb _) => apply ignoresGuard_callBkdb
  | |- ignoresGuard (callPlugin _) => apply ignoresGuard_callPlugin
  | |- ignoresGuard (run _ _) => apply ignoresGuard_run
  | |- ignoresGuard (requestFinished _ _) => apply ignoresGuard_requestFinished
  | |- ignoresGuard (beginInteractionAndSuspend _ _ _ _ _ _ _) =>
      apply ignoresGuard_beginInteractionAndSuspend
  | |- ignoresGuard (modify _) =>
      apply ignoresGuard_modify; intros ? ?;
      cbn [m_collectionEncryptionKeys set_m_busyCollections];
      repeat match goal with |- context [if ?c then _ else _] => destruct c end; reflexivity
  | |- ignoresGuard (gets _) => apply ignoresGuard_gets; reflexivity
  | |- ignoresGuard (if ?c then _ else _) => destruct c
  | |- ignoresGuard (match ?c with Some _ => _ | None => _ end) => destruct c
  end.

Lemma ignoresGuard_setCollectionSecretWithEncryptionKey (pid : pid_t) (rid : quint64)
    (secret : Secret) (uim : UserInteractionMode) (addr : QString) (c : Metadata)
    (key : QByteArray) :
  ignoresGuard (setCollectionSecretWithEncryptionKey pid rid secret uim addr c key).
Proof. unfold setCollectionSecretWithEncryptionKey. repeat guard_step. Qed.

Lemma ignoresGuard_setCollectionSecretUnlockFlow (pid : pid_t) (rid : quint64)
    (secret : Secret) (uim : UserInteractionMode) (addr : QString) (c : Metadata) :
  ignoresGuard (setCollectionSecretUnlockFlow pid rid secret uim addr c).
Proof. unfold setCollectionSecretUnlockFlow. repeat guard_step. Qed.

Lemma ignoresGuard_setCollectionSecretGetAuthenticationCode (pid : pid_t) (rid : quint64)
    (secret : Secret) (uim : UserInteractionMode) (addr : QString) (c : Metadata) :
  ignoresGuard (setCollectionSecretGetAuthenticationCode pid rid secret uim addr c).
Proof.
  unfold setCollectionSecretGetAuthenticationCode.
  repeat (guard_step || apply ignoresGuard_setCollectionSecretWithEncryptionKey
          || apply ignoresGuard_setCollectionSecretUnlockFlow).
Qed.

(** [setCollectionSecret] neither reads nor writes the set of busy
    collections: whatever the set holds, the request proceeds as it would
    with any other. *)
Lemma setCollectionSecret_ignores_guard (pid : pid_t) (rid : quint64) (secret : Secret)
    (ui : InteractionParameters) (uim : UserInteractionMode) (addr : QString) :
  ignoresGuard (setCollectionSecret pid rid secret ui uim addr).
Proof.
  unfold setCollectionSecret. apply ignoresGuard_state.
  - intros p.
    repeat (guard_step || apply ignoresGuard_setCollectionSecretGetAuthenticationCode).
  - intros busy p. reflexivity.
Qed.

(** ** Creating a device-lock collection *)


(** ** Collection names *)



(** ** Secrets of a collection *)

(** C8: whenever [setCollectionSecretWithEncryptionKey] hands the write to
    a worker, the row of the secret was inserted first unless it existed, and
    the handler of the write is told whether it existed.  That handler calls
    [cleanupDeleteSecret] exactly when the write failed and the row did not
    exist before the request; otherwise it finishes the request with the
    result of the plugin and calls nothing. *)
Theorem set_collection_secret_cleanup_only_if_inserted (s : State W) (pid : pid_t)
    (rid : quint64) (secret : Secret) (uim : UserInteractionMode) (addr : QString)
    (collection : Metadata) (key : QByteArray) (existed : bool) (hashed : QString)
    (pluginResult : Result) :
  let cn := collectionName (identifier secret) in
  let h := generateHashedSecretName cn (name (identifier secret)) in
  let asked := bkdb (Bkdb.secretAlreadyExists cn h) (world s) in
  let inserted := bkdb (Bkdb.insertSecret cn h collection) asked.2 in
  let job :=
    if qeq (md_storagePluginName collection) (md_encryptionPluginName collection)
    then Job.EncryptedStorage_unlockCollectionAndStoreSecret (md_storagePluginName collection)
           secret h key
    else Job.Storage_encryptAndStoreSecret (md_encryptionPluginName collection)
           (md_storagePluginName collection) secret h key in
  let s' :=
    exec (setCollectionSecretWithEncryptionKey pid rid secret uim addr collection key) s in
  let cleaned := bkdb (Bkdb.cleanupDeleteSecret cn hashed pluginResult) (world s) in
  let done :=
    exec (setCollectionSecretWithEncryptionKeyFinalise pid rid secret existed hashed
            pluginResult) s in
  (watchers s' <> watchers s ->
   watchers s' =
     (watchers s ++
      [mkWatcher job
         (K_setCollectionSecretWithEncryptionKey pid rid secret (Bkdb.flag asked.1) h)])%list
   /\ trace s' =
      (trace s ++
       if Bkdb.flag asked.1
       then [EvBkdb (Bkdb.secretAlreadyExists cn h) asked.1; EvRun job]
       else [EvBkdb (Bkdb.secretAlreadyExists cn h) asked.1;
             EvBkdb (Bkdb.insertSecret cn h collection) inserted.1; EvRun job])%list
   /\ (Bkdb.flag asked.1 = false -> code (Bkdb.result inserted.1) = Succeeded))
  /\ done =
     (if existed || negb (isFailed pluginResult)
      then answered [EvRequestFinished rid [OutResult pluginResult]] (world s) s
      else
        answered
          [EvBkdb (Bkdb.cleanupDeleteSecret cn hashed pluginResult) cleaned.1;
           EvRequestFinished rid
             [OutResult (if isSucceeded (Bkdb.result cleaned.1) then pluginResult
                         else Bkdb.result cleaned.1)]] cleaned.2 s).
Proof.
  intros cn h asked inserted job s' cleaned done.
  subst cn h asked inserted job s' cleaned done. split.
  - unfold setCollectionSecretWithEncryptionKey. intros Hw. revert Hw.
    proc_cases; intros Hw; try (exfalso; apply Hw; reflexivity).
    all: trace_norm; repeat split; try congruence.
    all: simplify_eq; intros _; by apply isSucceeded_true.
  - unfold setCollectionSecretWithEncryptionKeyFinalise, answered.
    destruct existed, (isFailed pluginResult) eqn:Ef; cbn [orb negb andb]; proc_cases;
      trace_norm; reflexivity.
Qed.


(** ** Standalone secrets *)

(** C9: when the row of a standalone secret exists, the name of the secret
    is not empty, the plugins named by the request are registered and the
    caller passes the access check of the row, [setStandaloneDeviceLockSecret]
    and [setStandaloneCustomLockSecret] fail with [OperationNotSupportedError]
    whenever the write would change the lock class of the secret or its storage
    plugin (compared without case); the only call made is the lookup of the
    row.  A caller that fails the owner check, the row being owner only and
    owned by another application, gets [PermissionsError] from both instead,
    whether or not the write would change anything, again after the lookup
    alone. *)
Theorem set_standalone_secret_keeps_lock_class_and_plugin (s : State W) (pid : pid_t)
    (rid : quint64) (sp ep ap : QString) (secret : Secret) (ui : InteractionParameters)
    (us : UnlockSemantic) (timeoutMs : Z) (acm : AccessControlMode)
    (uim : UserInteractionMode) (addr : QString) :
  let h := generateHashedSecretName "standalone" (name (identifier secret)) in
  let looked := bkdb (Bkdb.secretMetadata "standalone" h) (world s) in
  let m := Bkdb.metadata looked.1 in
  let refused (out : Result * State W) :=
    code out.1 = Failed /\ errorCode out.1 = OperationNotSupportedError
    /\ out.2 = answered [EvBkdb (Bkdb.secretMetadata "standalone" h) looked.1] looked.2 s in
  let denied (out : Result * State W) :=
    code out.1 = Failed /\ errorCode out.1 = PermissionsError
    /\ out.2 = answered [EvBkdb (Bkdb.secretMetadata "standalone" h) looked.1] looked.2 s in
  name (identifier secret) <> "" ->
  pluginsRegistered s sp ep = true ->
  code (Bkdb.result looked.1) = Succeeded ->
  Bkdb.flag looked.1 = true ->
  ((md_accessControlMode m = OwnerOnlyMode -> md_applicationId m = callerApplicationId pid) ->
   (wouldChange true m sp = true ->
    refused (setStandaloneDeviceLockSecret pid rid sp ep secret ui us acm uim addr s))
   /\ (wouldChange false m sp = true ->
       refused (setStandaloneCustomLockSecret pid rid sp ep ap secret ui us timeoutMs acm uim
                  addr s)))
  /\ (md_accessControlMode m = OwnerOnlyMode ->
      md_applicationId m <> callerApplicationId pid ->
      denied (setStandaloneDeviceLockSecret pid rid sp ep secret ui us acm uim addr s)
      /\ denied (setStandaloneCustomLockSecret pid rid sp ep ap secret ui us timeoutMs acm uim
                   addr s)).
Proof.
  intros h looked m refused denied. subst h looked m refused denied. cbv beta.
  intros Hname Hreg Hok Hfound.
  apply isEmpty_false in Hname. apply isSucceeded_true in Hok.
  destruct (pluginsRegistered_checks _ _ _ Hreg) as (C1 & C2 & C3).
  unfold wouldChange, answered.
  split; [intros Hacl|].
  2: { intros Hmode Hother. apply qeq_false in Hother.
       assert (Hsys : same OwnerOnlyMode SystemAccessControlMode = false)
         by (unfold same; by rewrite bool_decide_eq_false_2).
       assert (Hown : same OwnerOnlyMode OwnerOnlyMode = true)
         by (unfold same; by rewrite bool_decide_eq_true_2).
       split.
       - unfold setStandaloneDeviceLockSecret. proc_red. rewrite Hname, C1, C2, C3.
         destruct (bkdb _ (world s)) as [mr w1] eqn:Em. cbn [fst snd] in *.
         rewrite Hok, Hfound, Hmode, Hsys, Hown, Hother. cbn [negb andb]. done.
       - unfold setStandaloneCustomLockSecret. proc_red. rewrite Hname, C1, C2, C3.
         destruct (bkdb _ (world s)) as [mr w1] eqn:Em. cbn [fst snd] in *.
         rewrite Hok, Hfound, Hmode, Hsys, Hown, Hother. cbn [negb andb]. done. }
  assert (Hgate :
    same (md_accessControlMode
            (Bkdb.metadata (bkdb (Bkdb.secretMetadata "standalone"
               (generateHashedSecretName "standalone" (name (identifier secret))))
               (world s)).1))
         OwnerOnlyMode
    && negb (qeq (md_applicationId
            (Bkdb.metadata (bkdb (Bkdb.secretMetadata "standalone"
               (generateHashedSecretName "standalone" (name (identifier secret))))
               (world s)).1))
         (callerApplicationId pid)) = false).
  { destruct (same _ OwnerOnlyMode) eqn:Es; [|reflexivity].
    apply (proj1 (same_true _ _)) in Es. apply Hacl in Es.
    apply (proj2 (qeq_true _ _)) in Es. by rewrite Es. }
  split; intros Hchg.
  - unfold setStandaloneDeviceLockSecret. proc_red. rewrite Hname, C1, C2, C3.
    destruct (bkdb _ (world s)) as [mr w1] eqn:Em. cbn [fst snd] in *.
    rewrite Hok, Hfound. cbn [negb andb].
    destruct (same (md_accessControlMode (Bkdb.metadata mr)) SystemAccessControlMode);
      [done|].
    rewrite Hgate.
    destruct (md_usesDeviceLockKey (Bkdb.metadata mr)); cbn [negb]; [|done].
    rewrite bool_decide_eq_true_2 in Hchg by reflexivity. cbn [negb orb] in Hchg.
    rewrite Hchg. done.
  - unfold setStandaloneCustomLockSecret. proc_red. rewrite Hname, C1, C2, C3.
    destruct (bkdb _ (world s)) as [mr w1] eqn:Em. cbn [fst snd] in *.
    rewrite Hok, Hfound. cbn [negb andb].
    destruct (same (md_accessControlMode (Bkdb.metadata mr)) SystemAccessControlMode);
      [done|].
    rewrite Hgate.
    destruct (md_usesDeviceLockKey (Bkdb.metadata mr)); cbn [negb]; [done|].
    rewrite bool_decide_eq_true_2 in Hchg by reflexivity. cbn [negb orb] in Hchg.
    rewrite Hchg. done.
Qed.


(** Reading a standalone secret that relocks on a timeout, kept by split
    plugins: a timer is armed under the plain name of the secret, the key is
    cached under the hashed name, and no other timer is added. *)
Lemma getStandaloneSecretWithEncryptionKey_caches (s : State W) (pid : pid_t) (rid : quint64)
    (id : Identifier) (uim : UserInteractionMode) (addr sp ep : QString) (timeoutMs : Z)
    (key : QByteArray) :
  let h := generateHashedSecretName "standalone" (name id) in
  let read :=
    exec (getStandaloneSecretWithEncryptionKey pid rid id uim addr sp ep
            CustomLockTimoutRelock timeoutMs key) s in
  sp <> ep ->
  is_Some (m_standaloneSecretLockTimers read !! name id)
  /\ is_Some (m_standaloneSecretEncryptionKeys read !! h)
  /\ dom (m_standaloneSecretLockTimers read)
     ⊆ {[name id]} ∪ dom (m_standaloneSecretLockTimers s).
Proof.
  intros h read Hsplit. subst h read. apply (proj2 (qeq_false _ _)) in Hsplit.
  unfold getStandaloneSecretWithEncryptionKey, same.
  rewrite bool_decide_eq_true_2 by reflexivity. rewrite Hsplit. proc_red.
  destruct (m_standaloneSecretLockTimers s !! name id) as [armed|] eqn:Et; proc_red;
    destruct (bool_decide (is_Some (m_standaloneSecretEncryptionKeys s !! _))) eqn:Ek;
    proc_red; rewrite ?lookup_insert_eq, ?dom_insert_L, ?Et;
    try apply bool_decide_eq_true in Ek.
  all: repeat split; eauto.
  all: set_solver.
Qed.

(** C5: reading a standalone custom-lock secret that relocks on a timeout,
    kept by split plugins, arms a relock timer under the plain name of the
    secret and caches the key under its hashed name.  The hashed name being no
    key of the timer map, [timeoutRelockSecret] leaves the cached key where it
    is, whichever timer fires. *)
Theorem standalone_relock_timer_spares_key (s : State W) (pid : pid_t) (rid : quint64)
    (id : Identifier) (uim : UserInteractionMode) (addr sp ep : QString) (timeoutMs : Z)
    (key : QByteArray) (t : QTimer) :
  let h := generateHashedSecretName "standalone" (name id) in
  let read :=
    exec (getStandaloneSecretWithEncryptionKey pid rid id uim addr sp ep
            CustomLockTimoutRelock timeoutMs key) s in
  sp <> ep ->
  h <> name id ->
  h ∉ dom (m_standaloneSecretLockTimers s) ->
  is_Some (m_standaloneSecretLockTimers read !! name id)
  /\ is_Some (m_standaloneSecretEncryptionKeys read !! h)
  /\ m_standaloneSecretEncryptionKeys (exec (timeoutRelockSecret t) read) !! h =
     m_standaloneSecretEncryptionKeys read !! h.
Proof.
  intros h read Hsplit Hh Hdom.
  destruct (getStandaloneSecretWithEncryptionKey_caches s pid rid id uim addr sp ep
              timeoutMs key Hsplit) as (Ht & Hk & Hd).
  split; [exact Ht|]. split; [exact Hk|].
  apply timeoutRelockSecret_spares. intros Hin. apply Hd in Hin.
  apply elem_of_union in Hin as [Hin|Hin]; [|contradiction].
  apply elem_of_singleton in Hin. contradiction.
Qed.

(** ** Lock codes *)

(** C6: the lock code [forgetLockCode] initialises the key material with is
    64 bytes of the character f (0x66).  On the bookkeeping database and for
    the platform application, the request derives the keys from that code,
    locks the bookkeeping database, then the plugins, and returns the result of
    locking the database. *)
Theorem forget_lock_code_database (s : State W) (pid : pid_t) (rid : quint64)
    (ip : InteractionParameters) (uim : UserInteractionMode) (addr : QString)
    (bk dk : QByteArray) :
  let locked := bkdb Bkdb.lock (world s) in
  let call :=
    Plugin.masterLockPlugins (elements (m_storagePlugins s))
      (elements (m_encryptedStoragePlugins s)) in
  let pluginsLocked := plugin call locked.2 in
  applicationIsPlatformApplication pid = true ->
  generateKeyData forgetLockCodeSentinel = Some (bk, dk) ->
  forgetLockCodeSentinel = repeat x66 64
  /\ forgetLockCode pid rid BookkeepingDatabase "" ip uim addr s =
     (Bkdb.result locked.1,
      answered
        [EvInitialise forgetLockCodeSentinel true; EvBkdb Bkdb.lock locked.1;
         EvPlugin call pluginsLocked.1]
        pluginsLocked.2
        (set_keyMaterial
           {| bkdbLockKey := bk; deviceLockKey := dk;
              noLockCode := noLockCode (keyMaterial s) |} s)).
Proof.
  intros locked call pluginsLocked Hplatform Hkey. subst locked call pluginsLocked.
  split; [reflexivity|].
  unfold forgetLockCode, answered, same.
  rewrite !bool_decide_eq_false_2 by discriminate.
  proc_red. rewrite Hplatform, Hkey. cbn [negb isEmpty].
  proc_cases. proc_same. trace_norm. reflexivity.
Qed.

(** C3: [modifyLockCodeWithLockCodes] on a target that is no extension
    plugin, given the old lock code: when re-encrypting the bookkeeping
    database under the key of the new lock code does not succeed, the request
    initialises the key material from the old lock code again and returns the
    result of the re-encryption.  The key material is as it was before the
    request, and the calls made are the test whether the database is
    initialised and the re-encryption: no collection, standalone secret or
    plugin is asked to re-encrypt. *)
Theorem modify_lock_code_reencrypt_failure_restores_keys (s : State W) (pid : pid_t)
    (rid : quint64) (target : LockCodeTargetType) (targetName : QString)
    (ip : InteractionParameters) (uim : UserInteractionMode) (addr : QString)
    (oldLockCode newLockCode nb nd : QByteArray) :
  let opened := bkdb Bkdb.isInitialised (world s) in
  let call := Bkdb.reencrypt (bkdbLockKey (keyMaterial s)) nb in
  let reencrypted := bkdb call opened.2 in
  target <> ExtensionPlugin ->
  eval (testLockCode oldLockCode) s = true ->
  generateKeyData newLockCode = Some (nb, nd) ->
  code (Bkdb.result reencrypted.1) <> Succeeded ->
  modifyLockCodeWithLockCodes pid rid target targetName ip uim addr oldLockCode newLockCode s =
    (Bkdb.result reencrypted.1,
     answered
       ([EvBkdb Bkdb.isInitialised opened.1]
        ++ (if Bkdb.flag opened.1 then [] else [EvInitialise oldLockCode true])
        ++ [EvInitialise newLockCode true; EvBkdb call reencrypted.1;
            EvInitialise oldLockCode true])%list
       reencrypted.2 s).
Proof.
  intros opened call reencrypted Htarget Htest Hnew Hfail.
  subst opened call reencrypted.
  apply (proj2 (same_false _ _)) in Htarget. apply (proj2 (isSucceeded_false _)) in Hfail.
  unfold modifyLockCodeWithLockCodes, answered.
  destruct s as [a1 a2 a3 a4 a5 a6 a7 a8 a9 a10 a11 a12 a13 km w tr].
  destruct km as [kb kd kn].
  unfold eval, testLockCode, gets in Htest.
  cbn [fst keyMaterial bkdbLockKey deviceLockKey] in Htest.
  cbn [keyMaterial bkdbLockKey world] in Hfail.
  proc_red. cbn [bkdbLockKey deviceLockKey noLockCode] in *.
  rewrite Htarget.
  destruct (generateKeyData oldLockCode) as [[ob od]|] eqn:Eold; [|discriminate].
  apply andb_true_iff in Htest as [Hb Hd].
  apply bool_decide_eq_true in Hb, Hd. subst ob od.
  unfold beq. rewrite !bool_decide_eq_true_2 by reflexivity. cbn [andb negb].
  proc_red. cbn [bkdbLockKey deviceLockKey noLockCode] in *.
  destruct (bkdb Bkdb.isInitialised w) as [ir w1] eqn:Ei. cbn [fst snd] in *.
  destruct (Bkdb.flag ir); proc_red; cbn [bkdbLockKey deviceLockKey noLockCode] in *;
    rewrite ?Eold, Hnew; proc_red; cbn [bkdbLockKey deviceLockKey noLockCode] in *;
    destruct (bkdb (Bkdb.reencrypt kb nb) w1) as [rr w2] eqn:Er; cbn [fst snd] in *;
    rewrite Hfail; rewrite ?Eold; proc_red; cbn [bkdbLockKey deviceLockKey noLockCode] in *;
    trace_norm; reflexivity.
Qed.

End Properties.

(** * The properties on the concrete daemon *)

(** C1: application A deletes the collection "notes" and, while the plugin
    is still removing it and the collection is marked busy, stores a secret in
    it.  [setCollectionSecret] does not return [InterleavedRequestError]: it
    returns Pending, inserts the row of the secret and hands the write to a
    worker, so that two requests that change "notes" are in flight at once. *)
Theorem set_collection_secret_while_collection_busy :
  let out := Scenario.interleaved Scenario.notesState in
  "notes" ∈ m_busyCollections out.2
  /\ out.1.1 = ResultOf Pending
  /\ out.1.2 = ResultOf Pending
  /\ out.1.2 <> interleavedRequestError
  /\ future <$> watchers out.2 =
     [Job.Storage_removeCollection "store" "notes";
      Job.Storage_encryptAndStoreSecret "enc" "store" Scenario.secretX
        (Demo.hashOf "notes" "x") (x64 :: Demo.oldLockCode)]
  /\ is_Some (Demo.secretRows (world out.2) !! ("notes", Demo.hashOf "notes" "x")).
Proof. vm_compute. repeat split; try discriminate. eauto. Qed.


(** The bookkeeping database cannot be re-encrypted: the request fails, the
    key material is that of the old lock code and no job was started. *)
Lemma modify_lock_code_witness :
  let s := Demo.state Scenario.rekeyFailsWorld in
  let out :=
    modifyLockCodeWithLockCodes 1 5 BookkeepingDatabase "" InteractionParameters0
      PreventInteraction "" Demo.oldLockCode Demo.newLockCode s in
  eval (testLockCode Demo.oldLockCode) s = true
  /\ code out.1 = Failed
  /\ keyMaterial out.2 = keyMaterial s
  /\ watchers out.2 = watchers s
  /\ filter (fun e => bool_decide (isRun e = true)) (trace out.2) = [].
Proof.
  intros s out.
  assert (Htest : eval (testLockCode Demo.oldLockCode) s = true) by (vm_compute; reflexivity).
  assert (Hnew : generateKeyData Demo.newLockCode
                 = Some (x62 :: Demo.newLockCode, x64 :: Demo.newLockCode))
    by (vm_compute; reflexivity).
  assert (Hfail :
    code (Bkdb.result
            (bkdb (Bkdb.reencrypt (bkdbLockKey (keyMaterial s)) (x62 :: Demo.newLockCode))
               (bkdb Bkdb.isInitialised (world s)).2).1) <> Succeeded)
    by (vm_compute; discriminate).
  assert (Htarget : BookkeepingDatabase <> ExtensionPlugin) by discriminate.
  pose proof (modify_lock_code_reencrypt_failure_restores_keys s 1 5 BookkeepingDatabase ""
                InteractionParameters0 PreventInteraction "" Demo.oldLockCode
                Demo.newLockCode _ _ Htarget Htest Hnew Hfail) as Hout.
  split; [exact Htest|].
  subst out. rewrite Hout. vm_compute. repeat split; reflexivity.
Defined.



(** The secret "pin" is read with its key and the relock timer fires: the key
    is still cached under the hashed name, and the next read, by a caller that
    allows no interaction, goes to the plugins with it. *)
Lemma standalone_relock_timer_witness :
  let s := Demo.state Scenario.pinWorld in
  let read := exec Scenario.readPin s in
  let out := Scenario.readThenTimeout s in
  Scenario.pinHash <> name Scenario.pin
  /\ m_standaloneSecretEncryptionKeys (exec (timeoutRelockSecret (mkQTimer 0 500 true)) read)
       !! Scenario.pinHash = Some Scenario.pinKey
  /\ m_standaloneSecretLockTimers (exec (timeoutRelockSecret (mkQTimer 0 500 true)) read) = ∅
  /\ out.1 = ResultOf Pending
  /\ filter (fun e => bool_decide (isUserInput e = true)) (trace out.2) = []
  /\ last (trace out.2) =
     Some (EvRun (Job.Storage_getAndDecryptSecret "enc" "store"
                    (mkIdentifier "pin" "standalone") Scenario.pinHash Scenario.pinKey)).
Proof.
  intros s read out.
  assert (Hhash : Scenario.pinHash <> name Scenario.pin) by (vm_compute; discriminate).
  assert (Hsplit : "store" <> "enc") by discriminate.
  assert (Hfresh : generateHashedSecretName "standalone" (name Scenario.pin)
                   ∉ dom (m_standaloneSecretLockTimers s))
    by (apply not_elem_of_dom; vm_compute; reflexivity).
  pose proof (standalone_relock_timer_spares_key s 100 7 Scenario.pin SystemInteraction ""
                "store" "enc" 500 Scenario.pinKey (mkQTimer 0 500 true) Hsplit Hhash Hfresh)
    as (_ & _ & Hspared).
  split; [exact Hhash|]. split.
  - etransitivity; [exact Hspared|]. vm_compute. reflexivity.
  - vm_compute. repeat split; reflexivity.
Defined.

(** The lock code that [forgetLockCode] initialises the key material with
    is not 64 bytes of 0xff. *)
Lemma forget_lock_code_sentinel_is_not_all_ones :
  let out :=
    forgetLockCode 1 3 BookkeepingDatabase "" InteractionParameters0 PreventInteraction ""
      (Demo.state Demo.world0) in
  head (trace out.2) = Some (EvInitialise (repeat x66 64) true)
  /\ forgetLockCodeSentinel <> repeat xff 64
  /\ bkdbLockKey (keyMaterial out.2) <> x62 :: repeat xff 64.
Proof. vm_compute. repeat split; discriminate. Qed.

(** The platform application makes the daemon forget the lock code. *)
Lemma forget_lock_code_witness :
  let s := Demo.state Demo.world0 in
  let out :=
    forgetLockCode 1 3 BookkeepingDatabase "" InteractionParameters0 PreventInteraction "" s in
  applicationIsPlatformApplication 1 = true
  /\ code out.1 = Succeeded
  /\ bkdbLockKey (keyMaterial out.2) = x62 :: repeat x66 64
  /\ Demo.databaseLocked (world out.2) = true.
Proof.
  intros s out.
  assert (Hplatform : applicationIsPlatformApplication 1 = true) by (vm_compute; reflexivity).
  assert (Hkey : generateKeyData forgetLockCodeSentinel
                 = Some (x62 :: forgetLockCodeSentinel, x64 :: forgetLockCodeSentinel))
    by (vm_compute; reflexivity).
  pose proof (forget_lock_code_database s 1 3 InteractionParameters0 PreventInteraction ""
                _ _ Hplatform Hkey) as (_ & Hout).
  split; [exact Hplatform|].
  subst out. rewrite Hout. vm_compute. repeat split; reflexivity.
Defined.



(** The write of a new secret of "notes" fails: the row inserted by the
    request is removed; had the row existed, the store would be left as it
    is. *)
Lemma set_collection_secret_cleanup_witness :
  let s := Scenario.notesState in
  let started :=
    exec (setCollectionSecretWithEncryptionKey 100 2 Scenario.secretX PreventInteraction ""
            Scenario.notesRow (x64 :: Demo.oldLockCode)) s in
  let finalise existed :=
    exec (setCollectionSecretWithEncryptionKeyFinalise 100 2 Scenario.secretX existed
            (Demo.hashOf "notes" "x") Scenario.pluginFailure) started in
  watchers started <> watchers s
  /\ onFinished <$> watchers started =
     [K_setCollectionSecretWithEncryptionKey 100 2 Scenario.secretX false
        (Demo.hashOf "notes" "x")]
  /\ is_Some (Demo.secretRows (world started) !! ("notes", Demo.hashOf "notes" "x"))
  /\ Demo.secretRows (world (finalise false)) !! ("notes", Demo.hashOf "notes" "x") = None
  /\ world (finalise true) = world started
  /\ trace (finalise true) =
     (trace started ++ [EvRequestFinished 2 [OutResult Scenario.pluginFailure]])%list.
Proof.
  intros s started finalise.
  assert (Hw : watchers started <> watchers s) by (vm_compute; discriminate).
  pose proof (set_collection_secret_cleanup_only_if_inserted s 100 2 Scenario.secretX
                PreventInteraction "" Scenario.notesRow (x64 :: Demo.oldLockCode) false ""
                Scenario.pluginFailure) as [Hstart _].
  destruct (Hstart Hw) as (Hwatch & _ & Hinserted).
  pose proof (set_collection_secret_cleanup_only_if_inserted started 100 2 Scenario.secretX
                PreventInteraction "" Scenario.notesRow (x64 :: Demo.oldLockCode) false
                (Demo.hashOf "notes" "x") Scenario.pluginFailure) as [_ Hnew].
  pose proof (set_collection_secret_cleanup_only_if_inserted started 100 2 Scenario.secretX
                PreventInteraction "" Scenario.notesRow (x64 :: Demo.oldLockCode) true
                (Demo.hashOf "notes" "x") Scenario.pluginFailure) as [_ Hold].
  split; [exact Hw|].
  split; [subst started; rewrite Hwatch; vm_compute; reflexivity|].
  split; [vm_compute; eauto|].
  split; [subst finalise; cbv beta; rewrite Hnew; vm_compute; reflexivity|].
  subst finalise; cbv beta; rewrite Hold. vm_compute. split; reflexivity.
Defined.

(** The custom-lock standalone secret "pin" of application A exists;
    application B writes it as a device-lock secret.  The write would change
    the lock class, yet the request fails with [PermissionsError]: the owner
    is checked before the lock class. *)
Lemma set_standalone_secret_other_owner :
  let s := Demo.state Scenario.pinWorld in
  let looked := bkdb (Bkdb.secretMetadata "standalone" Scenario.pinHash) (world s) in
  let out :=
    setStandaloneDeviceLockSecret 200 4 "store" "enc" Scenario.pinSecret
      InteractionParameters0 DeviceLockKeepUnlocked OwnerOnlyMode PreventInteraction "" s in
  Bkdb.flag looked.1 = true
  /\ wouldChange true (Bkdb.metadata looked.1) "store" = true
  /\ errorCode out.1 = PermissionsError
  /\ errorCode out.1 <> OperationNotSupportedError.
Proof. vm_compute. repeat split; discriminate. Qed.

(** Application A writes its custom-lock secret "pin", kept by "store",
    through the plugin "encstore"; application B writes the same secret. *)
Lemma set_standalone_secret_witness :
  let s := Demo.state Scenario.pinWorld in
  let device (pid : pid_t) :=
    setStandaloneDeviceLockSecret pid 4 "encstore" "encstore" Scenario.pinSecret
      InteractionParameters0 DeviceLockKeepUnlocked OwnerOnlyMode PreventInteraction "" s in
  let custom (pid : pid_t) :=
    setStandaloneCustomLockSecret pid 4 "encstore" "encstore" "auth" Scenario.pinSecret
      InteractionParameters0 CustomLockKeepUnlocked 0 OwnerOnlyMode PreventInteraction "" s in
  wouldChange true Scenario.pinRow "encstore" = true
  /\ wouldChange false Scenario.pinRow "encstore" = true
  /\ errorCode (device 100%Z).1 = OperationNotSupportedError
  /\ world (device 100%Z).2 = world s
  /\ errorCode (custom 100%Z).1 = OperationNotSupportedError
  /\ world (custom 100%Z).2 = world s
  /\ md_applicationId Scenario.pinRow <> callerApplicationId 200
  /\ errorCode (device 200%Z).1 = PermissionsError
  /\ world (device 200%Z).2 = world s
  /\ errorCode (custom 200%Z).1 = PermissionsError
  /\ world (custom 200%Z).2 = world s.
Proof.
  intros s device custom.
  set (looked :=
    bkdb (Bkdb.secretMetadata "standalone"
            (generateHashedSecretName "standalone" (name (identifier Scenario.pinSecret))))
      (world s)).
  assert (Hname : name (identifier Scenario.pinSecret) <> "") by discriminate.
  assert (Hreg : pluginsRegistered s "encstore" "encstore" = true)
    by (vm_compute; reflexivity).
  assert (Hok : code (Bkdb.result looked.1) = Succeeded) by (vm_compute; reflexivity).
  assert (Hfound : Bkdb.flag looked.1 = true) by (vm_compute; reflexivity).
  assert (Hmode : md_accessControlMode (Bkdb.metadata looked.1) = OwnerOnlyMode)
    by (vm_compute; reflexivity).
  assert (Howner :
    md_accessControlMode (Bkdb.metadata looked.1) = OwnerOnlyMode ->
    md_applicationId (Bkdb.metadata looked.1) = callerApplicationId 100)
    by (intros _; vm_compute; reflexivity).
  assert (Hother : md_applicationId (Bkdb.metadata looked.1) <> callerApplicationId 200)
    by (vm_compute; discriminate).
  pose proof (set_standalone_secret_keeps_lock_class_and_plugin s 100 4 "encstore" "encstore"
                "auth" Scenario.pinSecret InteractionParameters0 DeviceLockKeepUnlocked 0
                OwnerOnlyMode PreventInteraction "" Hname Hreg Hok Hfound)
    as [Hdevice _].
  pose proof (set_standalone_secret_keeps_lock_class_and_plugin s 100 4 "encstore" "encstore"
                "auth" Scenario.pinSecret InteractionParameters0 CustomLockKeepUnlocked 0
                OwnerOnlyMode PreventInteraction "" Hname Hreg Hok Hfound)
    as [Hcustom _].
  pose proof (set_standalone_secret_keeps_lock_class_and_plugin s 200 4 "encstore" "encstore"
                "auth" Scenario.pinSecret InteractionParameters0 DeviceLockKeepUnlocked 0
                OwnerOnlyMode PreventInteraction "" Hname Hreg Hok Hfound)
    as [_ Hdenied].
  pose proof (set_standalone_secret_keeps_lock_class_and_plugin s 200 4 "encstore" "encstore"
                "auth" Scenario.pinSecret InteractionParameters0 CustomLockKeepUnlocked 0
                OwnerOnlyMode PreventInteraction "" Hname Hreg Hok Hfound)
    as [_ Hdenied'].
  destruct (Hdevice Howner) as [Hd _]. destruct (Hcustom Howner) as [_ Hc].
  destruct Hd as (_ & Hd1 & Hd2); [vm_compute; reflexivity|].
  destruct Hc as (_ & Hc1 & Hc2); [vm_compute; reflexivity|].
  destruct (Hdenied Hmode Hother) as [(_ & Hb1 & Hb2) _].
  destruct (Hdenied' Hmode Hother) as [_ (_ & Hb3 & Hb4)].
  split; [vm_compute; reflexivity|]. split; [vm_compute; reflexivity|].
  split; [exact Hd1|].
  split; [subst device; cbv beta; rewrite Hd2; vm_compute; reflexivity|].
  split; [exact Hc1|].
  split; [subst custom; cbv beta; rewrite Hc2; vm_compute; reflexivity|].
  split; [vm_compute; discriminate|].
  split; [exact Hb1|].
  split; [subst device; cbv beta; rewrite Hb2; vm_compute; reflexivity|].
  split; [exact Hb3|].
  subst custom; cbv beta; rewrite Hb4; vm_compute; reflexivity.
Defined.


(** Creating a collection checks only the reserved name: with the empty
    name, [createDeviceLockCollection] inserts a row and starts the plugin. *)
Lemma create_device_lock_collection_accepts_empty_name :
  let out :=
    createDeviceLockCollection 100 1 "" "store" "enc" DeviceLockKeepUnlocked OwnerOnlyMode
      (Demo.state Demo.world0) in
  out.1 = ResultOf Pending /\ is_Some (Demo.collectionRows (world out.2) !! "").
Proof. vm_compute. split; eauto. Qed.

(** * Further properties of the requests *)

(** The events of a kind, after the assignments of a step. *)
Ltac recorded_norm :=
  unfold recorded;
  cbn [trace set_trace set_world set_watchers set_m_busyCollections set_m_pendingRequests
       set_m_collectionEncryptionKeys set_m_standaloneSecretEncryptionKeys
       set_m_collectionLockTimers set_m_standaloneSecretLockTimers set_timers set_keyMaterial
       m_pendingRequests];
  rewrite ?List.filter_app;
  cbn [List.filter isMutation isUserInput isSecretRead isRun Bkdb.mutates Job.readsSecret];
  rewrite ?app_nil_r.

(** The fields of a state that was built by assignments. *)
Ltac state_norm :=
  cbn [fst snd m_autotestMode m_storagePlugins m_encryptionPlugins m_encryptedStoragePlugins
       m_authenticationPlugins m_busyCollections m_collectionEncryptionKeys
       m_standaloneSecretEncryptionKeys m_collectionLockTimers m_standaloneSecretLockTimers
       m_pendingRequests watchers timers keyMaterial world trace
       set_m_busyCollections set_m_collectionEncryptionKeys
       set_m_standaloneSecretEncryptionKeys set_m_collectionLockTimers
       set_m_standaloneSecretLockTimers set_m_pendingRequests set_watchers set_timers
       set_keyMaterial set_world set_trace] in *.

(** Case analysis in the order of the calls: an answer is named once the
    state it is asked in is known. *)
Ltac settled w :=
  lazymatch w with
  | context [bkdb _ _] => fail
  | context [plugin _ _] => fail
  | context [beginUserInputInteraction _ _ _ _ _ _] => fail
  | _ => idtac
  end.

Ltac call_step :=
  proc_red;
  match goal with
  | |- context [bkdb ?c ?w] =>
      settled w;
      first
        [ match goal with E : bkdb c w = _ |- _ => rewrite E end
        | let r := fresh "reply" in let w' := fresh "w" in let E := fresh "Ecall" in
          destruct (bkdb c w) as [r w'] eqn:E ];
      cbn [fst snd] in *
  | |- context [plugin ?c ?w] =>
      settled w;
      first
        [ match goal with E : plugin c w = _ |- _ => rewrite E end
        | let r := fresh "reply" in let w' := fresh "w" in let E := fresh "Ecall" in
          destruct (plugin c w) as [r w'] eqn:E ];
      cbn [fst snd] in *
  | |- context [beginUserInputInteraction ?a ?b ?c ?d ?e ?w] =>
      settled w;
      first
        [ match goal with
          | E : beginUserInputInteraction a b c d e w = _ |- _ => rewrite E
          end
        | let r := fresh "reply" in let w' := fresh "w" in let E := fresh "Ecall" in
          destruct (beginUserInputInteraction a b c d e w) as [r w'] eqn:E ];
      cbn [fst snd] in *
  end.

Ltac cond_step :=
  proc_red;
  match goal with
  | |- context [if negb ?c then _ else _] => let E := fresh "E" in destruct c eqn:E
  | |- context [if ?c then _ else _] => let E := fresh "E" in destruct c eqn:E
  | |- context [match ?c with Some _ => _ | None => _ end] =>
      let E := fresh "E" in destruct c eqn:E
  end.

Ltac call_cases := repeat call_step; repeat (cond_step; repeat call_step); proc_red.

Section MoreProperties.

Context {W : Type} `{Collaborators W}.

Lemma invalidName_false (n : QString) :
  invalidName n = false ->
  isEmpty n = false /\ compareCaseInsensitive_eq0 n "standalone" = false.
Proof.
  unfold invalidName, reservedName. intros Hn. apply orb_false_iff in Hn. exact Hn.
Qed.

Lemma contains_true (registry : gset QString) (n : QString) :
  contains registry n = true <-> n ∈ registry.
Proof. unfold contains. apply bool_decide_eq_true. Qed.

Lemma same_refl {A : Type} `{EqDecision A} (a : A) : same a a = true.
Proof. unfold same. by apply bool_decide_eq_true. Qed.

(** The two checks of the access control mode, passed. *)
Lemma access_granted (m : Metadata) (caller : QString) :
  same (md_accessControlMode m) SystemAccessControlMode = false ->
  same (md_accessControlMode m) OwnerOnlyMode && negb (qeq (md_applicationId m) caller)
    = false ->
  md_accessControlMode m <> SystemAccessControlMode
  /\ (md_accessControlMode m = OwnerOnlyMode -> md_applicationId m = caller).
Proof.
  intros Hsys Hown. split; [by apply (proj1 (same_false _ _))|].
  intros Hmode. apply (proj2 (same_true _ _)) in Hmode. rewrite Hmode in Hown.
  cbn [andb] in Hown. apply negb_false_iff in Hown. by apply (proj1 (qeq_true _ _)) in Hown.
Qed.

(** ** What a computation keeps *)

Lemma keeps_ret {A B : Type} (f : State W -> B) (a : A) : keeps f (ret a).
Proof. intros s. reflexivity. Qed.

Lemma keeps_bind {A B C : Type} (f : State W -> C) (m : M W A) (k : A -> M W B) :
  keeps f m -> (forall a, keeps f (k a)) -> keeps f (bind m k).
Proof.
  intros Hm Hk s. unfold exec, bind. specialize (Hm s). unfold exec in Hm.
  destruct (m s) as [a s1]. cbn [snd] in *. rewrite <- Hm. apply Hk.
Qed.

Lemma keeps_gets {A B : Type} (f : State W -> B) (g : State W -> A) : keeps f (gets g).
Proof. intros s. reflexivity. Qed.

Lemma keeps_forEach {A B : Type} (f : State W -> B) (l : list A) (body : A -> M W unit) :
  (forall x, keeps f (body x)) -> keeps f (forEach l body).
Proof.
  intros Hbody. induction l as [|x l IH]; cbn [forEach].
  - apply keeps_ret.
  - apply keeps_bind; [apply Hbody|intros _; exact IH].
Qed.

Lemma exec_bind {A B : Type} (m : M W A) (k : A -> M W B) (s : State W) :
  exec (bind m k) s = exec (k (eval m s)) (exec m s).
Proof. unfold exec, eval, bind. by destruct (m s). Qed.

(** A step that is no sequence, branch or loop keeps the observation by
    cases on the answers of the collaborators. *)
Ltac keeps_atom :=
  let s := fresh "s" in
  intros s; unfold exec; proc_cases; recorded_norm; reflexivity.

Ltac keeps_step :=
  cbv zeta;
  lazymatch goal with
  | |- keeps _ (bind _ _) => apply keeps_bind; [|intros ?]
  | |- keeps _ (ret _) => apply keeps_ret
  | |- keeps _ (gets _) => apply keeps_gets
  | |- keeps _ (forEach _ _) => apply keeps_forEach; intros ?
  | |- keeps _ (if ?c then _ else _) => destruct c
  | |- keeps _ (match ?c with Some _ => _ | None => _ end) => destruct c
  | |- keeps _ _ => keeps_atom
  end.

(** ** deleteCollection *)

(** X1: deleting a collection that the bookkeeping database does not know
    succeeds at once: the result is Succeeded, the one call made is the lookup
    of the row, and no job is started. *)
Theorem delete_collection_of_missing_collection (s : State W) (pid : pid_t) (rid : quint64)
    (cn : QString) (uim : UserInteractionMode) :
  let looked := bkdb (Bkdb.collectionMetadata cn) (world s) in
  invalidName cn = false ->
  code (Bkdb.result looked.1) = Succeeded ->
  Bkdb.flag looked.1 = false ->
  deleteCollection pid rid cn uim s =
    (ResultOf Succeeded, answered [EvBkdb (Bkdb.collectionMetadata cn) looked.1] looked.2 s).
Proof.
  intros looked Hname Hok Hmissing. subst looked.
  apply invalidName_false in Hname as [Hempty Hreserved].
  apply isSucceeded_true in Hok.
  unfold deleteCollection, answered. proc_red. rewrite Hreserved, Hempty.
  destruct (bkdb (Bkdb.collectionMetadata cn) (world s)) as [mr w1].
  cbn [fst snd] in *. rewrite Hok, Hmissing. reflexivity.
Qed.

(** X2: a collection whose row is owner only and owned by another
    application is not deleted: the request fails with [PermissionsError]
    right after the lookup of the row, whatever plugins the row names. *)
Theorem delete_collection_owner_only (s : State W) (pid : pid_t) (rid : quint64)
    (cn : QString) (uim : UserInteractionMode) :
  let looked := bkdb (Bkdb.collectionMetadata cn) (world s) in
  let c := Bkdb.metadata looked.1 in
  let out := deleteCollection pid rid cn uim s in
  invalidName cn = false ->
  code (Bkdb.result looked.1) = Succeeded ->
  Bkdb.flag looked.1 = true ->
  md_accessControlMode c = OwnerOnlyMode ->
  md_applicationId c <> callerApplicationId pid ->
  code out.1 = Failed
  /\ errorCode out.1 = PermissionsError
  /\ out.2 = answered [EvBkdb (Bkdb.collectionMetadata cn) looked.1] looked.2 s.
Proof.
  intros looked c out Hname Hok Hfound Hmode Hother. subst looked c out.
  apply invalidName_false in Hname as [Hempty Hreserved].
  apply isSucceeded_true in Hok. apply qeq_false in Hother.
  unfold deleteCollection, answered. proc_red. rewrite Hreserved, Hempty.
  destruct (bkdb (Bkdb.collectionMetadata cn) (world s)) as [mr w1].
  cbn [fst snd] in *. rewrite Hok, Hfound, Hmode, Hother.
  unfold same. rewrite bool_decide_eq_false_2 by discriminate.
  rewrite bool_decide_eq_true_2 by reflexivity. cbn [negb andb fst snd].
  repeat split.
Qed.

(** X3: when [deleteCollection] hands a job to a worker it answers Pending,
    the job removes the collection through the plugin of the row (the
    encrypted storage plugin when storage and encryption coincide), the
    collection has joined the busy collections, and the caller passed the
    access control of the row. *)
Theorem delete_collection_marks_busy (s : State W) (pid : pid_t) (rid : quint64)
    (cn : QString) (uim : UserInteractionMode) :
  let looked := bkdb (Bkdb.collectionMetadata cn) (world s) in
  let c := Bkdb.metadata looked.1 in
  let job :=
    if qeq (md_storagePluginName c) (md_encryptionPluginName c)
    then Job.EncryptedStorage_removeCollection (md_storagePluginName c) cn
    else Job.Storage_removeCollection (md_storagePluginName c) cn in
  let started := deleteCollection pid rid cn uim s in
  watchers started.2 <> watchers s ->
  started.1 = ResultOf Pending
  /\ watchers started.2 =
     (watchers s ++ [mkWatcher job (K_deleteCollection pid rid cn (md_accessControlMode c))])%list
  /\ trace started.2 =
     (trace s ++ [EvBkdb (Bkdb.collectionMetadata cn) looked.1; EvRun job])%list
  /\ m_busyCollections started.2 = {[cn]} ∪ m_busyCollections s
  /\ md_accessControlMode c <> SystemAccessControlMode
  /\ (md_accessControlMode c = OwnerOnlyMode -> md_applicationId c = callerApplicationId pid).
Proof.
  intros looked c job started. subst looked c job started.
  unfold deleteCollection. intros Hw. revert Hw.
  proc_cases; intros Hw; try (exfalso; apply Hw; reflexivity).
  all: proc_same; trace_norm.
  all: repeat split.
  all: try congruence.
  all: try (by apply (proj1 (same_false _ _))).
  all: intros Hmode; apply (proj2 (same_true _ _)) in Hmode.
  all: match goal with
       | E : same _ OwnerOnlyMode && _ = false |- _ =>
           rewrite Hmode in E; cbn [andb] in E; apply negb_false_iff in E;
           apply (proj1 (qeq_true _ _)) in E; exact E
       end.
Qed.

(** X4: when the plugin has finished removing a collection, the collection
    leaves the busy collections.  After a failure of the plugin the request is
    finished with that failure and nothing else changes; otherwise the cached
    key and the relock timer of the collection are dropped and the row is
    deleted, the request being finished with the failure of the deletion if
    there is one. *)
Theorem delete_collection_finished_forgets (s : State W) (pid : pid_t) (rid : quint64)
    (cn : QString) (acm : AccessControlMode) (pluginResult : Result) :
  let deleted := bkdb (Bkdb.deleteCollection cn) (world s) in
  let done := exec (deleteCollection_finished pid rid cn acm pluginResult) s in
  m_busyCollections done = m_busyCollections s ∖ {[cn]}
  /\ (code pluginResult = Failed ->
      trace done = (trace s ++ [EvRequestFinished rid [OutResult pluginResult]])%list
      /\ world done = world s
      /\ m_collectionEncryptionKeys done = m_collectionEncryptionKeys s
      /\ m_collectionLockTimers done = m_collectionLockTimers s)
  /\ (code pluginResult <> Failed ->
      m_collectionEncryptionKeys done = delete cn (m_collectionEncryptionKeys s)
      /\ m_collectionLockTimers done = delete cn (m_collectionLockTimers s)
      /\ world done = deleted.2
      /\ trace done =
         (trace s ++
          [EvBkdb (Bkdb.deleteCollection cn) deleted.1;
           EvRequestFinished rid
             [OutResult (if isSucceeded (Bkdb.result deleted.1) then ResultOf Succeeded
                         else Bkdb.result deleted.1)]])%list).
Proof.
  intros deleted done. subst deleted done.
  unfold deleteCollection_finished, deleteCollectionFinalise.
  destruct (isFailed pluginResult) eqn:Ef.
  - proc_red. split; [reflexivity|]. split; [intros _; repeat split|].
    intros Hn. apply isFailed_true in Ef. contradiction.
  - split; [proc_cases; reflexivity|]. split.
    + intros Hf. apply isFailed_true in Hf. congruence.
    + intros _. proc_cases; trace_norm; repeat split.
Qed.

(** ** createDeviceLockCollection *)

(** X5: while a collection is busy, [createDeviceLockCollection] changes
    nothing but the record of having asked whether the row exists; when its
    arguments pass every check before the guard it answers
    [InterleavedRequestError]. *)
Theorem create_device_lock_collection_respects_guard (s : State W) (pid : pid_t)
    (rid : quint64) (cn sp ep : QString) (us : UnlockSemantic) (acm : AccessControlMode) :
  let asked := bkdb (Bkdb.collectionAlreadyExists cn) (world s) in
  let looked := answered [EvBkdb (Bkdb.collectionAlreadyExists cn) asked.1] asked.2 s in
  let out := createDeviceLockCollection pid rid cn sp ep us acm s in
  cn ∈ m_busyCollections s ->
  (out.2 = s \/ out.2 = looked)
  /\ (reservedName cn = false ->
      pluginsRegistered s sp ep = true ->
      code (Bkdb.result asked.1) = Succeeded ->
      Bkdb.flag asked.1 = false ->
      out = (interleavedRequestError, looked)).
Proof.
  intros asked looked out Hbusy. subst asked looked out.
  apply (bool_decide_eq_true_2 _) in Hbusy.
  unfold createDeviceLockCollection, answered, reservedName. split.
  - proc_red.
    repeat match goal with
           | |- context [if ?c then _ else _] =>
               lazymatch c with
               | context [bkdb] => fail
               | _ => destruct c; cbn [fst snd]; [by left|]
               end
           end.
    destruct (bkdb (Bkdb.collectionAlreadyExists cn) (world s)) as [er w1]. cbn [fst snd].
    destruct (isSucceeded (Bkdb.result er)); cbn [negb fst snd]; [|by right].
    destruct (Bkdb.flag er); cbn [fst snd]; [by right|].
    proc_red. rewrite Hbusy. by right.
  - intros Hres Hreg Hok Hfresh. apply isSucceeded_true in Hok.
    destruct (pluginsRegistered_checks _ _ _ Hreg) as (C1 & C2 & C3).
    proc_red. rewrite Hres, C1, C2, C3.
    destruct (bkdb (Bkdb.collectionAlreadyExists cn) (world s)) as [er w1].
    cbn [fst snd] in *. rewrite Hok, Hfresh. proc_red. rewrite Hbusy. reflexivity.
Qed.

(** X6: when the plugin has finished creating a device-lock collection, the
    collection leaves the busy collections; on success the request is finished
    with the result of the plugin without a call of the bookkeeping database,
    and the device-lock key is cached for split plugins only; on failure no
    key is cached. *)
Theorem create_device_lock_collection_finished_releases_guard (s : State W) (rid : quint64)
    (cn sp ep : QString) (acm : AccessControlMode) (pluginResult : Result) :
  let done := exec (createDeviceLockCollection_finished rid cn sp ep acm pluginResult) s in
  m_busyCollections done = m_busyCollections s ∖ {[cn]}
  /\ (code pluginResult = Succeeded ->
      world done = world s
      /\ trace done = (trace s ++ [EvRequestFinished rid [OutResult pluginResult]])%list
      /\ m_collectionEncryptionKeys done =
         (if qeq sp ep then m_collectionEncryptionKeys s
          else <[cn := deviceLockKey (keyMaterial s)]> (m_collectionEncryptionKeys s)))
  /\ (code pluginResult <> Succeeded ->
      m_collectionEncryptionKeys done = m_collectionEncryptionKeys s).
Proof.
  intros done. subst done. unfold createDeviceLockCollection_finished.
  destruct (isSucceeded pluginResult) eqn:Ok.
  - split; [proc_cases; reflexivity|]. split.
    + intros _. proc_cases; repeat split.
    + intros Hn. apply isSucceeded_true in Ok. contradiction.
  - split; [proc_cases; reflexivity|]. split.
    + intros Hy. apply isSucceeded_true in Hy. congruence.
    + intros _. proc_cases; reflexivity.
Qed.

(** X7: when the row of a new device-lock collection cannot be inserted,
    [createDeviceLockCollection] returns the failure of the insertion and
    starts no job, and the collection stays among the busy collections. *)
Theorem create_device_lock_collection_insert_failure (s : State W) (pid : pid_t)
    (rid : quint64) (cn sp ep : QString) (us : UnlockSemantic) (acm : AccessControlMode) :
  let asked := bkdb (Bkdb.collectionAlreadyExists cn) (world s) in
  let row :=
    {| md_applicationId := callerApplicationId pid; md_usesDeviceLockKey := true;
       md_storagePluginName := sp; md_encryptionPluginName := ep;
       md_authenticationPluginName := defaultAuthenticationPlugin (m_autotestMode s);
       md_unlockSemantic := us; md_customLockTimeoutMs := 0;
       md_accessControlMode := acm |} in
  let inserted := bkdb (Bkdb.insertCollection cn row) asked.2 in
  let out := createDeviceLockCollection pid rid cn sp ep us acm s in
  reservedName cn = false ->
  pluginsRegistered s sp ep = true ->
  code (Bkdb.result asked.1) = Succeeded ->
  Bkdb.flag asked.1 = false ->
  cn ∉ m_busyCollections s ->
  code (Bkdb.result inserted.1) <> Succeeded ->
  out.1 = Bkdb.result inserted.1
  /\ watchers out.2 = watchers s
  /\ m_busyCollections out.2 = {[cn]} ∪ m_busyCollections s
  /\ trace out.2 =
     (trace s ++
      [EvBkdb (Bkdb.collectionAlreadyExists cn) asked.1;
       EvBkdb (Bkdb.insertCollection cn row) inserted.1])%list.
Proof.
  intros asked row inserted out Hres Hreg Hok Hfresh Hfree Hfail.
  subst asked row inserted out.
  apply isSucceeded_true in Hok. apply isSucceeded_false in Hfail.
  apply (bool_decide_eq_false_2 _) in Hfree.
  destruct (pluginsRegistered_checks _ _ _ Hreg) as (C1 & C2 & C3).
  unfold createDeviceLockCollection, reservedName in *.
  proc_red. rewrite Hres, C1, C2, C3.
  destruct (bkdb (Bkdb.collectionAlreadyExists cn) (world s)) as [er w1].
  cbn [fst snd] in *. rewrite Hok, Hfresh. proc_red. rewrite Hfree. proc_red.
  destruct (bkdb (Bkdb.insertCollection cn _) w1) as [ir w2].
  cbn [fst snd] in *. rewrite Hfail. proc_red. trace_norm. repeat split.
Qed.

(** ** setCollectionSecretMetadata *)

(** X8: [setCollectionSecretMetadata] changes rows in one way only: it
    inserts the row of the secret, after the lookup of the collection, the
    question whether the collection is locked and the question whether the
    secret exists.  That happens only for a collection that is not busy, is
    known, is kept by a registered encrypted storage plugin, is not locked and
    does not hold the secret, and for a caller who passes an owner-only
    mode. *)
Theorem set_collection_secret_metadata_insertion (s : State W) (pid : pid_t) (rid : quint64)
    (id : Identifier) :
  let cn := collectionName id in
  let h := generateHashedSecretName cn (name id) in
  let looked := bkdb (Bkdb.collectionMetadata cn) (world s) in
  let c := Bkdb.metadata looked.1 in
  let locked := plugin (Plugin.isCollectionLocked (md_storagePluginName c) cn) looked.2 in
  let asked := bkdb (Bkdb.secretAlreadyExists cn h) locked.2 in
  let inserted := bkdb (Bkdb.insertSecret cn h c) asked.2 in
  let out := setCollectionSecretMetadata pid rid id s in
  recorded isMutation out.2 <> recorded isMutation s ->
  out =
    (Bkdb.result inserted.1,
     answered
       [EvBkdb (Bkdb.collectionMetadata cn) looked.1;
        EvPlugin (Plugin.isCollectionLocked (md_storagePluginName c) cn) locked.1;
        EvBkdb (Bkdb.secretAlreadyExists cn h) asked.1;
        EvBkdb (Bkdb.insertSecret cn h c) inserted.1] inserted.2 s)
  /\ (cn ∉ m_busyCollections s)
  /\ Bkdb.flag looked.1 = true
  /\ md_storagePluginName c = md_encryptionPluginName c
  /\ md_storagePluginName c ∈ m_encryptedStoragePlugins s
  /\ (md_accessControlMode c = OwnerOnlyMode -> md_applicationId c = callerApplicationId pid)
  /\ Plugin.flag locked.1 = false
  /\ Bkdb.flag asked.1 = false.
Proof.
  intros cn h looked c locked asked inserted out.
  subst cn h looked c locked asked inserted out.
  unfold setCollectionSecretMetadata, answered. intros Hw. revert Hw.
  call_cases; intros Hw;
    try (exfalso; apply Hw; recorded_norm; reflexivity).
  all: trace_norm.
  split; [reflexivity|].
  repeat match goal with
         | E : negb (bool_decide (_ ∈ m_busyCollections _)) = true |- _ =>
             apply negb_true_iff, bool_decide_eq_false in E
         | E : qeq (md_storagePluginName _) (md_encryptionPluginName _) = true |- _ =>
             apply (proj1 (qeq_true _ _)) in E
         | E : contains _ _ = true |- _ => apply contains_true in E
         end.
  repeat split; try assumption.
  intros Hmode. apply (proj2 (same_true _ _)) in Hmode.
  match goal with
  | E : same _ OwnerOnlyMode && _ = false |- _ =>
      rewrite Hmode in E; cbn [andb] in E; apply negb_false_iff in E;
      by apply (proj1 (qeq_true _ _)) in E
  end.
Qed.

(** ** The relock timers *)

(** The timer that fired is found under its key when no other key holds it. *)
Lemma findTimer_unshared (m : gmap QString QTimer) (t : QTimer) (k : QString) :
  timersUnshared m -> m !! k = Some t -> findTimer m t = Some k.
Proof.
  intros Hun Hk. unfold findTimer, entries.
  destruct (List.find _ _) as [[k' v]|] eqn:E.
  - apply List.find_some in E as [Hin Hv]. cbn in Hv. apply bool_decide_eq_true in Hv.
    subst v. apply list_elem_of_In in Hin. rewrite merge_sort_Permutation in Hin.
    apply elem_of_map_to_list in Hin. cbn. f_equal. by apply (Hun k' k t).
  - exfalso. assert (Hin : In (k, t) (merge_sort keyLe (map_to_list m))).
    { apply list_elem_of_In. rewrite merge_sort_Permutation.
      by apply elem_of_map_to_list. }
    apply (List.find_none _ _ E) in Hin. cbn in Hin.
    by rewrite bool_decide_eq_true_2 in Hin.
Qed.

(** A timer that was only just started is held by no key yet. *)
Lemma fresh_timer_unshared (s : State W) (m : gmap QString QTimer) (cn : QString)
    (intervalMs : Z) :
  timersDistinct s -> timersStarted m s -> timersUnshared m ->
  timersUnshared (<[cn := mkQTimer (length (timers s)) intervalMs true]> m).
Proof.
  intros Hd Hs Hu j k t Hj Hk.
  destruct (decide (j = cn)) as [->|Hjn], (decide (k = cn)) as [->|Hkn]; [done|..].
  - rewrite lookup_insert_eq in Hj. rewrite lookup_insert_ne in Hk by done.
    injection Hj as <-. apply Hs in Hk. apply list_elem_of_lookup in Hk as [i Hi].
    pose proof (lookup_lt_Some _ _ _ Hi) as Hlt. apply Hd in Hi. cbn in Hi. lia.
  - rewrite lookup_insert_eq in Hk. rewrite lookup_insert_ne in Hj by done.
    injection Hk as <-. apply Hs in Hj. apply list_elem_of_lookup in Hj as [i Hi].
    pose proof (lookup_lt_Some _ _ _ Hi) as Hlt. apply Hd in Hi. cbn in Hi. lia.
  - rewrite lookup_insert_ne in Hj, Hk by done. by apply (Hu j k t).
Qed.

(** Starting a timer keeps the identities of the timers apart. *)
Lemma timersDistinct_start (l : list QTimer) (intervalMs : Z) :
  (forall i t, l !! i = Some t -> timerId t = i) ->
  forall i t, (l ++ [mkQTimer (length l) intervalMs true])%list !! i = Some t -> timerId t = i.
Proof.
  intros Hd i t Hi. apply lookup_app_Some in Hi as [Hi|[Hlen Hi]]; [by apply Hd|].
  apply list_lookup_singleton_Some in Hi as [Hi <-]. cbn. lia.
Qed.

(** X9: a secret of a collection kept by split plugins that relocks after a
    timeout is read with the key of the collection: a relock timer is armed
    under the name of the collection and the key is cached; when that timer
    fires, the key of the collection leaves the cache and the timer leaves
    the relock map. *)
Theorem collection_relock_timer_evicts_key (s : State W) (pid : pid_t) (rid : quint64)
    (id : Identifier) (uim : UserInteractionMode) (addr sp ep : QString) (timeoutMs : Z)
    (key : QByteArray) :
  let cn := collectionName id in
  let t := mkQTimer (length (timers s)) timeoutMs true in
  let read :=
    exec (getCollectionSecretWithEncryptionKey pid rid id uim addr sp ep
            CustomLockTimoutRelock timeoutMs key) s in
  let relocked := exec (timeoutRelockCollection t) read in
  sp <> ep ->
  m_collectionLockTimers s !! cn = None ->
  timersDistinct s ->
  timersStarted (m_collectionLockTimers s) s ->
  timersUnshared (m_collectionLockTimers s) ->
  m_collectionLockTimers read = <[cn := t]> (m_collectionLockTimers s)
  /\ is_Some (m_collectionEncryptionKeys read !! cn)
  /\ m_collectionEncryptionKeys relocked = delete cn (m_collectionEncryptionKeys read)
  /\ m_collectionLockTimers relocked = m_collectionLockTimers s.
Proof.
  intros cn t read relocked Hsplit Hnone Hd Hs Hu.
  apply (proj2 (qeq_false _ _)) in Hsplit.
  assert (Hread :
    m_collectionLockTimers read = <[cn := t]> (m_collectionLockTimers s)
    /\ is_Some (m_collectionEncryptionKeys read !! cn)).
  { subst read cn t. unfold getCollectionSecretWithEncryptionKey, same.
    rewrite bool_decide_eq_true_2 by reflexivity. rewrite Hsplit. proc_red.
    rewrite Hnone. proc_red.
    destruct (bool_decide (is_Some (m_collectionEncryptionKeys s !! collectionName id)))
      eqn:Ek; proc_red; (split; [reflexivity|]).
    - by apply bool_decide_eq_true in Ek.
    - rewrite lookup_insert_eq. eauto. }
  destruct Hread as [Htimers Hkey]. split; [exact Htimers|]. split; [exact Hkey|].
  assert (Hfound : findTimer (m_collectionLockTimers read) t = Some cn).
  { rewrite Htimers. apply findTimer_unshared.
    - subst t. by apply fresh_timer_unshared.
    - apply lookup_insert_eq. }
  subst relocked. unfold timeoutRelockCollection. proc_red. rewrite Hfound. proc_red.
  split; [reflexivity|]. rewrite Htimers. rewrite delete_insert_eq.
  by apply delete_id.
Qed.

(** X10: reading a secret of a collection starts a relock timer exactly when
    the collection relocks after a timeout and has no timer armed; a
    collection whose timer is armed keeps it.  The timers started keep their
    identities, and every timer of the relock map was started. *)
Theorem relock_timer_started_once (s : State W) (pid : pid_t) (rid : quint64)
    (id : Identifier) (uim : UserInteractionMode) (addr sp ep : QString)
    (us : UnlockSemantic) (timeoutMs : Z) (key : QByteArray) :
  let cn := collectionName id in
  let read :=
    exec (getCollectionSecretWithEncryptionKey pid rid id uim addr sp ep us timeoutMs key) s in
  (us <> CustomLockTimoutRelock \/ is_Some (m_collectionLockTimers s !! cn) ->
   timers read = timers s /\ m_collectionLockTimers read = m_collectionLockTimers s)
  /\ (us = CustomLockTimoutRelock -> m_collectionLockTimers s !! cn = None ->
      timers read = (timers s ++ [mkQTimer (length (timers s)) timeoutMs true])%list)
  /\ (timersDistinct s -> timersDistinct read)
  /\ (timersStarted (m_collectionLockTimers s) s ->
      timersStarted (m_collectionLockTimers read) read).
Proof.
  intros cn read. subst cn read.
  unfold getCollectionSecretWithEncryptionKey, timersDistinct, timersStarted.
  proc_cases.
  all: repeat split; try done.
  all: try (intros [Hus|[x Hx]];
            [by apply (proj2 (same_false _ _)) in Hus; congruence|congruence]).
  all: try (intros Hus; apply (proj2 (same_true _ _)) in Hus; congruence).
  all: try (intros ? ?; congruence).
  all: try (intros Hd; by apply timersDistinct_start).
  all: try match goal with
           | Hor : _ \/ is_Some _, Eus : same _ CustomLockTimoutRelock = true |- _ =>
               destruct Hor as [Hus|[x Hx]];
               [apply (proj1 (same_true _ _)) in Eus; contradiction|discriminate]
           end.
  all: intros Hs k t Hk; state_norm.
  all: try (apply elem_of_app; left; by apply (Hs k t)).
  all: destruct (decide (k = collectionName id)) as [->|Hne];
    [rewrite lookup_insert_eq in Hk; injection Hk as <-; set_solver
    |rewrite lookup_insert_ne in Hk by done; apply elem_of_app; left; by apply (Hs k t)].
Qed.

(** ** What the requests never do *)

(** X11: a request made with [PreventInteraction] never asks the user:
    reading, finding and deleting the secrets of a collection and creating a
    custom-lock collection begin no user interaction and park no request. *)
Theorem prevented_interaction_never_asks (pid : pid_t) (rid : quint64) (id : Identifier)
    (cn addr sp ep ap : QString) (filter : list (QString * QString)) (op : FilterOperator)
    (us : UnlockSemantic) (timeoutMs : Z) (acm : AccessControlMode) :
  keeps (W:=W) asked (getCollectionSecret pid rid id PreventInteraction addr)
  /\ keeps (W:=W) asked (findCollectionSecrets pid rid cn filter op PreventInteraction addr)
  /\ keeps (W:=W) asked (deleteCollectionSecret pid rid id PreventInteraction addr)
  /\ keeps (W:=W) asked
       (createCustomLockCollection pid rid cn sp ep ap us timeoutMs acm PreventInteraction
          addr).
Proof.
  unfold asked. repeat split.
  - unfold getCollectionSecret, getCollectionSecretUnlockFlow,
      getCollectionSecretWithEncryptionKey.
    rewrite !same_refl. repeat keeps_step.
  - unfold findCollectionSecrets, findCollectionSecretsUnlockFlow,
      findCollectionSecretsWithEncryptionKey.
    rewrite !same_refl. repeat keeps_step.
  - unfold deleteCollectionSecret, deleteCollectionSecretUnlockFlow,
      deleteCollectionSecretWithEncryptionKey.
    rewrite !same_refl. repeat keeps_step.
  - unfold createCustomLockCollection.
    rewrite !same_refl. repeat keeps_step.
Qed.

(** X12: reading never changes the rows of the bookkeeping database:
    [getCollectionSecret], [getStandaloneSecret] and [findCollectionSecrets],
    and what they do when the plugin has finished, make no call that inserts,
    updates or deletes a row. *)
Theorem reading_never_changes_rows (pid : pid_t) (rid : quint64) (id : Identifier)
    (cn addr : QString) (filter : list (QString * QString)) (op : FilterOperator)
    (uim : UserInteractionMode) (r : Result) (secret : Secret) (ids : list Identifier)
    (n : QString) (d : QByteArray) (f : list (QString * QString)) :
  keeps (W:=W) (recorded isMutation) (getCollectionSecret pid rid id uim addr)
  /\ keeps (W:=W) (recorded isMutation) (getStandaloneSecret pid rid id uim addr)
  /\ keeps (W:=W) (recorded isMutation) (findCollectionSecrets pid rid cn filter op uim addr)
  /\ keeps (W:=W) (recorded isMutation) (getCollectionSecretWithEncryptionKey_finished rid r secret)
  /\ keeps (W:=W) (recorded isMutation) (getStandaloneSecretEncryptedStorage_finished rid cn r n d f)
  /\ keeps (W:=W) (recorded isMutation) (getStandaloneSecretStorage_finished rid r secret)
  /\ keeps (W:=W) (recorded isMutation) (findCollectionSecretsWithEncryptionKey_finished rid r ids).
Proof.
  repeat split.
  - unfold getCollectionSecret, getCollectionSecretUnlockFlow,
      getCollectionSecretWithEncryptionKey, beginInteractionAndSuspend.
    repeat keeps_step.
  - unfold getStandaloneSecret, getStandaloneSecretWithEncryptionKey,
      beginInteractionAndSuspend.
    repeat keeps_step.
  - unfold findCollectionSecrets, findCollectionSecretsUnlockFlow,
      findCollectionSecretsWithEncryptionKey, beginInteractionAndSuspend.
    repeat keeps_step.
  - unfold getCollectionSecretWithEncryptionKey_finished. keeps_atom.
  - unfold getStandaloneSecretEncryptedStorage_finished. keeps_atom.
  - unfold getStandaloneSecretStorage_finished. keeps_atom.
  - unfold findCollectionSecretsWithEncryptionKey_finished. keeps_atom.
Qed.

(** X13: the requests that create, write, find and delete start no job that
    reads the data of a secret. *)
Theorem only_reading_starts_secret_reads (pid : pid_t) (rid : quint64) (id : Identifier)
    (secret : Secret) (cn sp ep ap addr : QString) (filter : list (QString * QString))
    (op : FilterOperator) (ui : InteractionParameters) (us : UnlockSemantic) (timeoutMs : Z)
    (acm : AccessControlMode) (uim : UserInteractionMode) :
  keeps (W:=W) (recorded isSecretRead) (createDeviceLockCollection pid rid cn sp ep us acm)
  /\ keeps (W:=W) (recorded isSecretRead)
       (createCustomLockCollection pid rid cn sp ep ap us timeoutMs acm uim addr)
  /\ keeps (W:=W) (recorded isSecretRead) (deleteCollection pid rid cn uim)
  /\ keeps (W:=W) (recorded isSecretRead) (setCollectionSecret pid rid secret ui uim addr)
  /\ keeps (W:=W) (recorded isSecretRead)
       (setStandaloneDeviceLockSecret pid rid sp ep secret ui us acm uim addr)
  /\ keeps (W:=W) (recorded isSecretRead)
       (setStandaloneCustomLockSecret pid rid sp ep ap secret ui us timeoutMs acm uim addr)
  /\ keeps (W:=W) (recorded isSecretRead) (findCollectionSecrets pid rid cn filter op uim addr)
  /\ keeps (W:=W) (recorded isSecretRead) (deleteCollectionSecret pid rid id uim addr)
  /\ keeps (W:=W) (recorded isSecretRead) (deleteStandaloneSecret pid rid id uim)
  /\ keeps (W:=W) (recorded isSecretRead) (setCollectionSecretMetadata pid rid id)
  /\ keeps (W:=W) (recorded isSecretRead) (deleteCollectionSecretMetadata pid rid id).
Proof.
  repeat split.
  - unfold createDeviceLockCollection. repeat keeps_step.
  - unfold createCustomLockCollection, beginInteractionAndSuspend. repeat keeps_step.
  - unfold deleteCollection. repeat keeps_step.
  - unfold setCollectionSecret, setCollectionSecretGetAuthenticationCode,
      setCollectionSecretUnlockFlow, setCollectionSecretWithEncryptionKey,
      beginInteractionAndSuspend.
    repeat keeps_step.
  - unfold setStandaloneDeviceLockSecret, writeStandaloneDeviceLockSecret,
      beginInteractionAndSuspend.
    repeat keeps_step.
  - unfold setStandaloneCustomLockSecret, setStandaloneCustomLockSecretGetAuthenticationCode,
      beginInteractionAndSuspend.
    repeat keeps_step.
  - unfold findCollectionSecrets, findCollectionSecretsUnlockFlow,
      findCollectionSecretsWithEncryptionKey, beginInteractionAndSuspend.
    repeat keeps_step.
  - unfold deleteCollectionSecret, deleteCollectionSecretUnlockFlow,
      deleteCollectionSecretWithEncryptionKey, beginInteractionAndSuspend.
    repeat keeps_step.
  - unfold deleteStandaloneSecret. repeat keeps_step.
  - unfold setCollectionSecretMetadata. repeat keeps_step.
  - unfold deleteCollectionSecretMetadata. repeat keeps_step.
Qed.

(** ** The keys of the collections and of the standalone secrets *)

(** X14: reading a secret of a collection with a key.  An encrypted storage
    plugin is handed the given key and the cache is left alone.  With split
    plugins a key that is cached for the collection is used instead of the
    given one; the given key is cached, and used, only when none was. *)
Theorem cached_collection_key_wins (s : State W) (pid : pid_t) (rid : quint64)
    (id : Identifier) (uim : UserInteractionMode) (addr sp ep : QString)
    (us : UnlockSemantic) (timeoutMs : Z) (key : QByteArray) :
  let cn := collectionName id in
  let h := generateHashedSecretName cn (name id) in
  let cached := m_collectionEncryptionKeys s !! cn in
  let read :=
    exec (getCollectionSecretWithEncryptionKey pid rid id uim addr sp ep us timeoutMs key) s in
  (sp = ep ->
   m_collectionEncryptionKeys read = m_collectionEncryptionKeys s
   /\ watchers read =
      (watchers s ++
       [mkWatcher (Job.EncryptedStorage_unlockCollectionAndReadSecret sp id h key)
          (K_getCollectionSecretWithEncryptionKey rid)])%list)
  /\ (sp <> ep ->
      m_collectionEncryptionKeys read =
        match cached with
        | Some _ => m_collectionEncryptionKeys s
        | None => <[cn := key]> (m_collectionEncryptionKeys s)
        end
      /\ watchers read =
         (watchers s ++
          [mkWatcher (Job.Storage_getAndDecryptSecret ep sp id h (default key cached))
             (K_getCollectionSecretWithEncryptionKey rid)])%list).
Proof.
  intros cn h cached read. subst cn h cached read.
  unfold getCollectionSecretWithEncryptionKey. split.
  - intros Heq. apply (proj2 (qeq_true _ _)) in Heq. rewrite Heq.
    proc_cases; split; reflexivity.
  - intros Hne. apply (proj2 (qeq_false _ _)) in Hne. rewrite Hne.
    destruct (m_collectionEncryptionKeys s !! collectionName id) as [k|] eqn:Ek.
    + proc_cases; rewrite ?Ek; try (split; reflexivity).
      all: exfalso; match goal with
                    | E : bool_decide (is_Some _) = false |- _ =>
                        apply bool_decide_eq_false in E; apply E; rewrite Ek; eauto
                    end.
    + proc_cases; rewrite ?Ek, ?lookup_insert_eq; try (split; reflexivity).
      all: exfalso; match goal with
                    | E : bool_decide (is_Some _) = true |- _ =>
                        apply bool_decide_eq_true in E; rewrite Ek in E;
                        by destruct E
                    end.
Qed.

(** X15: writing a standalone device-lock secret.  The row is written before
    the plugin is started: updated when the secret was found, else inserted,
    and a failure of that is the answer.  When the plugin has failed, the row
    is removed only if this request inserted it; otherwise the request is
    finished with the result of the plugin, and with split plugins the
    device-lock key is cached under the hashed name. *)
Theorem write_standalone_device_lock_secret_row_first (s later : State W) (pid : pid_t)
    (rid : quint64) (app sp ep cn h : QString) (secret : Secret) (found : bool)
    (us : UnlockSemantic) (acm : AccessControlMode) (pluginResult : Result) :
  let row :=
    {| md_applicationId := app; md_usesDeviceLockKey := true;
       md_storagePluginName := sp; md_encryptionPluginName := ep;
       md_authenticationPluginName := defaultAuthenticationPlugin (m_autotestMode s);
       md_unlockSemantic := us; md_customLockTimeoutMs := 0;
       md_accessControlMode := acm |} in
  let call := if found then Bkdb.updateSecret cn h row else Bkdb.insertSecret cn h row in
  let written := bkdb call (world s) in
  let job :=
    if qeq sp ep
    then Job.EncryptedStorage_setSecret sp cn h secret (deviceLockKey (keyMaterial s))
    else Job.Storage_encryptAndStoreSecret ep sp (setCollectionName secret cn) h
           (deviceLockKey (keyMaterial s)) in
  let started := writeStandaloneDeviceLockSecret pid rid app sp ep secret cn h found us acm s in
  let cleaned := bkdb (Bkdb.cleanupDeleteSecret cn h pluginResult) (world later) in
  let done :=
    exec (writeStandaloneDeviceLockSecretFinalise pid rid sp ep cn h found pluginResult)
      later in
  (code (Bkdb.result written.1) <> Succeeded ->
   started = (Bkdb.result written.1, answered [EvBkdb call written.1] written.2 s))
  /\ (code (Bkdb.result written.1) = Succeeded ->
      started.1 = ResultOf Pending
      /\ trace started.2 = (trace s ++ [EvBkdb call written.1; EvRun job])%list
      /\ watchers started.2 =
         (watchers s ++
          [mkWatcher job (K_writeStandaloneDeviceLockSecret pid rid sp ep cn h found)])%list)
  /\ (code pluginResult = Failed -> found = false ->
      done =
        answered
          [EvBkdb (Bkdb.cleanupDeleteSecret cn h pluginResult) cleaned.1;
           EvRequestFinished rid
             [OutResult (if isSucceeded (Bkdb.result cleaned.1) then pluginResult
                         else Bkdb.result cleaned.1)]] cleaned.2 later)
  /\ (code pluginResult = Failed -> found = true ->
      done = answered [EvRequestFinished rid [OutResult pluginResult]] (world later) later)
  /\ (code pluginResult <> Failed ->
      trace done = (trace later ++ [EvRequestFinished rid [OutResult pluginResult]])%list
      /\ world done = world later
      /\ m_standaloneSecretEncryptionKeys done =
         (if qeq sp ep then m_standaloneSecretEncryptionKeys later
          else <[h := deviceLockKey (keyMaterial later)]>
                 (m_standaloneSecretEncryptionKeys later))).
Proof.
  intros row call written job started cleaned done.
  subst row call written job started cleaned done.
  unfold writeStandaloneDeviceLockSecret, writeStandaloneDeviceLockSecretFinalise, answered.
  repeat split.
  - intros Hfail. apply isSucceeded_false in Hfail. proc_red.
    destruct (bkdb _ (world s)) as [wr w1]. cbn [fst snd] in *. rewrite Hfail. reflexivity.
  - match goal with Hs : code _ = Succeeded |- _ => rename Hs into Hok end.
    apply isSucceeded_true in Hok. proc_red.
    destruct (bkdb _ (world s)) as [wr w1]. cbn [fst snd] in *. rewrite Hok. reflexivity.
  - match goal with Hs : code _ = Succeeded |- _ => rename Hs into Hok end.
    apply isSucceeded_true in Hok. proc_red.
    destruct (bkdb _ (world s)) as [wr w1]. cbn [fst snd] in *. rewrite Hok.
    proc_red. trace_norm. reflexivity.
  - match goal with Hs : code _ = Succeeded |- _ => rename Hs into Hok end.
    apply isSucceeded_true in Hok. proc_red.
    destruct (bkdb _ (world s)) as [wr w1]. cbn [fst snd] in *. rewrite Hok.
    proc_red. destruct (qeq sp ep); reflexivity.
  - intros Hfailed ->. apply isFailed_true in Hfailed. rewrite Hfailed. proc_red.
    destruct (bkdb _ (world later)) as [cr w1]. cbn [fst snd].
    destruct (isSucceeded (Bkdb.result cr)); proc_red; trace_norm; reflexivity.
  - intros Hfailed ->. apply isFailed_true in Hfailed. rewrite Hfailed. proc_red.
    by destruct later.
  - destruct (isFailed pluginResult) eqn:Ef; [by apply isFailed_true in Ef|].
    destruct (qeq sp ep); proc_red; reflexivity.
  - destruct (isFailed pluginResult) eqn:Ef; [by apply isFailed_true in Ef|].
    destruct (qeq sp ep); proc_red; reflexivity.
  - destruct (isFailed pluginResult) eqn:Ef; [by apply isFailed_true in Ef|].
    destruct (qeq sp ep); proc_red; reflexivity.
Qed.

(** X16: the row of a secret of a collection is deleted only after the
    plugin has removed the secret: a failure of the plugin finishes the request
    and leaves the row; after a success the row is deleted, and a failure of
    the deletion is what the request is finished with. *)
Theorem delete_collection_secret_row_after_plugin (s : State W) (rid : quint64)
    (id : Identifier) (h : QString) (acm : AccessControlMode) (pluginResult : Result) :
  let deleted := bkdb (Bkdb.deleteSecret (collectionName id) h) (world s) in
  let done :=
    exec (deleteCollectionSecretWithEncryptionKey_finished rid id h acm pluginResult) s in
  (code pluginResult <> Succeeded ->
   done = answered [EvRequestFinished rid [OutResult pluginResult]] (world s) s)
  /\ (code pluginResult = Succeeded ->
      done =
        answered
          [EvBkdb (Bkdb.deleteSecret (collectionName id) h) deleted.1;
           EvRequestFinished rid
             [OutResult (if isSucceeded (Bkdb.result deleted.1) then pluginResult
                         else Bkdb.result deleted.1)]] deleted.2 s).
Proof.
  intros deleted done. subst deleted done.
  unfold deleteCollectionSecretWithEncryptionKey_finished, answered. split.
  - intros Hfail. apply isSucceeded_false in Hfail. rewrite Hfail. proc_red. by destruct s.
  - intros Hok. apply isSucceeded_true in Hok. rewrite Hok. proc_red.
    destruct (bkdb _ (world s)) as [dr w1]. cbn [fst snd].
    destruct (isSucceeded (Bkdb.result dr)); proc_red; trace_norm; reflexivity.
Qed.

(** X17: deleting a secret of a collection with a key.  For a device-lock
    collection a key other than the device-lock key finishes the request with
    [IncorrectAuthenticationCodeError] and starts no job.  For a custom-lock
    collection of split plugins with no key cached, the given key is cached
    as it is and the storage plugin is asked to remove the secret. *)
Theorem delete_collection_secret_checks_device_lock_key (s : State W) (pid : pid_t)
    (rid : quint64) (id : Identifier) (uim : UserInteractionMode) (addr : QString)
    (key : QByteArray) :
  let cn := collectionName id in
  let h := generateHashedSecretName cn (name id) in
  let looked := bkdb (Bkdb.collectionMetadata cn) (world s) in
  let c := Bkdb.metadata looked.1 in
  let read := answered [EvBkdb (Bkdb.collectionMetadata cn) looked.1] looked.2 s in
  let done := exec (deleteCollectionSecretWithEncryptionKey pid rid id uim addr key) s in
  code (Bkdb.result looked.1) = Succeeded ->
  Bkdb.flag looked.1 = true ->
  (md_usesDeviceLockKey c = true -> key <> deviceLockKey (keyMaterial s) ->
   done =
     answered
       [EvRequestFinished rid
          [OutResult (ResultError IncorrectAuthenticationCodeError
                        "Incorrect device lock key provided")]] looked.2 read)
  /\ (md_usesDeviceLockKey c = false ->
      md_accessControlMode c <> SystemAccessControlMode ->
      (md_accessControlMode c = OwnerOnlyMode ->
       md_applicationId c = callerApplicationId pid) ->
      md_storagePluginName c <> md_encryptionPluginName c ->
      m_collectionEncryptionKeys s !! cn = None ->
      m_collectionEncryptionKeys done = <[cn := key]> (m_collectionEncryptionKeys s)
      /\ watchers done =
         (watchers s ++
          [mkWatcher (Job.Storage_removeSecret (md_storagePluginName c) cn h)
             (K_deleteCollectionSecretWithEncryptionKey rid id h
                (md_accessControlMode c))])%list).
Proof.
  intros cn h looked c read done Hok Hfound. subst cn h looked c read done.
  apply isSucceeded_true in Hok.
  unfold deleteCollectionSecretWithEncryptionKey, answered. split.
  - intros Hdevice Hkey. apply (bool_decide_eq_false_2 _) in Hkey. proc_red.
    destruct (bkdb _ (world s)) as [mr w1]. cbn [fst snd] in *.
    proc_red. rewrite Hok, Hfound, Hdevice. cbn [negb andb]. rewrite Hok. cbn [andb].
    unfold beq. rewrite Hkey. cbn [negb andb].
    assert (Hwrong :
      isSucceeded (ResultError IncorrectAuthenticationCodeError
                     "Incorrect device lock key provided") = false) by reflexivity.
    rewrite Hwrong. cbn [andb negb]. rewrite Hwrong.
    proc_red. trace_norm. reflexivity.
  - intros Hcustom Hmode Howner Hsplit Hnone. apply (proj2 (qeq_false _ _)) in Hsplit.
    apply (proj2 (same_false _ _)) in Hmode. proc_red.
    destruct (bkdb _ (world s)) as [mr w1]. cbn [fst snd] in *.
    assert (Hfresh :
      bool_decide (is_Some (m_collectionEncryptionKeys s !! collectionName id)) = false).
    { rewrite Hnone. apply bool_decide_eq_false_2. intros [x Hx]. discriminate. }
    assert (Hgate :
      same (md_accessControlMode (Bkdb.metadata mr)) OwnerOnlyMode
      && negb (qeq (md_applicationId (Bkdb.metadata mr)) (callerApplicationId pid))
      = false).
    { destruct (same _ OwnerOnlyMode) eqn:Es; [|reflexivity].
      apply (proj1 (same_true _ _)) in Es. apply Howner in Es.
      apply (proj2 (qeq_true _ _)) in Es. by rewrite Es. }
    repeat (proc_red;
            progress (rewrite ?Hok, ?Hfound, ?Hcustom, ?Hmode, ?Hsplit, ?Hfresh;
                      cbn [andb negb]; rewrite ?Hgate)).
    split; reflexivity.
Qed.

(** ** The lock code *)

(** X18: the lock code provided for the bookkeeping database becomes the
    key material, the database is unlocked with the new key and the result of
    that is the answer; the plugins are unlocked with the new device-lock key
    only when the database was. *)
Theorem provide_lock_code_database (s : State W) (pid : pid_t) (rid : quint64)
    (target : LockCodeTargetType) (targetName : QString) (ip : InteractionParameters)
    (uim : UserInteractionMode) (addr : QString) (lockCode bk dk : QByteArray) :
  let rekeyed :=
    set_keyMaterial
      {| bkdbLockKey := bk; deviceLockKey := dk; noLockCode := noLockCode (keyMaterial s) |}
      s in
  let unlocked := bkdb (Bkdb.unlock bk) (world s) in
  let call :=
    Plugin.masterUnlockPlugins (elements (m_storagePlugins s))
      (elements (m_encryptedStoragePlugins s)) dk in
  let pluginsUnlocked := plugin call unlocked.2 in
  let out := provideLockCodeWithLockCode pid rid target targetName ip uim addr lockCode s in
  target <> ExtensionPlugin ->
  generateKeyData lockCode = Some (bk, dk) ->
  out.1 = Bkdb.result unlocked.1
  /\ out.2 =
     (if isSucceeded (Bkdb.result unlocked.1)
      then answered
             [EvInitialise lockCode true; EvBkdb (Bkdb.unlock bk) unlocked.1;
              EvPlugin call pluginsUnlocked.1] pluginsUnlocked.2 rekeyed
      else answered [EvInitialise lockCode true; EvBkdb (Bkdb.unlock bk) unlocked.1]
             unlocked.2 rekeyed).
Proof.
  intros rekeyed unlocked call pluginsUnlocked out Htarget Hkey.
  subst rekeyed unlocked call pluginsUnlocked out.
  apply (proj2 (same_false _ _)) in Htarget.
  unfold provideLockCodeWithLockCode, answered. proc_red. rewrite Htarget, Hkey.
  proc_red. cbn [bkdbLockKey deviceLockKey noLockCode].
  destruct (bkdb (Bkdb.unlock bk) (world s)) as [ur w1]. cbn [fst snd].
  destruct (isSucceeded (Bkdb.result ur)); proc_red;
    cbn [bkdbLockKey deviceLockKey noLockCode].
  - destruct (plugin _ w1) as [pr w2]. cbn [fst snd]. trace_norm. split; reflexivity.
  - trace_norm. split; reflexivity.
Qed.

(** X19: only the platform application makes the daemon forget the lock
    code: for any other caller [forgetLockCode] fails, with
    [PermissionsError] or [OperationNotSupportedError], and changes nothing.
    When the request changes anything, its target is an extension plugin or
    the bookkeeping database with an empty target name. *)
Theorem forget_lock_code_only_for_platform (s : State W) (pid : pid_t) (rid : quint64)
    (target : LockCodeTargetType) (targetName : QString) (ip : InteractionParameters)
    (uim : UserInteractionMode) (addr : QString) :
  let out := forgetLockCode pid rid target targetName ip uim addr s in
  (applicationIsPlatformApplication pid = false ->
   out.2 = s /\ code out.1 = Failed
   /\ (errorCode out.1 = PermissionsError \/ errorCode out.1 = OperationNotSupportedError))
  /\ (out.2 <> s ->
      target = ExtensionPlugin \/ target = BookkeepingDatabase /\ targetName = "").
Proof.
  intros out. subst out. unfold forgetLockCode. split.
  - intros Happ. proc_red. rewrite Happ.
    destruct target; unfold same;
      rewrite ?bool_decide_eq_true_2 by reflexivity;
      rewrite ?bool_decide_eq_false_2 by discriminate; cbn; eauto.
  - proc_red.
    destruct target; unfold same;
      rewrite ?bool_decide_eq_true_2 by reflexivity;
      rewrite ?bool_decide_eq_false_2 by discriminate; cbn [fst snd].
    + intros Hs. by destruct Hs.
    + intros Hs. by destruct Hs.
    + intros _. by left.
    + destruct (applicationIsPlatformApplication pid); cbn [negb fst snd];
        [|intros Hs; by destruct Hs].
      destruct (isEmpty targetName) eqn:Ee; cbn [negb fst snd];
        [|intros Hs; by destruct Hs].
      intros _. right. split; [reflexivity|]. by apply isEmpty_true.
Qed.

(** Re-encrypting the device-locked collections and secrets keeps what
    the calls of the bookkeeping database that change no row and the calls of
    the plugins keep. *)
Lemma keeps_reencryptDeviceLocked {B : Type} (f : State W -> B) (k : QByteArray) :
  (forall c, Bkdb.mutates c = false -> keeps f (callBkdb c)) ->
  (forall c, keeps f (callPlugin c)) ->
  keeps f (reencryptDeviceLocked k).
Proof.
  intros Hbkdb Hplugin.
  unfold reencryptDeviceLocked, reencryptCollection, reencryptStandaloneSecret.
  repeat (cbv zeta;
          lazymatch goal with
          | |- keeps _ (bind _ _) => apply keeps_bind; [|intros ?]
          | |- keeps _ (ret _) => apply keeps_ret
          | |- keeps _ (gets _) => apply keeps_gets
          | |- keeps _ (forEach _ _) => apply keeps_forEach; intros ?
          | |- keeps _ (callBkdb _) => apply Hbkdb; reflexivity
          | |- keeps _ (callPlugin _) => apply Hplugin
          | |- keeps _ (if ?c then _ else _) => destruct c
          end).
Qed.

Lemma reencryptDeviceLocked_frame (k : QByteArray) :
  keeps (W:=W) keyMaterial (reencryptDeviceLocked k)
  /\ keeps (W:=W) watchers (reencryptDeviceLocked k)
  /\ keeps (W:=W) (recorded isMutation) (reencryptDeviceLocked k).
Proof.
  repeat split; apply keeps_reencryptDeviceLocked.
  all: try (intros c Hc; keeps_atom).
  all: try (intros c; keeps_atom).
  intros c Hc s. unfold exec. proc_cases. recorded_norm. rewrite Hc. by rewrite app_nil_r.
Qed.

(** The last step of the re-encryption gives the plugins the new master
    lock. *)
Lemma reencryptDeviceLocked_ends (k : QByteArray) (s : State W) :
  exists (before : list Event) (r : Plugin.Reply),
    trace (exec (reencryptDeviceLocked k) s) =
      (before ++
       [EvPlugin
          (Plugin.modifyMasterLockPlugins (elements (m_storagePlugins s))
             (elements (m_encryptedStoragePlugins s)) k (deviceLockKey (keyMaterial s)))
          r])%list.
Proof.
  destruct (reencryptDeviceLocked_frame k) as (Hkey & _). specialize (Hkey s).
  revert Hkey. unfold reencryptDeviceLocked.
  rewrite !exec_bind. cbn [gets eval exec fst snd id ret].
  match goal with |- context [exec (callPlugin _) ?S] => set (s4 := S) end.
  unfold exec, callPlugin. destruct (plugin _ (world s4)) as [r w]. cbn [fst snd trace set_trace
    set_world keyMaterial].
  intros Hkey. rewrite Hkey. by exists (trace s4), r.
Qed.

(** X20: when the old lock code is right and the bookkeeping database is
    re-encrypted, [modifyLockCodeWithLockCodes] answers with the result of the
    re-encryption, the key material is that of the new lock code, no job is
    started and no row is changed; the last thing it does is to hand the
    plugins the old and the new device-lock key. *)
Theorem modify_lock_code_rekeys (s : State W) (pid : pid_t) (rid : quint64)
    (target : LockCodeTargetType) (targetName : QString) (ip : InteractionParameters)
    (uim : UserInteractionMode) (addr : QString)
    (oldLockCode newLockCode nb nd : QByteArray) :
  let opened := bkdb Bkdb.isInitialised (world s) in
  let reencrypted := bkdb (Bkdb.reencrypt (bkdbLockKey (keyMaterial s)) nb) opened.2 in
  let out :=
    modifyLockCodeWithLockCodes pid rid target targetName ip uim addr oldLockCode
      newLockCode s in
  target <> ExtensionPlugin ->
  eval (testLockCode oldLockCode) s = true ->
  generateKeyData newLockCode = Some (nb, nd) ->
  code (Bkdb.result reencrypted.1) = Succeeded ->
  out.1 = Bkdb.result reencrypted.1
  /\ keyMaterial out.2 =
     {| bkdbLockKey := nb; deviceLockKey := nd;
        noLockCode := bool_decide (newLockCode = []) |}
  /\ watchers out.2 = watchers s
  /\ recorded isMutation out.2 = recorded isMutation s
  /\ exists (before : list Event) (r : Plugin.Reply),
       trace out.2 =
         (before ++
          [EvPlugin
             (Plugin.modifyMasterLockPlugins (elements (m_storagePlugins s))
                (elements (m_encryptedStoragePlugins s)) (deviceLockKey (keyMaterial s)) nd)
             r])%list.
Proof.
  intros opened reencrypted out Htarget Htest Hnew Hok. subst opened reencrypted out.
  apply (proj2 (same_false _ _)) in Htarget. apply (proj2 (isSucceeded_true _)) in Hok.
  unfold modifyLockCodeWithLockCodes.
  destruct s as [a1 a2 a3 a4 a5 a6 a7 a8 a9 a10 a11 a12 a13 km w tr].
  destruct km as [kb kd kn].
  unfold eval, testLockCode, gets in Htest.
  cbn [fst keyMaterial bkdbLockKey deviceLockKey] in Htest.
  cbn [keyMaterial bkdbLockKey world] in Hok.
  proc_red. cbn [bkdbLockKey deviceLockKey noLockCode] in *.
  rewrite Htarget.
  destruct (generateKeyData oldLockCode) as [[ob od]|] eqn:Eold; [|discriminate].
  apply andb_true_iff in Htest as [Hb Hd].
  apply bool_decide_eq_true in Hb, Hd. subst ob od.
  unfold beq. rewrite !bool_decide_eq_true_2 by reflexivity. cbn [andb negb].
  proc_red. cbn [bkdbLockKey deviceLockKey noLockCode] in *.
  destruct (bkdb Bkdb.isInitialised w) as [ir w1] eqn:Ei. cbn [fst snd] in *.
  destruct (Bkdb.flag ir); proc_red; cbn [bkdbLockKey deviceLockKey noLockCode] in *;
    rewrite ?Eold, Hnew; proc_red; cbn [bkdbLockKey deviceLockKey noLockCode] in *;
    destruct (bkdb (Bkdb.reencrypt kb nb) w1) as [rr w2] eqn:Er; cbn [fst snd] in *;
    rewrite Hok; proc_red; cbn [bkdbLockKey deviceLockKey noLockCode] in *.
  all: match goal with
       | |- context [reencryptDeviceLocked ?k ?S] =>
           destruct (reencryptDeviceLocked_frame k) as (Hkey & Hwatch & Hrows);
           specialize (Hkey S); specialize (Hwatch S); specialize (Hrows S);
           pose proof (reencryptDeviceLocked_ends k S) as (before & r & Hend);
           unfold exec in Hkey, Hwatch, Hrows, Hend;
           destruct (reencryptDeviceLocked k S) as [u s5]
       end.
  all: unfold recorded in *; state_norm; cbn [deviceLockKey] in *.
  all: repeat split; try assumption.
  all: try (rewrite Hrows, !List.filter_app; cbn; by rewrite !app_nil_r).
  all: by exists before, r.
Qed.

(** ** Access control *)

(** X21: a job that reads a secret is started only for a secret, or a
    collection, whose row exists, whose access control mode is not the system
    mode, and which belongs to the caller when the row is owner only. *)
Theorem secrets_are_read_for_permitted_callers (s : State W) (pid : pid_t) (rid : quint64)
    (id : Identifier) (uim : UserInteractionMode) (addr : QString) :
  let looked := bkdb (Bkdb.collectionMetadata (collectionName id)) (world s) in
  let c := Bkdb.metadata looked.1 in
  let found := bkdb (Bkdb.secretMetadata "standalone"
                       (generateHashedSecretName "standalone" (name id))) (world s) in
  let m := Bkdb.metadata found.1 in
  (watchers (exec (getCollectionSecret pid rid id uim addr) s) <> watchers s ->
   Bkdb.flag looked.1 = true
   /\ md_accessControlMode c <> SystemAccessControlMode
   /\ (md_accessControlMode c = OwnerOnlyMode -> md_applicationId c = callerApplicationId pid))
  /\ (watchers (exec (getStandaloneSecret pid rid id uim addr) s) <> watchers s ->
      Bkdb.flag found.1 = true
      /\ md_accessControlMode m <> SystemAccessControlMode
      /\ (md_accessControlMode m = OwnerOnlyMode ->
          md_applicationId m = callerApplicationId pid)).
Proof.
  intros looked c found m. subst looked c found m. split.
  - unfold getCollectionSecret, getCollectionSecretUnlockFlow,
      getCollectionSecretWithEncryptionKey.
    intros Hw. revert Hw.
    proc_cases; intros Hw; try (exfalso; apply Hw; reflexivity).
    all: proc_same; split; [assumption|]; by apply access_granted.
  - unfold getStandaloneSecret, getStandaloneSecretWithEncryptionKey.
    intros Hw. revert Hw.
    proc_cases; intros Hw; try (exfalso; apply Hw; reflexivity).
    all: proc_same; split; [assumption|]; by apply access_granted.
Qed.

(** X22: a job that deletes a secret is started only for a secret, or a
    collection, whose row exists, whose access control mode is not the system
    mode, and which belongs to the caller when the row is owner only. *)
Theorem secrets_are_deleted_for_permitted_callers (s : State W) (pid : pid_t) (rid : quint64)
    (id : Identifier) (uim : UserInteractionMode) (addr : QString) :
  let looked := bkdb (Bkdb.collectionMetadata (collectionName id)) (world s) in
  let c := Bkdb.metadata looked.1 in
  let found := bkdb (Bkdb.secretMetadata "standalone"
                       (generateHashedSecretName "standalone" (name id))) (world s) in
  let m := Bkdb.metadata found.1 in
  (watchers (exec (deleteCollectionSecret pid rid id uim addr) s) <> watchers s ->
   Bkdb.flag looked.1 = true
   /\ md_accessControlMode c <> SystemAccessControlMode
   /\ (md_accessControlMode c = OwnerOnlyMode -> md_applicationId c = callerApplicationId pid))
  /\ (watchers (exec (deleteStandaloneSecret pid rid id uim) s) <> watchers s ->
      Bkdb.flag found.1 = true
      /\ md_accessControlMode m <> SystemAccessControlMode
      /\ (md_accessControlMode m = OwnerOnlyMode ->
          md_applicationId m = callerApplicationId pid)).
Proof.
  intros looked c found m. subst looked c found m. split.
  - unfold deleteCollectionSecret, deleteCollectionSecretUnlockFlow,
      deleteCollectionSecretWithEncryptionKey.
    intros Hw. revert Hw.
    proc_cases; intros Hw; try (exfalso; apply Hw; reflexivity).
    all: proc_same; split; [assumption|]; by apply access_granted.
  - unfold deleteStandaloneSecret.
    intros Hw. revert Hw.
    proc_cases; intros Hw; try (exfalso; apply Hw; reflexivity).
    all: proc_same; split; [first [assumption | reflexivity]|]; by apply access_granted.
Qed.

(** X23: [findCollectionSecrets] with an empty filter fails and makes no
    call; a job is started only with a filter that is not empty, for a
    collection that exists, is not in the system mode and belongs to the caller
    when the row is owner only. *)
Theorem find_collection_secrets_needs_filter_and_permission (s : State W) (pid : pid_t)
    (rid : quint64) (cn : QString) (filter : list (QString * QString)) (op : FilterOperator)
    (uim : UserInteractionMode) (addr : QString) :
  let looked := bkdb (Bkdb.collectionMetadata cn) (world s) in
  let c := Bkdb.metadata looked.1 in
  (filter = [] ->
   exists e, findCollectionSecrets pid rid cn filter op uim addr s = (e, s)
             /\ code e = Failed)
  /\ (watchers (exec (findCollectionSecrets pid rid cn filter op uim addr) s) <> watchers s ->
      filter <> [] /\ Bkdb.flag looked.1 = true
      /\ md_accessControlMode c <> SystemAccessControlMode
      /\ (md_accessControlMode c = OwnerOnlyMode ->
          md_applicationId c = callerApplicationId pid)).
Proof.
  intros looked c. subst looked c. split.
  - intros ->. unfold findCollectionSecrets. proc_red.
    destruct (isEmpty cn); [by eexists|].
    destruct (compareCaseInsensitive_eq0 cn "standalone"); by eexists.
  - unfold findCollectionSecrets, findCollectionSecretsUnlockFlow,
      findCollectionSecretsWithEncryptionKey.
    intros Hw. revert Hw.
    proc_cases; intros Hw; try (exfalso; apply Hw; reflexivity).
    all: proc_same; split; [by apply (proj1 (bool_decide_eq_false _))|].
    all: split; [assumption|]; by apply access_granted.
Qed.

(** ** userInput *)

(** X24: [userInput] with an authentication plugin that is not registered
    fails and asks nothing.  Otherwise the plugin is asked once, with
    parameters that name the caller's own application, whatever the caller
    put there; the prompt text is prefixed with a warning exactly when the
    request names neither a collection nor a secret; the request is parked,
    with the parameters shown, unless the plugin failed to begin. *)
Theorem user_input_prompt_names_the_caller (s : State W) (pid : pid_t) (rid : quint64)
    (ui : InteractionParameters) :
  let plugin := userInputPluginOf (m_autotestMode s) ui in
  let out := userInput pid rid ui s in
  (plugin ∉ m_authenticationPlugins s ->
   out = (ResultError InvalidExtensionPluginError
            ("Cannot get user input from invalid authentication plugin: "
             ++ ip_authenticationPluginName ui), s))
  /\ (plugin ∈ m_authenticationPlugins s ->
      exists shown reply,
        trace out.2 = (trace s ++ [EvUserInput plugin pid rid shown "" reply])%list
        /\ ip_applicationId shown = callerApplicationId pid
        /\ (ip_collectionName ui = "" -> ip_secretName ui = "" ->
            ip_promptText shown
            = "An application is requesting input which will be returned to the application: "
              ++ ip_promptText ui)
        /\ ((ip_collectionName ui <> "" \/ ip_secretName ui <> "") ->
            ip_promptText shown = ip_promptText ui)
        /\ (code reply = Failed ->
            out.1 = reply /\ m_pendingRequests out.2 = m_pendingRequests s)
        /\ (code reply <> Failed ->
            out.1 = ResultOf Pending
            /\ m_pendingRequests out.2
               = <[rid := mkPendingRequest pid rid UserInputRequest
                            [VInteractionParameters shown]]> (m_pendingRequests s))).
Proof.
  intros plugin out. subst plugin out. unfold userInput. split; intros Hin.
  - proc_red. unfold contains. rewrite bool_decide_eq_false_2 by assumption. reflexivity.
  - proc_red. unfold contains. rewrite bool_decide_eq_true_2 by assumption.
    cbn [negb]. unfold beginInteractionAndSuspend.
    proc_cases.
    all: eexists _, _; split; [reflexivity|].
    all: repeat match goal with
           | E : isFailed _ = true |- _ => apply (proj1 (isFailed_true _)) in E
           | E : isFailed _ = false |- _ =>
               apply (proj1 (bool_decide_eq_false _)) in E
           end.
    all: unfold userInputRequest, setApplicationId, setPromptText, warningPromptText.
    all: cbn [ip_collectionName ip_secretName ip_promptText ip_applicationId].
    all: repeat split; try (intros; congruence); try (intros; reflexivity).
    all: try (intros Hc Hs; rewrite Hc, Hs; reflexivity).
    all: try (intros [Hc|Hc]; apply (proj2 (isEmpty_false _)) in Hc; rewrite Hc;
              rewrite ?andb_false_r; reflexivity).
    all: by destruct (isEmpty (ip_collectionName ui) && isEmpty (ip_secretName ui)).
Qed.

End MoreProperties.

(** * The further properties on the concrete daemons *)

(** Application A deletes a collection that was never created. *)
Lemma delete_collection_of_missing_collection_witness :
  let s := Demo.state Demo.world0 in
  let out := deleteCollection 100 1 "notes" PreventInteraction s in
  invalidName "notes" = false
  /\ out.1 = ResultOf Succeeded
  /\ watchers out.2 = []
  /\ length (trace out.2) = 1.
Proof.
  intros s out.
  assert (Hname : invalidName "notes" = false) by (vm_compute; reflexivity).
  assert (Hok : code (Bkdb.result (bkdb (Bkdb.collectionMetadata "notes") (world s)).1)
                = Succeeded) by (vm_compute; reflexivity).
  assert (Hmissing : Bkdb.flag (bkdb (Bkdb.collectionMetadata "notes") (world s)).1 = false)
    by (vm_compute; reflexivity).
  pose proof (delete_collection_of_missing_collection s 100 1 "notes" PreventInteraction
                Hname Hok Hmissing) as Hout.
  split; [exact Hname|].
  subst out. rewrite Hout. vm_compute. repeat split; reflexivity.
Defined.

(** Application B deletes the collection "priv" of application A. *)
Lemma delete_collection_owner_only_witness :
  let s := Demo.state Scenario.privWorld in
  let out := deleteCollection 200 1 "priv" PreventInteraction s in
  md_applicationId (Bkdb.metadata (bkdb (Bkdb.collectionMetadata "priv") (world s)).1)
    <> callerApplicationId 200
  /\ errorCode out.1 = PermissionsError
  /\ watchers out.2 = []
  /\ is_Some (Demo.collectionRows (world out.2) !! "priv").
Proof.
  intros s out.
  assert (Hname : invalidName "priv" = false) by (vm_compute; reflexivity).
  assert (Hok : code (Bkdb.result (bkdb (Bkdb.collectionMetadata "priv") (world s)).1)
                = Succeeded) by (vm_compute; reflexivity).
  assert (Hfound : Bkdb.flag (bkdb (Bkdb.collectionMetadata "priv") (world s)).1 = true)
    by (vm_compute; reflexivity).
  assert (Hmode :
    md_accessControlMode (Bkdb.metadata (bkdb (Bkdb.collectionMetadata "priv") (world s)).1)
    = OwnerOnlyMode) by (vm_compute; reflexivity).
  assert (Hother :
    md_applicationId (Bkdb.metadata (bkdb (Bkdb.collectionMetadata "priv") (world s)).1)
      <> callerApplicationId 200) by (vm_compute; discriminate).
  pose proof (delete_collection_owner_only s 200 1 "priv" PreventInteraction Hname Hok
                Hfound Hmode Hother) as (_ & Herror & Hstate).
  split; [exact Hother|]. split; [exact Herror|].
  subst out. rewrite Hstate. vm_compute. split; [reflexivity|eauto].
Defined.

(** Application A deletes its collection "notes", and the plugin removes
    it. *)
Lemma delete_collection_marks_busy_witness :
  let s := Scenario.notesState in
  let started := deleteCollection 100 1 "notes" PreventInteraction s in
  watchers started.2 <> watchers s
  /\ started.1 = ResultOf Pending
  /\ future <$> watchers started.2 = [Job.Storage_removeCollection "store" "notes"]
  /\ m_busyCollections started.2 = {["notes"]} ∪ m_busyCollections s.
Proof.
  intros s started.
  assert (Hw : watchers started.2 <> watchers s) by (vm_compute; discriminate).
  pose proof (delete_collection_marks_busy s 100 1 "notes" PreventInteraction Hw)
    as (Hpending & Hwatch & _ & Hbusy & _).
  split; [exact Hw|]. split; [exact Hpending|].
  split; [subst started; rewrite Hwatch; vm_compute; reflexivity|exact Hbusy].
Defined.

(** The plugin has removed "notes", or has failed to. *)
Lemma delete_collection_finished_forgets_witness :
  let s := (deleteCollection 100 1 "notes" PreventInteraction Scenario.notesState).2 in
  let done r := exec (deleteCollection_finished 100 1 "notes" OwnerOnlyMode r) s in
  code Scenario.pluginFailure = Failed
  /\ code Demo.ok <> Failed
  /\ m_collectionEncryptionKeys (done Scenario.pluginFailure) = m_collectionEncryptionKeys s
  /\ world (done Scenario.pluginFailure) = world s
  /\ m_collectionEncryptionKeys (done Demo.ok) !! "notes" = None
  /\ Demo.collectionRows (world (done Demo.ok)) !! "notes" = None
  /\ m_busyCollections (done Demo.ok) = m_busyCollections s ∖ {["notes"]}.
Proof.
  intros s done.
  assert (Hfailed : code Scenario.pluginFailure = Failed) by reflexivity.
  assert (Hfine : code Demo.ok <> Failed) by discriminate.
  pose proof (delete_collection_finished_forgets s 100 1 "notes" OwnerOnlyMode
                Scenario.pluginFailure) as (_ & Hleft & _).
  pose proof (delete_collection_finished_forgets s 100 1 "notes" OwnerOnlyMode Demo.ok)
    as (Hbusy & _ & Hgone).
  destruct (Hleft Hfailed) as (_ & Hworld & Hkeys & _).
  destruct (Hgone Hfine) as (Hkey & _ & Hrow & _).
  split; [exact Hfailed|]. split; [exact Hfine|]. split; [exact Hkeys|].
  split; [exact Hworld|].
  split; [subst done; cbv beta; rewrite Hkey; vm_compute; reflexivity|].
  split; [subst done; cbv beta; rewrite Hrow; vm_compute; reflexivity|exact Hbusy].
Defined.

(** Application A creates the collection "notes" while a request on
    "notes" is in flight. *)
Lemma create_device_lock_collection_respects_guard_witness :
  let s := set_m_busyCollections {["notes"]} (Demo.state Demo.world0) in
  let out :=
    createDeviceLockCollection 100 1 "notes" "store" "enc" DeviceLockKeepUnlocked
      OwnerOnlyMode s in
  ("notes" ∈ m_busyCollections s)
  /\ out.1 = interleavedRequestError
  /\ watchers out.2 = []
  /\ Demo.collectionRows (world out.2) !! "notes" = None.
Proof.
  intros s out.
  assert (Hbusy : "notes" ∈ m_busyCollections s) by (vm_compute; set_solver).
  assert (Hname : reservedName "notes" = false) by (vm_compute; reflexivity).
  assert (Hreg : pluginsRegistered s "store" "enc" = true) by (vm_compute; reflexivity).
  assert (Hok : code (Bkdb.result (bkdb (Bkdb.collectionAlreadyExists "notes") (world s)).1)
                = Succeeded) by (vm_compute; reflexivity).
  assert (Hfresh : Bkdb.flag (bkdb (Bkdb.collectionAlreadyExists "notes") (world s)).1
                   = false) by (vm_compute; reflexivity).
  pose proof (create_device_lock_collection_respects_guard s 100 1 "notes" "store" "enc"
                DeviceLockKeepUnlocked OwnerOnlyMode Hbusy) as [_ Hout].
  specialize (Hout Hname Hreg Hok Hfresh).
  split; [exact Hbusy|].
  subst out. rewrite Hout. vm_compute. repeat split; reflexivity.
Defined.

(** The plugin has created "notes" on the split plugins, or has failed
    to. *)
Lemma create_device_lock_collection_finished_releases_guard_witness :
  let s :=
    (createDeviceLockCollection 100 1 "notes" "store" "enc" DeviceLockKeepUnlocked
       OwnerOnlyMode (Demo.state Demo.world0)).2 in
  let done r :=
    exec (createDeviceLockCollection_finished 1 "notes" "store" "enc" OwnerOnlyMode r) s in
  code Demo.ok = Succeeded
  /\ code Scenario.pluginFailure <> Succeeded
  /\ ("notes" ∈ m_busyCollections s)
  /\ m_busyCollections (done Demo.ok) = m_busyCollections s ∖ {["notes"]}
  /\ m_collectionEncryptionKeys (done Demo.ok) !! "notes" = Some (x64 :: Demo.oldLockCode)
  /\ m_collectionEncryptionKeys (done Scenario.pluginFailure) = ∅.
Proof.
  intros s done.
  assert (Hfine : code Demo.ok = Succeeded) by reflexivity.
  assert (Hfailed : code Scenario.pluginFailure <> Succeeded) by discriminate.
  pose proof (create_device_lock_collection_finished_releases_guard s 1 "notes" "store"
                "enc" OwnerOnlyMode Demo.ok) as (Hbusy & Hcached & _).
  pose proof (create_device_lock_collection_finished_releases_guard s 1 "notes" "store"
                "enc" OwnerOnlyMode Scenario.pluginFailure) as (_ & _ & Hnone).
  destruct (Hcached Hfine) as (_ & _ & Hkey).
  specialize (Hnone Hfailed).
  split; [exact Hfine|]. split; [exact Hfailed|].
  split; [vm_compute; set_solver|]. split; [exact Hbusy|].
  split; [subst done; cbv beta; rewrite Hkey; vm_compute; reflexivity|].
  subst done; cbv beta; rewrite Hnone. vm_compute. reflexivity.
Defined.

(** Application A creates "notes" while the bookkeeping database is full. *)
Lemma create_device_lock_collection_insert_failure_witness :
  let s := Full.state in
  let out :=
    createDeviceLockCollection 100 1 "notes" "store" "enc" DeviceLockKeepUnlocked
      OwnerOnlyMode s in
  ("notes" ∉ m_busyCollections s)
  /\ out.1 = Full.refusal
  /\ watchers out.2 = []
  /\ ("notes" ∈ m_busyCollections out.2).
Proof.
  intros s out.
  assert (Hname : reservedName "notes" = false) by (vm_compute; reflexivity).
  assert (Hreg : pluginsRegistered s "store" "enc" = true) by (vm_compute; reflexivity).
  assert (Hok : code (Bkdb.result (bkdb (Bkdb.collectionAlreadyExists "notes") (world s)).1)
                = Succeeded) by (vm_compute; reflexivity).
  assert (Hfresh : Bkdb.flag (bkdb (Bkdb.collectionAlreadyExists "notes") (world s)).1
                   = false) by (vm_compute; reflexivity).
  assert (Hfree : "notes" ∉ m_busyCollections s) by (vm_compute; set_solver).
  pose proof (create_device_lock_collection_insert_failure s 100 1 "notes" "store" "enc"
                DeviceLockKeepUnlocked OwnerOnlyMode Hname Hreg Hok Hfresh Hfree)
    as Hout.
  destruct Hout as (Hresult & Hwatch & Hbusy & _); [vm_compute; discriminate|].
  split; [exact Hfree|]. split; [subst out; rewrite Hresult; vm_compute; reflexivity|].
  split; [exact Hwatch|]. subst out. rewrite Hbusy. set_solver.
Defined.

(** Application A records the metadata of a secret "x" of its collection
    "vault", which an encrypted storage plugin keeps. *)
Lemma set_collection_secret_metadata_insertion_witness :
  let w :=
    Demo.withCollections
      (insert "vault" (Demo.deviceLockRow "A" "encstore" "encstore" OwnerOnlyMode))
      Demo.world0 in
  let s := Demo.state w in
  let out := setCollectionSecretMetadata 100 1 (mkIdentifier "x" "vault") s in
  recorded isMutation out.2 <> recorded isMutation s
  /\ out.1 = Demo.ok
  /\ length (trace out.2) = 4
  /\ is_Some (Demo.secretRows (world out.2) !! ("vault", Demo.hashOf "vault" "x")).
Proof.
  intros w s out.
  assert (Hrows : recorded isMutation out.2 <> recorded isMutation s)
    by (vm_compute; discriminate).
  pose proof (set_collection_secret_metadata_insertion s 100 1 (mkIdentifier "x" "vault")
                Hrows) as (Hout & _).
  split; [exact Hrows|].
  subst out. rewrite Hout. vm_compute. repeat split; eauto.
Defined.

(** A secret of the collection "box" of split plugins, which relocks after
    500 ms, is read with the key of the collection; then the timer fires. *)
Lemma collection_relock_timer_evicts_key_witness :
  let s := Demo.state Demo.world0 in
  let id := mkIdentifier "x" "box" in
  let read :=
    exec (getCollectionSecretWithEncryptionKey 100 7 id SystemInteraction "" "store" "enc"
            CustomLockTimoutRelock 500 Scenario.pinKey) s in
  let relocked := exec (timeoutRelockCollection (mkQTimer 0 500 true)) read in
  m_collectionLockTimers read !! "box" = Some (mkQTimer 0 500 true)
  /\ m_collectionEncryptionKeys read !! "box" = Some Scenario.pinKey
  /\ m_collectionEncryptionKeys relocked !! "box" = None
  /\ m_collectionLockTimers relocked = ∅.
Proof.
  intros s id read relocked.
  assert (Hsplit : "store" <> "enc") by discriminate.
  assert (Hnone : m_collectionLockTimers s !! collectionName id = None)
    by (vm_compute; reflexivity).
  assert (Hd : timersDistinct s) by (intros i t Hi; destruct i; discriminate).
  assert (Hs : timersStarted (m_collectionLockTimers s) s)
    by (intros k t Hk; vm_compute in Hk; discriminate).
  assert (Hu : timersUnshared (m_collectionLockTimers s))
    by (intros j k t Hj; vm_compute in Hj; discriminate).
  pose proof (collection_relock_timer_evicts_key s 100 7 id SystemInteraction "" "store"
                "enc" 500 Scenario.pinKey Hsplit Hnone Hd Hs Hu)
    as (Harmed & _ & Hevicted & Htimers).
  split; [subst read; rewrite Harmed; vm_compute; reflexivity|].
  split; [vm_compute; reflexivity|].
  split; [|exact Htimers].
  etransitivity; [exact (f_equal (fun m => m !! "box") Hevicted)|apply lookup_delete_eq].
Defined.

(** The same read starts the timer 0; a second read starts none. *)
Lemma relock_timer_started_once_witness :
  let s := Demo.state Demo.world0 in
  let id := mkIdentifier "x" "box" in
  let read :=
    getCollectionSecretWithEncryptionKey 100 7 id SystemInteraction "" "store" "enc"
      CustomLockTimoutRelock 500 Scenario.pinKey in
  timers (exec read s) = [mkQTimer 0 500 true]
  /\ is_Some (m_collectionLockTimers (exec read s) !! "box")
  /\ timers (exec read (exec read s)) = [mkQTimer 0 500 true]
  /\ timersDistinct (exec read s).
Proof.
  intros s id read.
  assert (Hnone : m_collectionLockTimers s !! collectionName id = None)
    by (vm_compute; reflexivity).
  assert (Harmed : is_Some (m_collectionLockTimers (exec read s) !! collectionName id))
    by (vm_compute; eauto).
  assert (Hd : timersDistinct s) by (intros i t Hi; destruct i; discriminate).
  pose proof (relock_timer_started_once s 100 7 id SystemInteraction "" "store" "enc"
                CustomLockTimoutRelock 500 Scenario.pinKey) as (_ & Hfirst & Hdistinct & _).
  pose proof (relock_timer_started_once (exec read s) 100 7 id SystemInteraction "" "store"
                "enc" CustomLockTimoutRelock 500 Scenario.pinKey) as (Hsecond & _).
  specialize (Hfirst eq_refl Hnone).
  destruct (Hsecond (or_intror Harmed)) as [Hsame _].
  split; [exact Hfirst|]. split; [exact Harmed|].
  split; [etransitivity; [exact Hsame|exact Hfirst]|exact (Hdistinct Hd)].
Defined.

(** The key of "notes" is cached; a secret of "notes" is read with another
    key, and the job is handed the cached one. *)
Lemma cached_collection_key_wins_witness :
  let s := Scenario.notesState in
  let read :=
    exec (getCollectionSecretWithEncryptionKey 100 7 (mkIdentifier "x" "notes")
            SystemInteraction "" "store" "enc" DeviceLockKeepUnlocked 0 Scenario.pinKey) s in
  Scenario.pinKey <> x64 :: Demo.oldLockCode
  /\ m_collectionEncryptionKeys read = m_collectionEncryptionKeys s
  /\ future <$> watchers read =
     [Job.Storage_getAndDecryptSecret "enc" "store" (mkIdentifier "x" "notes")
        (Demo.hashOf "notes" "x") (x64 :: Demo.oldLockCode)].
Proof.
  intros s read.
  assert (Hsplit : "store" <> "enc") by discriminate.
  pose proof (cached_collection_key_wins s 100 7 (mkIdentifier "x" "notes")
                SystemInteraction "" "store" "enc" DeviceLockKeepUnlocked 0 Scenario.pinKey)
    as [_ Hcached].
  destruct (Hcached Hsplit) as [Hkeys Hwatch].
  split; [vm_compute; discriminate|].
  split; [subst read; rewrite Hkeys; vm_compute; reflexivity|].
  subst read. rewrite Hwatch. vm_compute. reflexivity.
Defined.

(** Application A writes the new standalone device-lock secret "pin" on the
    split plugins and the plugin fails; and the same write while the
    bookkeeping database is full. *)
Lemma write_standalone_device_lock_secret_row_first_witness :
  let started :=
    writeStandaloneDeviceLockSecret 100 4 "A" "store" "enc" Scenario.pinSecret "standalone"
      Scenario.pinHash false DeviceLockKeepUnlocked OwnerOnlyMode (Demo.state Demo.world0) in
  let done :=
    exec (writeStandaloneDeviceLockSecretFinalise 100 4 "store" "enc" "standalone"
            Scenario.pinHash false Scenario.pluginFailure) started.2 in
  let refused :=
    writeStandaloneDeviceLockSecret 100 4 "A" "store" "enc" Scenario.pinSecret "standalone"
      Scenario.pinHash false DeviceLockKeepUnlocked OwnerOnlyMode Full.state in
  started.1 = ResultOf Pending
  /\ is_Some (Demo.secretRows (world started.2) !! ("standalone", Scenario.pinHash))
  /\ length (watchers started.2) = 1
  /\ Demo.secretRows (world done) !! ("standalone", Scenario.pinHash) = None
  /\ last (trace done) = Some (EvRequestFinished 4 [OutResult Scenario.pluginFailure])
  /\ refused.1 = Full.refusal
  /\ watchers refused.2 = [].
Proof.
  intros started done refused.
  pose proof (write_standalone_device_lock_secret_row_first (Demo.state Demo.world0)
                started.2 100 4 "A" "store" "enc" "standalone" Scenario.pinHash
                Scenario.pinSecret false DeviceLockKeepUnlocked OwnerOnlyMode
                Scenario.pluginFailure) as (_ & Hstart & Hclean & _).
  pose proof (write_standalone_device_lock_secret_row_first Full.state Full.state 100 4 "A"
                "store" "enc" "standalone" Scenario.pinHash Scenario.pinSecret false
                DeviceLockKeepUnlocked OwnerOnlyMode Scenario.pluginFailure)
    as (Hrefused & _).
  destruct Hstart as (Hpending & _ & Hwatch); [vm_compute; reflexivity|].
  specialize (Hclean eq_refl eq_refl).
  assert (Hfull :
    code (Bkdb.result
            (bkdb (Bkdb.insertSecret "standalone" Scenario.pinHash
                     (Demo.deviceLockRow "A" "store" "enc" OwnerOnlyMode))
               (world Full.state)).1) <> Succeeded) by (vm_compute; discriminate).
  specialize (Hrefused Hfull).
  split; [exact Hpending|]. split; [vm_compute; eauto|].
  split; [subst started; rewrite Hwatch; vm_compute; reflexivity|].
  split; [subst done; rewrite Hclean; vm_compute; reflexivity|].
  split; [subst done; rewrite Hclean; vm_compute; reflexivity|].
  subst refused. rewrite Hrefused. vm_compute. split; reflexivity.
Defined.

(** The plugin has removed the secret "x" of "notes", or has failed to. *)
Lemma delete_collection_secret_row_after_plugin_witness :
  let h := Demo.hashOf "notes" "x" in
  let w := Demo.withSecrets (insert ("notes", h) Scenario.notesRow) Scenario.notesWorld in
  let s := Demo.state w in
  let done r :=
    exec (deleteCollectionSecretWithEncryptionKey_finished 9 (mkIdentifier "x" "notes") h
            OwnerOnlyMode r) s in
  code Scenario.pluginFailure <> Succeeded
  /\ code Demo.ok = Succeeded
  /\ is_Some (Demo.secretRows (world (done Scenario.pluginFailure)) !! ("notes", h))
  /\ Demo.secretRows (world (done Demo.ok)) !! ("notes", h) = None
  /\ last (trace (done Demo.ok)) = Some (EvRequestFinished 9 [OutResult Demo.ok]).
Proof.
  intros h w s done.
  assert (Hfailed : code Scenario.pluginFailure <> Succeeded) by discriminate.
  assert (Hfine : code Demo.ok = Succeeded) by reflexivity.
  pose proof (delete_collection_secret_row_after_plugin s 9 (mkIdentifier "x" "notes") h
                OwnerOnlyMode Scenario.pluginFailure) as [Hkept _].
  pose proof (delete_collection_secret_row_after_plugin s 9 (mkIdentifier "x" "notes") h
                OwnerOnlyMode Demo.ok) as [_ Hgone].
  specialize (Hkept Hfailed). specialize (Hgone Hfine).
  split; [exact Hfailed|]. split; [exact Hfine|].
  split; [subst done; cbv beta; rewrite Hkept; vm_compute; eauto|].
  subst done; cbv beta; rewrite Hgone. vm_compute. split; reflexivity.
Defined.

(** A secret of the device-lock collection "notes" is deleted with a key
    that is not the device-lock key; a secret of the custom-lock collection
    "box" of split plugins is deleted with a key nobody has verified. *)
Lemma delete_collection_secret_checks_device_lock_key_witness :
  let s := Scenario.notesState in
  let refused :=
    exec (deleteCollectionSecretWithEncryptionKey 100 9 (mkIdentifier "x" "notes")
            SystemInteraction "" Scenario.pinKey) s in
  let w :=
    Demo.withCollections
      (insert "box" (Demo.customLockRow "A" "store" "enc" 500 OwnerOnlyMode)) Demo.world0 in
  let accepted :=
    exec (deleteCollectionSecretWithEncryptionKey 100 9 (mkIdentifier "x" "box")
            SystemInteraction "" Scenario.pinKey) (Demo.state w) in
  Scenario.pinKey <> deviceLockKey (keyMaterial s)
  /\ watchers refused = []
  /\ last (trace refused) =
     Some (EvRequestFinished 9
             [OutResult (ResultError IncorrectAuthenticationCodeError
                           "Incorrect device lock key provided")])
  /\ m_collectionEncryptionKeys accepted !! "box" = Some Scenario.pinKey
  /\ future <$> watchers accepted =
     [Job.Storage_removeSecret "store" "box" (Demo.hashOf "box" "x")].
Proof.
  intros s refused w accepted.
  assert (Hkey : Scenario.pinKey <> deviceLockKey (keyMaterial s))
    by (vm_compute; discriminate).
  pose proof (delete_collection_secret_checks_device_lock_key s 100 9
                (mkIdentifier "x" "notes") SystemInteraction "" Scenario.pinKey)
    as Hnotes.
  destruct Hnotes as [Hrefused _]; [vm_compute; reflexivity | vm_compute; reflexivity|].
  specialize (Hrefused eq_refl Hkey).
  pose proof (delete_collection_secret_checks_device_lock_key (Demo.state w) 100 9
                (mkIdentifier "x" "box") SystemInteraction "" Scenario.pinKey) as Hbox.
  destruct Hbox as [_ Haccepted]; [vm_compute; reflexivity | vm_compute; reflexivity|].
  destruct Haccepted as [Hkeys Hwatch];
    [vm_compute; reflexivity | vm_compute; discriminate | intros _; vm_compute; reflexivity
    | vm_compute; discriminate | vm_compute; reflexivity |].
  split; [exact Hkey|].
  split; [subst refused; rewrite Hrefused; vm_compute; reflexivity|].
  split; [subst refused; rewrite Hrefused; vm_compute; reflexivity|].
  split; [subst accepted; rewrite Hkeys; vm_compute; reflexivity|].
  subst accepted. rewrite Hwatch. vm_compute. reflexivity.
Defined.

(** The lock code "new" is provided for the locked bookkeeping database. *)
Lemma provide_lock_code_database_witness :
  let s := Demo.state (Demo.withLocked true Demo.world0) in
  let out :=
    provideLockCodeWithLockCode 1 5 BookkeepingDatabase "" InteractionParameters0
      PreventInteraction "" Demo.newLockCode s in
  generateKeyData Demo.newLockCode = Some (x62 :: Demo.newLockCode, x64 :: Demo.newLockCode)
  /\ out.1 = Demo.ok
  /\ bkdbLockKey (keyMaterial out.2) = x62 :: Demo.newLockCode
  /\ Demo.databaseLocked (world out.2) = false
  /\ length (trace out.2) = 3.
Proof.
  intros s out.
  assert (Htarget : BookkeepingDatabase <> ExtensionPlugin) by discriminate.
  assert (Hkey : generateKeyData Demo.newLockCode
                 = Some (x62 :: Demo.newLockCode, x64 :: Demo.newLockCode))
    by (vm_compute; reflexivity).
  pose proof (provide_lock_code_database s 1 5 BookkeepingDatabase ""
                InteractionParameters0 PreventInteraction "" Demo.newLockCode _ _ Htarget
                Hkey) as [Hresult Hstate].
  split; [exact Hkey|].
  split; [subst out; rewrite Hresult; vm_compute; reflexivity|].
  subst out. rewrite Hstate. vm_compute. repeat split; reflexivity.
Defined.

(** Application A asks the daemon to forget the lock code. *)
Lemma forget_lock_code_only_for_platform_witness :
  let s := Demo.state Demo.world0 in
  let out :=
    forgetLockCode 100 3 BookkeepingDatabase "" InteractionParameters0 PreventInteraction ""
      s in
  let platform :=
    forgetLockCode 1 3 BookkeepingDatabase "" InteractionParameters0 PreventInteraction ""
      s in
  applicationIsPlatformApplication 100 = false
  /\ out.2 = s
  /\ errorCode out.1 = PermissionsError
  /\ platform.2 <> s.
Proof.
  intros s out platform.
  assert (Happ : applicationIsPlatformApplication 100 = false) by (vm_compute; reflexivity).
  pose proof (forget_lock_code_only_for_platform s 100 3 BookkeepingDatabase ""
                InteractionParameters0 PreventInteraction "") as [Hother _].
  destruct (Hother Happ) as (Hstate & _ & _).
  split; [exact Happ|]. split; [exact Hstate|].
  split; [vm_compute; reflexivity|vm_compute; discriminate].
Defined.

(** The platform application changes the lock code from "old" to "new". *)
Lemma modify_lock_code_rekeys_witness :
  let s := Demo.state Scenario.notesWorld in
  let out :=
    modifyLockCodeWithLockCodes 1 5 BookkeepingDatabase "" InteractionParameters0
      PreventInteraction "" Demo.oldLockCode Demo.newLockCode s in
  eval (testLockCode Demo.oldLockCode) s = true
  /\ out.1 = Demo.ok
  /\ keyMaterial out.2 =
     {| bkdbLockKey := x62 :: Demo.newLockCode; deviceLockKey := x64 :: Demo.newLockCode;
        noLockCode := false |}
  /\ watchers out.2 = []
  /\ recorded isMutation out.2 = [].
Proof.
  intros s out.
  assert (Htarget : BookkeepingDatabase <> ExtensionPlugin) by discriminate.
  assert (Htest : eval (testLockCode Demo.oldLockCode) s = true) by (vm_compute; reflexivity).
  assert (Hnew : generateKeyData Demo.newLockCode
                 = Some (x62 :: Demo.newLockCode, x64 :: Demo.newLockCode))
    by (vm_compute; reflexivity).
  assert (Hok :
    code (Bkdb.result
            (bkdb (Bkdb.reencrypt (bkdbLockKey (keyMaterial s)) (x62 :: Demo.newLockCode))
               (bkdb Bkdb.isInitialised (world s)).2).1) = Succeeded)
    by (vm_compute; reflexivity).
  pose proof (modify_lock_code_rekeys s 1 5 BookkeepingDatabase "" InteractionParameters0
                PreventInteraction "" Demo.oldLockCode Demo.newLockCode _ _ Htarget Htest
                Hnew Hok) as (Hresult & Hkeys & Hwatch & Hrows & _).
  split; [exact Htest|].
  split; [subst out; rewrite Hresult; vm_compute; reflexivity|].
  split; [subst out; rewrite Hkeys; vm_compute; reflexivity|].
  split; [exact Hwatch|exact Hrows].
Defined.

(** Application A reads the secret "x" of its unlocked collection "notes",
    and its standalone secret "pin" while the key of "pin" is cached. *)
Lemma secrets_are_read_for_permitted_callers_witness :
  let s := Scenario.notesState in
  let p := exec Scenario.readPin (Demo.state Scenario.pinWorld) in
  watchers (exec (getCollectionSecret 100 8 (mkIdentifier "x" "notes") PreventInteraction "")
              s) <> watchers s
  /\ watchers (exec (getStandaloneSecret 100 8 Scenario.pin PreventInteraction "") p)
     <> watchers p
  /\ md_applicationId Scenario.notesRow = callerApplicationId 100
  /\ md_applicationId Scenario.pinRow = callerApplicationId 100.
Proof.
  intros s p.
  assert (Hnotes :
    watchers (exec (getCollectionSecret 100 8 (mkIdentifier "x" "notes") PreventInteraction
                      "") s) <> watchers s) by (vm_compute; discriminate).
  assert (Hpin :
    watchers (exec (getStandaloneSecret 100 8 Scenario.pin PreventInteraction "") p)
    <> watchers p) by (vm_compute; discriminate).
  pose proof (secrets_are_read_for_permitted_callers s 100 8 (mkIdentifier "x" "notes")
                PreventInteraction "") as [Hcollection _].
  pose proof (secrets_are_read_for_permitted_callers p 100 8 Scenario.pin
                PreventInteraction "") as [_ Hstandalone].
  destruct (Hcollection Hnotes) as (_ & _ & Howner).
  destruct (Hstandalone Hpin) as (_ & _ & Hsecret).
  split; [exact Hnotes|]. split; [exact Hpin|].
  split; [apply Howner; vm_compute; reflexivity|apply Hsecret; vm_compute; reflexivity].
Defined.

(** Application A deletes the secret "x" of its unlocked collection "notes"
    and its standalone secret "pin". *)
Lemma secrets_are_deleted_for_permitted_callers_witness :
  let s := Scenario.notesState in
  let p := Demo.state Scenario.pinWorld in
  watchers (exec (deleteCollectionSecret 100 8 (mkIdentifier "x" "notes") PreventInteraction
                    "") s) <> watchers s
  /\ watchers (exec (deleteStandaloneSecret 100 8 Scenario.pin PreventInteraction) p)
     <> watchers p
  /\ md_applicationId Scenario.notesRow = callerApplicationId 100
  /\ md_applicationId Scenario.pinRow = callerApplicationId 100.
Proof.
  intros s p.
  assert (Hnotes :
    watchers (exec (deleteCollectionSecret 100 8 (mkIdentifier "x" "notes")
                      PreventInteraction "") s) <> watchers s)
    by (vm_compute; discriminate).
  assert (Hpin :
    watchers (exec (deleteStandaloneSecret 100 8 Scenario.pin PreventInteraction) p)
    <> watchers p) by (vm_compute; discriminate).
  pose proof (secrets_are_deleted_for_permitted_callers s 100 8 (mkIdentifier "x" "notes")
                PreventInteraction "") as [Hcollection _].
  pose proof (secrets_are_deleted_for_permitted_callers p 100 8 Scenario.pin
                PreventInteraction "") as [_ Hstandalone].
  destruct (Hcollection Hnotes) as (_ & _ & Howner).
  destruct (Hstandalone Hpin) as (_ & _ & Hsecret).
  split; [exact Hnotes|]. split; [exact Hpin|].
  split; [apply Howner; vm_compute; reflexivity|apply Hsecret; vm_compute; reflexivity].
Defined.

(** Application A looks for secrets of "notes", without a filter and with
    one. *)
Lemma find_collection_secrets_needs_filter_and_permission_witness :
  let s := Scenario.notesState in
  let find filter :=
    findCollectionSecrets 100 8 "notes" filter OperatorAnd PreventInteraction "" s in
  (find []).2 = s
  /\ code (find []).1 = Failed
  /\ watchers (find [("kind", "note")]).2 <> watchers s
  /\ md_applicationId Scenario.notesRow = callerApplicationId 100.
Proof.
  intros s find.
  assert (Hstarted : watchers (find [("kind", "note")]).2 <> watchers s)
    by (vm_compute; discriminate).
  pose proof (find_collection_secrets_needs_filter_and_permission s 100 8 "notes" []
                OperatorAnd PreventInteraction "") as [Hempty _].
  pose proof (find_collection_secrets_needs_filter_and_permission s 100 8 "notes"
                [("kind", "note")] OperatorAnd PreventInteraction "") as [_ Hfilter].
  destruct (Hempty eq_refl) as (e & Hout & Hfailed).
  destruct (Hfilter Hstarted) as (_ & _ & _ & Howner).
  split; [subst find; cbv beta; rewrite Hout; reflexivity|].
  split; [subst find; cbv beta; rewrite Hout; exact Hfailed|].
  split; [exact Hstarted|apply Howner; vm_compute; reflexivity].
Defined.

(** Application A asks the user for input without naming a collection or
    a secret, and claims to be the platform; and asks through a plugin that
    does not exist. *)
Lemma user_input_prompt_names_the_caller_witness :
  let s := Demo.state Demo.world0 in
  let ui :=
    {| ip_authenticationPluginName := ""; ip_applicationId := "platform";
       ip_collectionName := ""; ip_secretName := ""; ip_operation := None;
       ip_inputType := None; ip_echoMode := None; ip_promptText := "Your name?" |} in
  let out := userInput 100 6 ui s in
  let stray := userInput 100 6 (mkInteractionParameters "nope" "" "" "" None None None "") s in
  userInputPluginOf (m_autotestMode s) ui ∈ m_authenticationPlugins s
  /\ out.1 = ResultOf Pending
  /\ (exists shown reply,
        trace out.2 = [EvUserInput "auth" 100 6 shown "" reply]
        /\ ip_applicationId shown = "A"
        /\ ip_promptText shown
           = "An application is requesting input which will be returned to the application: Your name?"
        /\ m_pendingRequests out.2 !! 6%N
           = Some (mkPendingRequest 100 6 UserInputRequest [VInteractionParameters shown]))
  /\ errorCode stray.1 = InvalidExtensionPluginError
  /\ stray.2 = s.
Proof.
  intros s ui out stray.
  assert (Hstray :
    userInputPluginOf (m_autotestMode s)
      (mkInteractionParameters "nope" "" "" "" None None None "")
    ∉ m_authenticationPlugins s) by (vm_compute; set_solver).
  pose proof (user_input_prompt_names_the_caller s 100 6
                (mkInteractionParameters "nope" "" "" "" None None None "")) as [Hnone _].
  specialize (Hnone Hstray).
  assert (Hin : userInputPluginOf (m_autotestMode s) ui ∈ m_authenticationPlugins s)
    by (vm_compute; set_solver).
  pose proof (user_input_prompt_names_the_caller s 100 6 ui) as [_ Hasked].
  destruct (Hasked Hin) as (shown & reply & Htrace & Happ & Hwarned & _ & _ & Hparked).
  assert (Hreply : reply = Demo.ok).
  { assert (Hlast : last (trace out.2) = Some (EvUserInput "auth" 100 6 shown "" reply))
      by (subst out; rewrite Htrace; apply last_snoc).
    vm_compute in Hlast. by injection Hlast. }
  subst reply.
  destruct Hparked as [Hpending Hqueue]; [vm_compute; discriminate|].
  split; [exact Hin|]. split; [exact Hpending|].
  split; [|subst stray; rewrite Hnone; split; reflexivity].
  exists shown, Demo.ok. split; [exact Htrace|]. split; [exact Happ|].
  split; [exact (Hwarned eq_refl eq_refl)|].
  subst out. rewrite Hqueue. apply lookup_insert_eq.
Defined.
